(** * Subsurface [core/device.c]: fake dive profiles and device ids

    A shallow embedding of [fill_samples], [fill_samples_no_avg], [fake_dc],
    [match_id] and [set_dc_deviceid], and the properties of the synthesized
    profile that the specification states.

    Conventions of the embedding.
    - C [int] (32 bits) is a [Z]; every place where the C code converts a
      wider value to [int] goes through [to_int], the wrap to 32 bits.
    - C [double] is IEEE 754 binary64 as specified by the Standard Library's
      [SpecFloat] ([prec = 53], [emax = 1024]); every arithmetic operation is
      rounded once, to nearest with ties to even (no extended precision, no
      fused multiply-add).
    - [lrint] rounds to the nearest integer in the default rounding mode
      (ties to even).
    - a [char *] that may be [NULL] is an [option string].
    - [struct sample] keeps the four fields this file writes after the
      [memset]; all its other fields stay zero and are left out. *)

From Stdlib Require Import ZArith QArith Qround List Bool String Lia Reals Lra Psatz.
From Stdlib Require Import SpecFloat.
Import ListNotations.

Local Open Scope Z_scope.

(** ** Machine integers *)

Definition INT_MIN : Z := - 2 ^ 31.
Definition INT_MAX : Z := 2 ^ 31 - 1.
Definition LONG_MIN : Z := - 2 ^ 63.
Definition LONG_MAX : Z := 2 ^ 63 - 1.

Definition is_int (z : Z) : Prop := INT_MIN <= z <= INT_MAX.

(** Conversion of a wider integer to [int]: reduction modulo 2^32 into
    the signed range. *)
Definition to_int (z : Z) : Z := (z + 2 ^ 31) mod 2 ^ 32 - 2 ^ 31.

(** ** Doubles *)

Module Double.

Definition prec : Z := 53.
Definition emax : Z := 1024.

Definition double : Type := spec_float.

Definition Dsub : double -> double -> double := SFsub prec emax.
Definition Dmul : double -> double -> double := SFmul prec emax.
Definition Ddiv : double -> double -> double := SFdiv prec emax.

(** Conversion [int -> double]; exact, since an [int] has at most 32
    significant bits. *)
Definition of_int (z : Z) : double := binary_normalize prec emax z 0 false.

(** The mantissa of a finite double, signed, at exponent [e0] (which is at
    most the double's own exponent). *)
Definition scaled (e0 : Z) (x : double) : Z :=
  match x with
  | S754_finite s m e => cond_Zopp s (Zpos m * 2 ^ (e - e0))
  | _ => 0
  end.

Definition exponent (x : double) : Z :=
  match x with
  | S754_finite _ _ e => e
  | _ => 0
  end.

(** [x < y] on doubles: false when either is a NaN, otherwise the order of
    the values they denote. *)
Definition Dlt (x y : double) : bool :=
  match x, y with
  | S754_nan, _ | _, S754_nan => false
  | S754_infinity sx, S754_infinity sy => sx && negb sy
  | S754_infinity sx, _ => sx
  | _, S754_infinity sy => negb sy
  | _, _ =>
      let e0 := Z.min (exponent x) (exponent y) in
      scaled e0 x <? scaled e0 y
  end.

Definition Dgt (x y : double) : bool := Dlt y x.

(** [m / d] rounded to the nearest integer, ties to even ([0 <= m], [0 < d]). *)
Definition rne_quot (m d : Z) : Z :=
  let q := m / d in
  match 2 * (m mod d) ?= d with
  | Lt => q
  | Gt => q + 1
  | Eq => if Z.even q then q else q + 1
  end.

(** [lrint]: the nearest [long], ties to even.  Where the C standard leaves
    the result unspecified (NaN, infinities, values outside [long]) this is
    the value x86-64 produces, [LONG_MIN]. *)
Definition lrint (x : double) : Z :=
  match x with
  | S754_zero _ => 0
  | S754_finite s m e =>
      let z := cond_Zopp s (if 0 <=? e then Zpos m * 2 ^ e
                            else rne_quot (Zpos m) (2 ^ (- e))) in
      if (LONG_MIN <=? z) && (z <=? LONG_MAX) then z else LONG_MIN
  | _ => LONG_MIN
  end.

(** The literals of the source, as the nearest doubles. *)
Definition d_0_33 : double := S754_finite false 5944751508129055 (-54).
Definition d_0_10 : double := S754_finite false 7205759403792794 (-56).
Definition d_0_01 : double := S754_finite false 5764607523034235 (-59).

(** [5000.0 / 60], [10000.0 / 60] and [10000.0]. *)
Definition slope_5m : double := Ddiv (of_int 5000) (of_int 60).
Definition slope_10m : double := Ddiv (of_int 10000) (of_int 60).
Definition slope_insane : double := of_int 10000.

End Double.

Import Double.

(** Modelled from the spec: the macro [MAX] of [dive.h] is not part of the
    source file; the spec reads [slope = max(2 * max_depth / max_time,
    5000/60)].  As a C macro on doubles, [a > b ? a : b]. *)
Definition MAX (a b : double) : double := if Dgt a b then a else b.

(** ** Data model *)

Record struct_sample : Type := mk_sample {
  time_seconds : Z;
  depth_mm : Z;
  bearing_degrees : Z;
  ndl_seconds : Z
}.

Record struct_divecomputer : Type := mk_dc {
  duration_seconds : Z;
  maxdepth_mm : Z;
  meandepth_mm : Z;
  last_manual_time_seconds : Z;
  samples : Z;
  sample : list struct_sample;
  deviceid : Z;
  model : option string;
  serial : option string;
  fw_version : option string
}.

(** What [memset (_, 0, _)] leaves in a sample. *)
Definition zero_sample : struct_sample := mk_sample 0 0 0 0.

Definition set_time (t : Z) (p : struct_sample) : struct_sample :=
  mk_sample t (depth_mm p) (bearing_degrees p) (ndl_seconds p).
Definition set_depth (d : Z) (p : struct_sample) : struct_sample :=
  mk_sample (time_seconds p) d (bearing_degrees p) (ndl_seconds p).
Definition set_unavailable (p : struct_sample) : struct_sample :=
  mk_sample (time_seconds p) (depth_mm p) (-1) (-1).

(** [s[i] = f (s[i])]; the source only writes indices below 6, inside the
    array. *)
Fixpoint upd (i : nat) (f : struct_sample -> struct_sample)
    (s : list struct_sample) : list struct_sample :=
  match s, i with
  | [], _ => []
  | p :: s', O => f p :: s'
  | p :: s', S i' => p :: upd i' f s'
  end.

Definition at_ (s : list struct_sample) (i : nat) : struct_sample :=
  nth i s zero_sample.

(** ** [fill_samples] *)

Definition fill_samples (s : list struct_sample) (max_d avg_d max_t : Z)
    (slope d_frac : double) : Z * list struct_sample :=
  let t_frac :=
    Dmul (of_int max_t) (Dsub (of_int 1) (Ddiv (of_int avg_d) (of_int max_d))) in
  let t1 := to_int (lrint (Ddiv (of_int max_d) slope)) in
  let t4 := to_int (lrint (Dsub (of_int max_t) (Dmul (of_int t1) d_frac))) in
  let t3 := to_int (lrint (Dsub (of_int t4)
              (Ddiv (Dsub t_frac (of_int t1)) (Dsub (of_int 1) d_frac)))) in
  let t2 := to_int (lrint (Dsub (of_int t3)
              (Dmul (of_int t1) (Dsub (of_int 1) d_frac)))) in
  if (t1 <? 0) || (t2 <? t1) || (t3 <? t2) || (t4 <? t3) || (max_t <? t4)
  then (0, s)
  else
    let s := upd 1 (set_time t1) s in
    let s := upd 1 (set_depth max_d) s in
    let s := upd 2 (set_time t2) s in
    let s := upd 2 (set_depth max_d) s in
    let s := upd 3 (set_time t3) s in
    let s := upd 3 (set_depth (to_int (lrint (Dmul (of_int max_d) d_frac)))) s in
    let s := upd 4 (set_time t4) s in
    let s := upd 4 (set_depth (to_int (lrint (Dmul (of_int max_d) d_frac)))) s in
    (1, s).

(** ** [fill_samples_no_avg] *)

Definition fill_samples_no_avg (s : list struct_sample) (max_d max_t : Z)
    (slope : double) : list struct_sample :=
  if (max_d <? 10000) || (max_t <? 600) then
    let s := upd 1 (set_time (to_int (lrint (Ddiv (of_int max_d) slope)))) s in
    let s := upd 1 (set_depth max_d) s in
    let s := upd 2 (set_time (to_int (max_t - lrint (Ddiv (of_int max_d) slope)))) s in
    upd 2 (set_depth max_d) s
  else
    let s := upd 1 (set_time (to_int (lrint (Ddiv (of_int max_d) slope)))) s in
    let s := upd 1 (set_depth max_d) s in
    let s := upd 2 (set_time
               (to_int (max_t - lrint (Ddiv (of_int max_d) slope) - 180))) s in
    let s := upd 2 (set_depth max_d) s in
    let s := upd 3 (set_time
               (to_int (max_t - lrint (Ddiv (of_int 5000) slope) - 180))) s in
    let s := upd 3 (set_depth 5000) s in
    let s := upd 4 (set_time (to_int (max_t - lrint (Ddiv (of_int 5000) slope)))) s in
    upd 4 (set_depth 5000) s.

(** ** [fake_dc] *)

(** Modelled from the spec: [alloc_samples] is declared in [dive.h] and
    defined elsewhere.  The spec: "Allocate exactly 6 sample slots"; what the
    slots hold is left open here, the [memset] that follows overwrites it. *)
Definition alloc_samples (old : list struct_sample) (num : nat)
  : list struct_sample :=
  firstn num (old ++ repeat zero_sample num).

(** The array after the [memset], the write of [fake[5].time] and the loop
    that stamps [bearing] and [ndl]. *)
Definition skeleton (old : list struct_sample) (max_t : Z)
  : list struct_sample :=
  let fake := map (fun _ => zero_sample) (alloc_samples old 6) in
  let fake := upd 5 (set_time max_t) fake in
  fold_left (fun s i => upd i set_unavailable s) (seq 0 6) fake.

Definition set_samples (n : Z) (l : list struct_sample)
    (dc : struct_divecomputer) : struct_divecomputer :=
  mk_dc (duration_seconds dc) (maxdepth_mm dc) (meandepth_mm dc)
    (last_manual_time_seconds dc) n l
    (deviceid dc) (model dc) (serial dc) (fw_version dc).

Definition set_last_manual_time (t : Z) (dc : struct_divecomputer)
  : struct_divecomputer :=
  mk_dc (duration_seconds dc) (maxdepth_mm dc) (meandepth_mm dc)
    t (samples dc) (sample dc)
    (deviceid dc) (model dc) (serial dc) (fw_version dc).

(** The replacement of an unreasonable average depth, lines 156-162. *)
Definition sanitize_avg_d (max_d avg_d : Z) : Z :=
  let avg_d :=
    if (avg_d <? Z.quot max_d 10) || (max_d <=? avg_d) then
      let avg_d := Z.quot (to_int (max_d + 10000)) 3 in
      if max_d <? avg_d then Z.quot (to_int (max_d * 2)) 3 else avg_d
    else avg_d in
  if avg_d =? 0 then 1 else avg_d.

Definition fake_dc (dc : struct_divecomputer) : struct_divecomputer :=
  let max_t := duration_seconds dc in
  let max_d := maxdepth_mm dc in
  let avg_d := meandepth_mm dc in
  let fake := skeleton (sample dc) max_t in
  if (max_t =? 0) || (max_d =? 0) then set_samples 0 fake dc
  else
    let dc := set_last_manual_time (duration_seconds dc) dc in
    if avg_d =? 0 then
      let fake :=
        fill_samples_no_avg fake max_d max_t
          (MAX (Ddiv (Dmul (of_int 2) (of_int max_d)) (of_int max_t)) slope_5m) in
      if time_seconds (at_ fake 3) =? 0
      then set_samples 4 (upd 3 (set_time max_t) fake) dc
      else set_samples 6 fake dc
    else
      let avg_d := sanitize_avg_d max_d avg_d in
      let '(ok, fake1) := fill_samples fake max_d avg_d max_t slope_5m d_0_33 in
      if negb (ok =? 0) then set_samples 6 fake1 dc
      else
        let '(ok, fake2) := fill_samples fake max_d avg_d max_t slope_10m d_0_10 in
        if negb (ok =? 0) then set_samples 6 fake2 dc
        else
          let '(ok, fake3) :=
            fill_samples fake max_d avg_d max_t slope_insane d_0_01 in
          if negb (ok =? 0) then set_samples 6 fake3 dc
          else set_samples 6 fake dc.

(** ** Device ids *)

(** One entry of the table of known devices, as handed to the callback of
    [call_for_each_dc]. *)
Record device : Type := mk_device {
  dev_model : option string;
  dev_deviceid : Z;
  dev_nickname : option string;
  dev_serial : option string;
  dev_firmware : option string
}.

Definition is_null {A : Type} (p : option A) : bool :=
  match p with None => true | Some _ => false end.

Definition set_serial (v : option string) (dc : struct_divecomputer)
  : struct_divecomputer :=
  mk_dc (duration_seconds dc) (maxdepth_mm dc) (meandepth_mm dc)
    (last_manual_time_seconds dc) (samples dc) (sample dc)
    (deviceid dc) (model dc) v (fw_version dc).

Definition set_fw_version (v : option string) (dc : struct_divecomputer)
  : struct_divecomputer :=
  mk_dc (duration_seconds dc) (maxdepth_mm dc) (meandepth_mm dc)
    (last_manual_time_seconds dc) (samples dc) (sample dc)
    (deviceid dc) (model dc) (serial dc) v.

Definition set_deviceid (v : Z) (dc : struct_divecomputer)
  : struct_divecomputer :=
  mk_dc (duration_seconds dc) (maxdepth_mm dc) (meandepth_mm dc)
    (last_manual_time_seconds dc) (samples dc) (sample dc)
    v (model dc) (serial dc) (fw_version dc).

(** [!model || !dc->model || strcmp(dc->model, model)] *)
Definition model_mismatch (a b : option string) : bool :=
  match a, b with
  | Some x, Some y => negb (String.eqb y x)
  | _, _ => true
  end.

Definition match_id (dc : struct_divecomputer) (model_ : option string)
    (deviceid_ : Z) (nickname serial_ firmware : option string)
  : struct_divecomputer :=
  if negb (deviceid dc =? deviceid_) then dc
  else if model_mismatch model_ (model dc) then dc
  else
    let dc :=
      if negb (is_null serial_) && is_null (serial dc)
      then set_serial serial_ dc else dc in
    if negb (is_null firmware) && is_null (fw_version dc)
    then set_fw_version firmware dc else dc.

(** Modelled from the spec: [call_for_each_dc] is defined outside this file.
    The spec: for the record, "finds entries matching on (deviceid,
    model-string)" among the known devices; the callback is run once per
    entry of the table, in order, on the same record. *)
Definition call_for_each_dc (table : list device) (dc : struct_divecomputer)
    (callback : struct_divecomputer -> option string -> Z -> option string ->
                option string -> option string -> struct_divecomputer)
  : struct_divecomputer :=
  fold_left
    (fun dc d =>
       callback dc (dev_model d) (dev_deviceid d) (dev_nickname d)
         (dev_serial d) (dev_firmware d))
    table dc.

Definition set_dc_deviceid (table : list device) (dc : struct_divecomputer)
    (deviceid_ : Z) : struct_divecomputer :=
  if negb (deviceid_ =? 0) then
    call_for_each_dc table (set_deviceid deviceid_ dc) match_id
  else dc.

(** ** Reading a profile *)

Definition point (p : struct_sample) : Z * Z := (time_seconds p, depth_mm p).

(** Twice the area under the polyline through the first [n] samples. *)
Fixpoint area2 (n : nat) (s : list struct_sample) : Z :=
  match n, s with
  | S n', p :: ((q :: _) as s') =>
      match n' with
      | O => 0
      | S _ =>
          (time_seconds q - time_seconds p) * (depth_mm q + depth_mm p)
          + area2 n' s'
      end
  | _, _ => 0
  end.

(** Times of the first [n] samples never decrease. *)
Fixpoint time_sorted (n : nat) (s : list struct_sample) : bool :=
  match n, s with
  | S n', p :: ((q :: _) as s') =>
      match n' with
      | O => true
      | S _ => (time_seconds p <=? time_seconds q) && time_sorted n' s'
      end
  | _, _ => true
  end.

(** Depths of the first [n] samples are at most [max_d]. *)
Fixpoint depth_bounded (max_d : Z) (n : nat) (s : list struct_sample) : bool :=
  match n, s with
  | S n', p :: s' => (depth_mm p <=? max_d) && depth_bounded max_d n' s'
  | _, _ => true
  end.

(** The invariant the spec asks of a produced profile with [n] counted
    samples. *)
Definition valid_profile (max_t max_d : Z) (n : nat)
    (s : list struct_sample) : bool :=
  time_sorted n s
  && (fst (point (at_ s 0)) =? 0) && (snd (point (at_ s 0)) =? 0)
  && (fst (point (at_ s (n - 1))) =? max_t)
  && (snd (point (at_ s (n - 1))) =? 0)
  && depth_bounded max_d n s.

(** The samples the skeleton holds. *)
Definition unavailable (t : Z) : struct_sample := mk_sample t 0 (-1) (-1).

(** A dive computer that only carries the three summary values, as
    [fake_dc] receives it for a dive without samples. *)
Definition dive (max_t max_d avg_d : Z) : struct_divecomputer :=
  mk_dc max_t max_d avg_d 0 0 [] 0 None None None.

(** ** The statements of the specification, for comparison *)

(** The spec's wording of the replacement of the average depth: the default
    [(max_depth + 10000) / 3] "capped at" [2 * max_depth / 3]. *)
Definition spec_sanitize_avg_d (max_d avg_d : Z) : Z :=
  let avg_d :=
    if (avg_d <? Z.quot max_d 10) || (max_d <=? avg_d)
    then Z.min (Z.quot (max_d + 10000) 3) (Z.quot (2 * max_d) 3)
    else avg_d in
  if avg_d =? 0 then 1 else avg_d.

(** The spec's shallow-and-short example: the count stays 6 and of the
    inner samples only 1 and 2 are populated. *)
Definition spec_shallow_example (dc : struct_divecomputer) : Prop :=
  samples dc = 6 /\
  point (at_ (sample dc) 1) <> (0, 0) /\
  point (at_ (sample dc) 2) <> (0, 0) /\
  point (at_ (sample dc) 3) = (0, 0) /\
  point (at_ (sample dc) 4) = (0, 0).

(** ** The values of doubles *)

Definition bpow (e : Z) : R := powerRZ 2 e.

(** The real number a finite double denotes (0 for the others). *)
Definition D2R (x : double) : R :=
  match x with
  | S754_finite s m e => (IZR (cond_Zopp s (Zpos m)) * bpow e)%R
  | _ => 0%R
  end.

Definition is_fin (x : double) : bool :=
  match x with
  | S754_zero _ | S754_finite _ _ _ => true
  | _ => false
  end.

(** The exponent of [x], if it has one, is at most [B]. *)
Definition ebound (B : Z) (x : double) : Prop :=
  match x with
  | S754_finite _ _ e => e <= B
  | _ => True
  end.

(** [y] lies in [[m, m + 1)] at the place the location [l] says. *)
Definition located (m : Z) (l : location) (y : R) : Prop :=
  match l with
  | loc_Exact => y = IZR m
  | loc_Inexact Lt => (IZR m < y < IZR m + / 2)%R
  | loc_Inexact Eq => y = (IZR m + / 2)%R
  | loc_Inexact Gt => (IZR m + / 2 < y < IZR m + 1)%R
  end.

(** The exponents of binary64. *)
Definition emin64 : Z := -1074.
Definition fexp64 (e : Z) : Z := Z.max (e - 53) emin64.

Definition rec_located (mrs : shr_record) (y : R) : Prop :=
  located (shr_m mrs) (loc_of_shr_record mrs) y.

(** [r] is a finite double obtained from the real [p] by rounding it to the
    nearest multiple of some [2 ^ E] with [E <= B], or [p] itself. *)
Definition rounded (B : Z) (p : R) (r : double) : Prop :=
  is_fin r = true /\
  (D2R r = p \/
   exists E k : Z,
     emin64 <= E <= B /\
     D2R r = (IZR k * bpow E)%R /\
     (Rabs (IZR k - p * bpow (- E)) <= / 2)%R).

Definition sgn (s : bool) : R := if s then (-1)%R else 1%R.

(** The slope of the branch without an average depth, line 149. *)
Definition no_avg_slope (max_d max_t : Z) : double :=
  MAX (Ddiv (Dmul (of_int 2) (of_int max_d)) (of_int max_t)) slope_5m.

(** ** The closed-form solution, as the code evaluates it *)

Definition t_frac_of (max_d avg_d max_t : Z) : double :=
  Dmul (of_int max_t) (Dsub (of_int 1) (Ddiv (of_int avg_d) (of_int max_d))).

Definition t1_of (max_d : Z) (slope : double) : Z :=
  to_int (lrint (Ddiv (of_int max_d) slope)).

Definition t4_of (max_t t1 : Z) (d_frac : double) : Z :=
  to_int (lrint (Dsub (of_int max_t) (Dmul (of_int t1) d_frac))).

Definition t3_of (t_frac : double) (t1 t4 : Z) (d_frac : double) : Z :=
  to_int (lrint (Dsub (of_int t4)
            (Ddiv (Dsub t_frac (of_int t1)) (Dsub (of_int 1) d_frac)))).

Definition t2_of (t1 t3 : Z) (d_frac : double) : Z :=
  to_int (lrint (Dsub (of_int t3) (Dmul (of_int t1) (Dsub (of_int 1) d_frac)))).

Definition plateau_of (max_d : Z) (d_frac : double) : Z :=
  to_int (lrint (Dmul (of_int max_d) d_frac)).

(** ** The closed-form solution, as the spec words it *)

(** The rational a finite double denotes. *)
Definition D2Q (x : double) : Q :=
  match x with
  | S754_finite s m e => (inject_Z (cond_Zopp s (Zpos m)) * Qpower 2 e)%Q
  | _ => 0%Q
  end.

(** Rounding to the nearest integer, halves away from zero. *)
Definition round_away (q : Q) : Z :=
  if Qle_bool 0 q then Qfloor (q + (1 # 2))%Q
  else - Qfloor (- q + (1 # 2))%Q.

(** The spec's single attempt: the formulas over the reals (here the
    rationals, which contain every value involved), each result rounded
    half away from zero. *)
Definition spec_fill_samples (s : list struct_sample) (max_d avg_d max_t : Z)
    (slope d_frac : Q) : Z * list struct_sample :=
  let t_frac :=
    (inject_Z max_t * (1 - inject_Z avg_d / inject_Z max_d))%Q in
  let t1 := round_away (inject_Z max_d / slope)%Q in
  let t4 := round_away (inject_Z max_t - inject_Z t1 * d_frac)%Q in
  let t3 :=
    round_away (inject_Z t4 - (t_frac - inject_Z t1) / (1 - d_frac))%Q in
  let t2 := round_away (inject_Z t3 - inject_Z t1 * (1 - d_frac))%Q in
  let d := round_away (d_frac * inject_Z max_d)%Q in
  if (0 <=? t1) && (t1 <=? t2) && (t2 <=? t3) && (t3 <=? t4) && (t4 <=? max_t)
  then (1, upd 4 (fun p => set_depth d (set_time t4 p))
             (upd 3 (fun p => set_depth d (set_time t3 p))
                (upd 2 (fun p => set_depth max_d (set_time t2 p))
                   (upd 1 (fun p => set_depth max_d (set_time t1 p)) s))))
  else (0, s).

(** The array after the three attempts of lines 168-185. *)
Definition attempts (fake : list struct_sample) (max_d avg_d max_t : Z)
  : list struct_sample :=
  let '(ok, fake1) := fill_samples fake max_d avg_d max_t slope_5m d_0_33 in
  if negb (ok =? 0) then fake1
  else
    let '(ok, fake2) := fill_samples fake max_d avg_d max_t slope_10m d_0_10 in
    if negb (ok =? 0) then fake2
    else
      let '(ok, fake3) :=
        fill_samples fake max_d avg_d max_t slope_insane d_0_01 in
      if negb (ok =? 0) then fake3 else fake.

(** The array of an accepted attempt. *)
Definition six_points (t1 t2 t3 t4 max_t max_d d : Z) : list struct_sample :=
  [unavailable 0; mk_sample t1 max_d (-1) (-1); mk_sample t2 max_d (-1) (-1);
   mk_sample t3 d (-1) (-1); mk_sample t4 d (-1) (-1); unavailable max_t].

(** What the proofs need of a [d_frac]: a double in [(0, 1/2]], with the
    exponent such a double has. *)
Definition fraction (d : double) : Prop :=
  is_fin d = true /\ ebound (- 53) d /\ (0 < D2R d <= / 2)%R.

(** Twice the distance between the area under the six samples and
    [avg_depth * max_time]. *)
Definition area_deviation (dc : struct_divecomputer) : Z :=
  Z.abs (area2 6 (sample (fake_dc dc))
         - 2 * (meandepth_mm dc * duration_seconds dc)).

(** ** Further readings of the code *)

(** [fake_dc] found nothing to synthesize from. *)
Definition no_data (dc : struct_divecomputer) : bool :=
  (duration_seconds dc =? 0) || (maxdepth_mm dc =? 0).

(** The sample carries the "unavailable" sentinels. *)
Definition is_unavailable (p : struct_sample) : bool :=
  (bearing_degrees p =? -1) && (ndl_seconds p =? -1).

(** The shape every array [fake_dc] leaves: six samples, all with the
    sentinels, the first at (0, 0) and the sixth at [(max_t, 0)]. *)
Definition six_stamped (max_t : Z) (l : list struct_sample) : bool :=
  (Nat.eqb (List.length l) 6)
  && forallb is_unavailable l
  && (time_seconds (at_ l 0) =? 0) && (depth_mm (at_ l 0) =? 0)
  && (time_seconds (at_ l 5) =? max_t) && (depth_mm (at_ l 5) =? 0).

(** The entry of the table of known devices is one [match_id] lets
    through for the record: same device id, both models present and equal. *)
Definition device_matches (dc : struct_divecomputer) (d : device) : bool :=
  (deviceid dc =? dev_deviceid d)
  && negb (model_mismatch (dev_model d) (model dc)).

(** What the first matching entry that has the string [get] offers. *)
Definition offered (get : device -> option string) (dc : struct_divecomputer)
    (table : list device) : option string :=
  match find (fun d => device_matches dc d && negb (is_null (get d))) table with
  | Some d => get d
  | None => None
  end.

(** A field that is set is kept, one that is not takes what is offered. *)
Definition fill_in (old new : option string) : option string :=
  match old with
  | Some v => Some v
  | None => new
  end.

(** ** The deep-and-long case, as the spec words it *)

(** The spec's slope of the branch without an average depth,
    [max(2 * max_depth / max_time, 5000/60)], over the rationals. *)
Definition spec_no_avg_slope (max_d max_t : Z) : Q :=
  let a := (2 * inject_Z max_d / inject_Z max_t)%Q in
  let b := (5000 # 60)%Q in
  if Qle_bool a b then b else a.

(** The spec's sample 1 of the deep-and-long case,
    [(round(max_depth / slope), max_depth)], with the spec's rounding. *)
Definition spec_deep_sample1 (max_d max_t : Z) : Z * Z :=
  (round_away (inject_Z max_d / spec_no_avg_slope max_d max_t)%Q, max_d).

(** ** The skeleton *)

Lemma alloc_samples_length (old : list struct_sample) (num : nat) :
  List.length (alloc_samples old num) = num.
Proof.
  unfold alloc_samples. rewrite firstn_length_le; [reflexivity|].
  rewrite length_app, repeat_length. lia.
Qed.

Lemma skeleton_eq (old : list struct_sample) (max_t : Z) :
  skeleton old max_t =
  [unavailable 0; unavailable 0; unavailable 0; unavailable 0; unavailable 0;
   unavailable max_t].
Proof.
  unfold skeleton. pose proof (alloc_samples_length old 6) as H.
  destruct (alloc_samples old 6) as [|a0 [|a1 [|a2 [|a3 [|a4 [|a5 [|a6 l]]]]]]];
    simpl in H; try discriminate.
  reflexivity.
Qed.

(** The literals are the doubles nearest to 33/100, 1/10 and 1/100: the
    correctly rounded quotients. *)
Lemma literals_nearest :
  d_0_33 = Ddiv (of_int 33) (of_int 100) /\
  d_0_10 = Ddiv (of_int 1) (of_int 10) /\
  d_0_01 = Ddiv (of_int 1) (of_int 100).
Proof. repeat split; vm_compute; reflexivity. Qed.

(** ** Device ids *)

Lemma match_id_serial (dc : struct_divecomputer) (m : option string) (id : Z)
    (n s f : option string) (v : string) :
  serial dc = Some v -> serial (match_id dc m id n s f) = Some v.
Proof.
  intros H. unfold match_id.
  destruct (negb (deviceid dc =? id)); [exact H|].
  destruct (model_mismatch m (model dc)); [exact H|].
  rewrite H. simpl. rewrite andb_false_r.
  destruct (negb (is_null f) && is_null (fw_version dc)); exact H.
Qed.

Lemma match_id_fw_version (dc : struct_divecomputer) (m : option string)
    (id : Z) (n s f : option string) (v : string) :
  fw_version dc = Some v -> fw_version (match_id dc m id n s f) = Some v.
Proof.
  intros H. unfold match_id.
  destruct (negb (deviceid dc =? id)); [exact H|].
  destruct (model_mismatch m (model dc)); [exact H|].
  destruct (negb (is_null s) && is_null (serial dc)); simpl;
    rewrite H; simpl; rewrite andb_false_r; exact H.
Qed.

Lemma call_for_each_dc_keeps (table : list device) :
  forall dc : struct_divecomputer,
    (forall v, serial dc = Some v ->
               serial (call_for_each_dc table dc match_id) = Some v) /\
    (forall v, fw_version dc = Some v ->
               fw_version (call_for_each_dc table dc match_id) = Some v).
Proof.
  unfold call_for_each_dc.
  induction table as [|d table IH]; intros dc; simpl.
  - split; intros v H; exact H.
  - destruct (IH (match_id dc (dev_model d) (dev_deviceid d) (dev_nickname d)
                    (dev_serial d) (dev_firmware d))) as [IHs IHf].
    split; intros v H.
    + apply IHs. apply match_id_serial. exact H.
    + apply IHf. apply match_id_fw_version. exact H.
Qed.

(** C9: with [deviceid = 0] the record is left as it is; with any
    [deviceid], a serial or firmware version the record already has is
    kept, whatever the table of known devices offers. *)
Theorem C9_set_dc_deviceid_frame (table : list device)
    (dc : struct_divecomputer) :
  set_dc_deviceid table dc 0 = dc /\
  (forall (id : Z) (v : string),
      serial dc = Some v -> serial (set_dc_deviceid table dc id) = Some v) /\
  (forall (id : Z) (v : string),
      fw_version dc = Some v ->
      fw_version (set_dc_deviceid table dc id) = Some v).
Proof.
  split; [reflexivity|].
  split; intros id v H; unfold set_dc_deviceid;
    destruct (negb (id =? 0)); try exact H;
    apply (call_for_each_dc_keeps table (set_deviceid id dc)); exact H.
Qed.

(** C9 at a record with a serial and a firmware version, and a table whose
    matching entry offers other ones. *)
Lemma C9_set_dc_deviceid_frame_witness :
  let dc := mk_dc 0 0 0 0 0 [] 7 (Some "Vyper"%string) (Some "A1"%string) (Some "1.0"%string) in
  let table := [mk_device (Some "Vyper"%string) 7 None (Some "B2"%string) (Some "2.0"%string)] in
  set_dc_deviceid table dc 0 = dc /\
  serial (set_dc_deviceid table dc 7) = Some "A1"%string /\
  fw_version (set_dc_deviceid table dc 7) = Some "1.0"%string.
Proof.
  intros dc table.
  destruct (C9_set_dc_deviceid_frame table dc) as [H0 [Hs Hf]].
  split; [exact H0|].
  split; [apply Hs; reflexivity | apply Hf; reflexivity].
Defined.

(** C10: [match_id] changes the record only when the device ids are equal
    and both model strings are present and equal; with either model string
    missing the record is left as it is, also when the ids match. *)
Theorem C10_match_id_guard (dc : struct_divecomputer) (m : option string)
    (id : Z) (n s f : option string) :
  (match_id dc m id n s f <> dc ->
   deviceid dc = id /\ exists v, m = Some v /\ model dc = Some v) /\
  (m = None \/ model dc = None -> match_id dc m id n s f = dc).
Proof.
  split.
  - unfold match_id. intros H.
    destruct (deviceid dc =? id) eqn:Hid; simpl in H; [|congruence].
    apply Z.eqb_eq in Hid. split; [exact Hid|].
    destruct m as [x|]; simpl in H; [|congruence].
    destruct (model dc) as [y|] eqn:Hm; simpl in H; [|congruence].
    destruct (String.eqb y x) eqn:Hxy; simpl in H; [|congruence].
    apply String.eqb_eq in Hxy. subst y. exists x. split; reflexivity.
  - intros [H | H]; unfold match_id; rewrite H;
      destruct (negb (deviceid dc =? id)); try reflexivity;
      destruct m; reflexivity.
Qed.

(** C10 at a record without a model string and an entry with the same id. *)
Lemma C10_match_id_guard_witness :
  let dc := mk_dc 0 0 0 0 0 [] 7 None None None in
  match_id dc (Some "Vyper"%string) 7 None (Some "B2"%string) (Some "2.0"%string) = dc.
Proof.
  intros dc.
  apply (proj2 (C10_match_id_guard dc (Some "Vyper"%string) 7 None
                  (Some "B2"%string) (Some "2.0"%string))).
  right. reflexivity.
Defined.

(** ** No data: [max_time = 0] or [max_depth = 0] *)

(** C6: with [max_time = 0] or [max_depth = 0] the record ends with a sample
    count of 0, [last_manual_time] as it was, and the array holding nothing
    but the zeroed skeleton with its sentinels. *)
Theorem C6_no_data_empty_profile (dc : struct_divecomputer) :
  duration_seconds dc = 0 \/ maxdepth_mm dc = 0 ->
  samples (fake_dc dc) = 0 /\
  last_manual_time_seconds (fake_dc dc) = last_manual_time_seconds dc /\
  sample (fake_dc dc) =
    [unavailable 0; unavailable 0; unavailable 0; unavailable 0;
     unavailable 0; unavailable (duration_seconds dc)].
Proof.
  intros H. unfold fake_dc.
  assert (E : (duration_seconds dc =? 0) || (maxdepth_mm dc =? 0) = true).
  { destruct H as [H | H]; rewrite H; simpl; auto using orb_true_r. }
  rewrite E. simpl. rewrite skeleton_eq. auto.
Qed.

(** C6 at a dive of depth 100 m and no duration. *)
Lemma C6_no_data_empty_profile_witness :
  samples (fake_dc (dive 0 100000 50000)) = 0 /\
  last_manual_time_seconds (fake_dc (dive 0 100000 50000)) = 0 /\
  sample (fake_dc (dive 0 100000 50000)) =
    [unavailable 0; unavailable 0; unavailable 0; unavailable 0;
     unavailable 0; unavailable 0].
Proof.
  apply (C6_no_data_empty_profile (dive 0 100000 50000)).
  left. reflexivity.
Defined.

(** ** The average depth that is used *)

Lemma to_int_id (z : Z) : is_int z -> to_int z = z.
Proof.
  unfold is_int, INT_MIN, INT_MAX, to_int. intros H.
  rewrite Z.mod_small; lia.
Qed.

(** C7 as the spec words it fails: at [max_depth = avg_depth = 6000] the
    code takes the default 5333 although it is above the cap 4000. *)
Lemma C7_capped_default_counterexample :
  sanitize_avg_d 6000 6000 = 5333 /\ spec_sanitize_avg_d 6000 6000 = 4000.
Proof. split; reflexivity. Qed.

(** C7, amended: an average depth inside [[max_depth/10, max_depth)] is used
    as it is; one outside is replaced by [(max_depth + 10000) / 3] when
    that is at most [max_depth] and by [max_depth * 2 / 3] otherwise; a
    result of zero becomes 1. *)
Theorem C7_sanitize_avg_d (max_d avg_d : Z) :
  - 2 ^ 30 <= max_d <= INT_MAX - 10000 ->
  avg_d <> 0 ->
  (Z.quot max_d 10 <= avg_d < max_d -> sanitize_avg_d max_d avg_d = avg_d) /\
  (avg_d < Z.quot max_d 10 \/ max_d <= avg_d ->
   (Z.quot (max_d + 10000) 3 <= max_d ->
    sanitize_avg_d max_d avg_d =
      if Z.quot (max_d + 10000) 3 =? 0 then 1 else Z.quot (max_d + 10000) 3) /\
   (max_d < Z.quot (max_d + 10000) 3 ->
    sanitize_avg_d max_d avg_d =
      if Z.quot (max_d * 2) 3 =? 0 then 1 else Z.quot (max_d * 2) 3)) /\
  sanitize_avg_d max_d avg_d <> 0.
Proof.
  unfold INT_MAX. intros Hd Ha. unfold sanitize_avg_d.
  rewrite (to_int_id (max_d + 10000)) by (unfold is_int, INT_MIN, INT_MAX; lia).
  split; [|split].
  - intros [H1 H2].
    replace (avg_d <? Z.quot max_d 10) with false by (symmetry; apply Z.ltb_ge; lia).
    replace (max_d <=? avg_d) with false by (symmetry; apply Z.leb_gt; lia).
    simpl. destruct (avg_d =? 0) eqn:E; [apply Z.eqb_eq in E; lia | reflexivity].
  - intros H.
    assert (E : (avg_d <? Z.quot max_d 10) || (max_d <=? avg_d) = true).
    { destruct H as [H | H].
      - apply Z.ltb_lt in H. rewrite H. reflexivity.
      - apply Z.leb_le in H. rewrite H. apply orb_true_r. }
    rewrite E. split; intros H1.
    + replace (max_d <? Z.quot (max_d + 10000) 3) with false
        by (symmetry; apply Z.ltb_ge; lia).
      reflexivity.
    + assert (Hs : max_d < 5000).
      { destruct (Z_lt_le_dec max_d 5000) as [Hlt | Hge]; [exact Hlt|].
        rewrite Z.quot_div_nonneg in H1 by lia.
        pose proof (Z.div_le_upper_bound (max_d + 10000) 3 max_d). lia. }
      rewrite to_int_id by (unfold is_int, INT_MIN, INT_MAX; lia).
      apply Z.ltb_lt in H1. rewrite H1. reflexivity.
  - match goal with |- (if ?c =? 0 then _ else _) <> 0 =>
      destruct (c =? 0) eqn:E; [lia | apply Z.eqb_neq in E; exact E] end.
Qed.

(** C7 at the input of the counterexample. *)
Lemma C7_sanitize_avg_d_witness : sanitize_avg_d 6000 6000 = 5333.
Proof.
  assert (Hd : - 2 ^ 30 <= 6000 <= INT_MAX - 10000) by (unfold INT_MAX; lia).
  assert (Ha : 6000 <> 0) by lia.
  destruct (C7_sanitize_avg_d 6000 6000 Hd Ha) as [_ [H _]].
  destruct H as [H _]; [right; lia|].
  apply H. vm_compute. discriminate.
Defined.

(** ** All three attempts rejected *)

Lemma fill_samples_reject (s : list struct_sample) (max_d avg_d max_t : Z)
    (slope d_frac : double) :
  fst (fill_samples s max_d avg_d max_t slope d_frac) = 0 ->
  fill_samples s max_d avg_d max_t slope d_frac = (0, s).
Proof.
  unfold fill_samples.
  match goal with |- context [if ?c then _ else _] => destruct c end;
    simpl; [reflexivity | discriminate].
Qed.

(** C8: when the three attempts are all rejected, the record is left with
    a count of 6, the zeroed skeleton with its sentinels (samples 1 to 4 at
    time 0 and depth 0, sample 5 at [max_time]) and [last_manual_time] set
    to the duration. *)
Theorem C8_attempts_exhausted (dc : struct_divecomputer) :
  let max_t := duration_seconds dc in
  let max_d := maxdepth_mm dc in
  let avg_d := sanitize_avg_d max_d (meandepth_mm dc) in
  let fake := skeleton (sample dc) max_t in
  max_t <> 0 -> max_d <> 0 -> meandepth_mm dc <> 0 ->
  fst (fill_samples fake max_d avg_d max_t slope_5m d_0_33) = 0 ->
  fst (fill_samples fake max_d avg_d max_t slope_10m d_0_10) = 0 ->
  fst (fill_samples fake max_d avg_d max_t slope_insane d_0_01) = 0 ->
  fake_dc dc =
    mk_dc max_t max_d (meandepth_mm dc) max_t 6
      [unavailable 0; unavailable 0; unavailable 0; unavailable 0;
       unavailable 0; unavailable max_t]
      (deviceid dc) (model dc) (serial dc) (fw_version dc).
Proof.
  intros max_t max_d avg_d fake Ht Hd Ha H1 H2 H3.
  unfold fake_dc. fold max_t max_d. fold avg_d. fold fake.
  apply Z.eqb_neq in Ht, Hd, Ha. rewrite Ht, Hd, Ha. simpl.
  rewrite (fill_samples_reject _ _ _ _ _ _ H1).
  rewrite (fill_samples_reject _ _ _ _ _ _ H2).
  rewrite (fill_samples_reject _ _ _ _ _ _ H3).
  simpl. unfold fake. rewrite skeleton_eq. reflexivity.
Qed.

(** C8 at a dive to 100 m that lasts one second. *)
Lemma C8_attempts_exhausted_witness :
  fake_dc (dive 1 100000 50000) =
    mk_dc 1 100000 50000 1 6
      [unavailable 0; unavailable 0; unavailable 0; unavailable 0;
       unavailable 0; unavailable 1]
      0 None None None.
Proof.
  apply (C8_attempts_exhausted (dive 1 100000 50000));
    vm_compute; (reflexivity || discriminate).
Defined.

(** ** The shallow-and-short example *)

(** C4 as the spec words it fails: the count does not stay 6, and sample 3
    does not stay at zero. *)
Lemma C4_shallow_example_counterexample :
  ~ spec_shallow_example (fake_dc (dive 500 8000 0)).
Proof.
  unfold spec_shallow_example. intros [H _]. vm_compute in H. discriminate.
Qed.

(** C4, amended: for [avg_depth = 0], [max_depth = 8000], [max_time = 500]
    samples 1 and 2 are (96, 8000) and (404, 8000), the time of sample 3 is
    overwritten with [max_time], and the count is 4. *)
Theorem C4_shallow_example (dc : struct_divecomputer) :
  duration_seconds dc = 500 -> maxdepth_mm dc = 8000 -> meandepth_mm dc = 0 ->
  samples (fake_dc dc) = 4 /\
  sample (fake_dc dc) =
    [unavailable 0; mk_sample 96 8000 (-1) (-1); mk_sample 404 8000 (-1) (-1);
     unavailable 500; unavailable 0; unavailable 500].
Proof.
  intros Ht Hd Ha. unfold fake_dc. rewrite Ht, Hd, Ha, skeleton_eq.
  vm_compute. split; reflexivity.
Qed.

(** C4 at a record that carries nothing but the three values. *)
Lemma C4_shallow_example_witness :
  samples (fake_dc (dive 500 8000 0)) = 4 /\
  sample (fake_dc (dive 500 8000 0)) =
    [unavailable 0; mk_sample 96 8000 (-1) (-1); mk_sample 404 8000 (-1) (-1);
     unavailable 500; unavailable 0; unavailable 500].
Proof.
  apply (C4_shallow_example (dive 500 8000 0)); reflexivity.
Defined.

(** ** Powers of two *)

Lemma bpow_pos (e : Z) : (0 < bpow e)%R.
Proof. apply powerRZ_lt. lra. Qed.

Lemma bpow_add (a b : Z) : bpow (a + b) = (bpow a * bpow b)%R.
Proof. apply powerRZ_add. lra. Qed.

Lemma bpow_0 : bpow 0 = 1%R.
Proof. reflexivity. Qed.

Lemma bpow_opp (e : Z) : bpow (- e) = (/ bpow e)%R.
Proof. apply powerRZ_neg'. Qed.

Lemma bpow_IZR (n : Z) : 0 <= n -> bpow n = IZR (2 ^ n).
Proof.
  intros H. unfold bpow.
  rewrite <- (Z2Nat.id n H), <- pow_powerRZ, pow_IZR. reflexivity.
Qed.

Lemma bpow_le (a b : Z) : a <= b -> (bpow a <= bpow b)%R.
Proof.
  intros H. replace b with (a + (b - a)) by lia.
  rewrite bpow_add, (bpow_IZR (b - a)) by lia.
  assert (1 <= 2 ^ (b - a)) by (apply Z.lt_pred_le, Z.pow_pos_nonneg; lia).
  apply IZR_le in H0. pose proof (bpow_pos a). nra.
Qed.

Lemma bpow_lt (a b : Z) : a < b -> (bpow a < bpow b)%R.
Proof.
  intros H. replace b with (a + (b - a)) by lia.
  rewrite bpow_add, (bpow_IZR (b - a)) by lia.
  assert (2 ^ 1 <= 2 ^ (b - a)) by (apply Z.pow_le_mono_r; lia).
  apply IZR_le in H0. simpl in H0. pose proof (bpow_pos a). nra.
Qed.

Lemma bpow_cancel (e : Z) : (bpow e * bpow (- e) = 1)%R.
Proof. rewrite <- bpow_add, Z.add_opp_diag_r. reflexivity. Qed.

(** ** Digits *)

Lemma digits2_pos_bounds (p : positive) :
  2 ^ (Zpos (digits2_pos p) - 1) <= Zpos p < 2 ^ Zpos (digits2_pos p).
Proof.
  induction p as [p IH | p IH |]; simpl digits2_pos.
  - rewrite Pos2Z.inj_succ.
    replace (Z.succ (Zpos (digits2_pos p)) - 1)
      with (Z.succ (Zpos (digits2_pos p) - 1)) by lia.
    rewrite !Z.pow_succ_r by lia. lia.
  - rewrite Pos2Z.inj_succ.
    replace (Z.succ (Zpos (digits2_pos p)) - 1)
      with (Z.succ (Zpos (digits2_pos p) - 1)) by lia.
    rewrite !Z.pow_succ_r by lia. lia.
  - simpl. lia.
Qed.

Lemma Zdigits2_bounds (m : Z) :
  0 < m -> 2 ^ (Zdigits2 m - 1) <= m < 2 ^ Zdigits2 m.
Proof.
  destruct m as [|p|p]; try lia. intros _. apply digits2_pos_bounds.
Qed.

Lemma Zdigits2_nonneg (m : Z) : 0 <= Zdigits2 m.
Proof. destruct m; simpl; lia. Qed.

Lemma Zdigits2_lt (m d : Z) : 0 <= m -> 0 <= d -> Zdigits2 m <= d -> m < 2 ^ d.
Proof.
  intros Hm Hd H. destruct (Z.eq_dec m 0) as [-> | Hz].
  - apply Z.pow_pos_nonneg; lia.
  - pose proof (Zdigits2_bounds m ltac:(lia)) as [_ Hb].
    pose proof (Z.pow_le_mono_r 2 (Zdigits2 m) d ltac:(lia) H). lia.
Qed.

Lemma Zdigits2_le (m d : Z) : 0 <= m -> 0 <= d -> m < 2 ^ d -> Zdigits2 m <= d.
Proof.
  intros Hm Hd H. destruct (Z.eq_dec m 0) as [-> | Hz]; [simpl; lia|].
  pose proof (Zdigits2_bounds m ltac:(lia)) as [Hb _].
  destruct (Z_le_gt_dec (Zdigits2 m) d) as [Hle | Hgt]; [exact Hle|].
  pose proof (Z.pow_le_mono_r 2 d (Zdigits2 m - 1) ltac:(lia) ltac:(lia)). lia.
Qed.

(** ** Shifting a mantissa to the right *)

Lemma fexp64_eq (e : Z) : SpecFloat.fexp prec emax e = fexp64 e.
Proof. reflexivity. Qed.

Lemma loc_of_shr_record_of_loc (m : Z) (l : location) :
  loc_of_shr_record (shr_record_of_loc m l) = l /\
  shr_m (shr_record_of_loc m l) = m.
Proof. destruct l as [|[ | | ]]; split; reflexivity. Qed.

Lemma shr_1_located (mrs : shr_record) (y : R) :
  0 <= shr_m mrs -> rec_located mrs y ->
  rec_located (shr_1 mrs) (y * / 2) /\ shr_m (shr_1 mrs) = shr_m mrs / 2.
Proof.
  destruct mrs as [m r s]. unfold rec_located. simpl shr_m. intros Hm H.
  destruct m as [|p|p]; [| |lia].
  - destruct r, s; simpl in *; split; try reflexivity; lra.
  - destruct p as [p|p|].
    + assert (E : IZR (Zpos p~1) = (2 * IZR (Zpos p) + 1)%R)
        by (rewrite Pos2Z.inj_xI, plus_IZR, mult_IZR; reflexivity).
      split; [|unfold shr_1; cbn [shr_m]; rewrite Pos2Z.inj_xI;
               apply Z.div_unique with 1; lia].
      destruct r, s; simpl in *; rewrite E in H; lra.
    + assert (E : IZR (Zpos p~0) = (2 * IZR (Zpos p))%R)
        by (rewrite Pos2Z.inj_xO, mult_IZR; reflexivity).
      split; [|unfold shr_1; cbn [shr_m]; rewrite Pos2Z.inj_xO;
               apply Z.div_unique with 0; lia].
      destruct r, s; simpl in *; rewrite E in H; lra.
    + split; [|reflexivity].
      destruct r, s; simpl in *; lra.
Qed.

Lemma pow2_xO (n : positive) : 2 ^ Zpos n~0 = 2 ^ Zpos n * 2 ^ Zpos n.
Proof. rewrite <- Z.pow_add_r by lia. f_equal. lia. Qed.

Lemma pow2_xI (n : positive) : 2 ^ Zpos n~1 = 2 * (2 ^ Zpos n * 2 ^ Zpos n).
Proof.
  rewrite <- Z.pow_add_r, <- Z.pow_succ_r by lia. f_equal. lia.
Qed.

Lemma iter_shr_1_located (n : positive) :
  forall (mrs : shr_record) (y : R),
    0 <= shr_m mrs -> rec_located mrs y ->
    rec_located (iter_pos shr_1 n mrs) (y * bpow (- Zpos n)) /\
    shr_m (iter_pos shr_1 n mrs) = shr_m mrs / 2 ^ Zpos n.
Proof.
  assert (Hhalf : bpow (- 1) = (/ 2)%R) by (unfold bpow; simpl; lra).
  induction n as [n IH | n IH |]; intros mrs y Hm H; simpl iter_pos.
  - destruct (shr_1_located mrs y Hm H) as [H1 E1].
    assert (Hm1 : 0 <= shr_m (shr_1 mrs)) by (rewrite E1; apply Z.div_pos; lia).
    destruct (IH _ _ Hm1 H1) as [H2 E2].
    assert (Hm2 : 0 <= shr_m (iter_pos shr_1 n (shr_1 mrs)))
      by (rewrite E2; apply Z.div_pos; [lia | apply Z.pow_pos_nonneg; lia]).
    destruct (IH _ _ Hm2 H2) as [H3 E3]. split.
    + replace (y * bpow (- Zpos n~1))%R
        with (y * / 2 * bpow (- Zpos n) * bpow (- Zpos n))%R; [exact H3|].
      rewrite Pos2Z.inj_xI.
      replace (- (2 * Zpos n + 1)) with (- 1 + (- Zpos n + - Zpos n)) by lia.
      rewrite !bpow_add, Hhalf. ring.
    + rewrite E3, E2, E1, !Z.div_div by (try apply Z.pow_pos_nonneg; lia).
      f_equal. rewrite pow2_xI. ring.
  - destruct (IH _ _ Hm H) as [H2 E2].
    assert (Hm2 : 0 <= shr_m (iter_pos shr_1 n mrs))
      by (rewrite E2; apply Z.div_pos; [lia | apply Z.pow_pos_nonneg; lia]).
    destruct (IH _ _ Hm2 H2) as [H3 E3]. split.
    + replace (y * bpow (- Zpos n~0))%R
        with (y * bpow (- Zpos n) * bpow (- Zpos n))%R; [exact H3|].
      rewrite Pos2Z.inj_xO.
      replace (- (2 * Zpos n)) with (- Zpos n + - Zpos n) by lia.
      rewrite !bpow_add. ring.
    + rewrite E3, E2, !Z.div_div by (try apply Z.pow_pos_nonneg; lia).
      f_equal. rewrite pow2_xO. ring.
  - destruct (shr_1_located mrs y Hm H) as [H1 E1]. split.
    + change (- Zpos 1) with (- 1). rewrite Hhalf. exact H1.
    + exact E1.
Qed.

Lemma round_nearest_even_located (m : Z) (l : location) (y : R) :
  located m l y ->
  (Rabs (IZR (round_nearest_even m l) - y) <= / 2)%R /\
  m <= round_nearest_even m l <= m + 1.
Proof.
  intros H. destruct l as [|[ | | ]]; simpl in *.
  - subst y. split; [|lia].
    replace (IZR m - IZR m)%R with 0%R by ring. rewrite Rabs_R0. lra.
  - destruct (Z.even m); [|rewrite plus_IZR]; subst y; split; try lia;
      apply Rabs_le; lra.
  - split; [|lia]. apply Rabs_le. lra.
  - split; [|lia]. rewrite plus_IZR. apply Rabs_le. lra.
Qed.

(** ** Rounding to binary64 *)

Lemma fexp64_ge (e : Z) : emin64 <= fexp64 e /\ e - 53 <= fexp64 e.
Proof. unfold fexp64. lia. Qed.

Lemma shr_fexp_first (mx ex : Z) (lx : location) (y : R) :
  0 <= mx -> located mx lx y ->
  let E := Z.max ex (fexp64 (Zdigits2 mx + ex)) in
  exists mrs : shr_record,
    shr_fexp prec emax mx ex lx = (mrs, E) /\
    rec_located mrs (y * bpow (ex - E)) /\
    0 <= shr_m mrs < 2 ^ 53.
Proof.
  intros Hm Hy E. unfold shr_fexp. rewrite fexp64_eq.
  destruct (loc_of_shr_record_of_loc mx lx) as [Hl Hs].
  assert (Hr : rec_located (shr_record_of_loc mx lx) y)
    by (unfold rec_located; rewrite Hl, Hs; exact Hy).
  pose proof (fexp64_ge (Zdigits2 mx + ex)) as [_ Hf].
  pose proof (Zdigits2_nonneg mx) as Hd.
  destruct (fexp64 (Zdigits2 mx + ex) - ex) as [|p|p] eqn:En; unfold shr.
  - exists (shr_record_of_loc mx lx).
    replace E with ex by (unfold E; lia).
    rewrite Z.sub_diag, bpow_0, Rmult_1_r, Hs.
    repeat split; try assumption. apply Zdigits2_lt; lia.
  - exists (iter_pos shr_1 p (shr_record_of_loc mx lx)).
    replace E with (ex + Zpos p) by (unfold E; lia).
    destruct (iter_shr_1_located p _ y ltac:(rewrite Hs; exact Hm) Hr)
      as [H1 E1].
    replace (ex - (ex + Zpos p)) with (- Zpos p) by lia.
    repeat split; try assumption; rewrite E1, Hs.
    + apply Z.div_pos; [lia | apply Z.pow_pos_nonneg; lia].
    + apply Z.div_lt_upper_bound; [apply Z.pow_pos_nonneg; lia|].
      rewrite <- Z.pow_add_r by lia. apply Zdigits2_lt; lia.
  - exists (shr_record_of_loc mx lx).
    replace E with ex by (unfold E; lia).
    rewrite Z.sub_diag, bpow_0, Rmult_1_r, Hs.
    repeat split; try assumption. apply Zdigits2_lt; lia.
Qed.

Lemma shr_fexp_second (k E : Z) :
  emin64 <= E -> 0 <= k <= 2 ^ 53 ->
  shr_fexp prec emax k E loc_Exact =
    if k =? 2 ^ 53 then (Build_shr_record (2 ^ 52) false false, E + 1)
    else (Build_shr_record k false false, E).
Proof.
  intros HE Hk. unfold shr_fexp. rewrite fexp64_eq.
  destruct (k =? 2 ^ 53) eqn:Ek.
  - apply Z.eqb_eq in Ek. subst k.
    change (Zdigits2 (2 ^ 53)) with 54.
    replace (fexp64 (54 + E) - E) with 1 by (unfold fexp64, emin64 in *; lia).
    reflexivity.
  - apply Z.eqb_neq in Ek.
    assert (Hd : Zdigits2 k <= 53) by (apply Zdigits2_le; lia).
    pose proof (Zdigits2_nonneg k).
    destruct (fexp64 (Zdigits2 k + E) - E) as [|p|p] eqn:En;
      try reflexivity.
    unfold fexp64, emin64 in *. lia.
Qed.

Lemma binary_round_aux_spec (sx : bool) (mx ex : Z) (lx : location) (y : R) :
  0 <= mx -> located mx lx y ->
  let E := Z.max ex (fexp64 (Zdigits2 mx + ex)) in
  exists k : Z,
    0 <= k <= 2 ^ 53 /\
    (Rabs (IZR k - y * bpow (ex - E)) <= / 2)%R /\
    ((k = 0 /\ binary_round_aux prec emax sx mx ex lx = S754_zero sx) \/
     (exists m e,
        binary_round_aux prec emax sx mx ex lx = S754_finite sx m e /\
        (IZR (Zpos m) * bpow e = IZR k * bpow E)%R /\
        E <= e <= E + 1 /\ e <= 971) \/
     (binary_round_aux prec emax sx mx ex lx = S754_infinity sx /\ 971 <= E)).
Proof.
  intros Hm Hy E.
  destruct (shr_fexp_first mx ex lx y Hm Hy) as [mrs [E1 [Hr Hb]]].
  fold E in E1, Hr.
  destruct (round_nearest_even_located _ _ _ Hr) as [Hk1 Hk2].
  set (k := round_nearest_even (shr_m mrs) (loc_of_shr_record mrs)) in *.
  assert (HE : emin64 <= E)
    by (pose proof (fexp64_ge (Zdigits2 mx + ex)); unfold E; lia).
  exists k. split; [lia|]. split; [exact Hk1|].
  unfold binary_round_aux. rewrite E1. fold k.
  rewrite (shr_fexp_second k E HE ltac:(lia)).
  destruct (k =? 2 ^ 53) eqn:Ek.
  - apply Z.eqb_eq in Ek. cbn [shr_m].
    change (2 ^ 52) with (Zpos (2 ^ 52)).
    change (emax - prec) with 971.
    destruct (E + 1 <=? 971) eqn:El.
    + right; left. exists (2 ^ 52)%positive, (E + 1).
      apply Z.leb_le in El. repeat split; try lia.
      rewrite Ek, bpow_add.
      replace (bpow 1) with 2%R by (unfold bpow; simpl; lra).
      change (Zpos (2 ^ 52)) with (2 ^ 52). change (2 ^ 53) with (2 * 2 ^ 52).
      rewrite mult_IZR. ring.
    + right; right. apply Z.leb_gt in El. split; [reflexivity | lia].
  - apply Z.eqb_neq in Ek. cbn [shr_m].
    destruct k as [|p|p]; [left; split; reflexivity | | lia].
    change (emax - prec) with 971.
    destruct (E <=? 971) eqn:El.
    + right; left. exists p, E. apply Z.leb_le in El. repeat split; lia.
    + right; right. apply Z.leb_gt in El. split; [reflexivity | lia].
Qed.

Lemma Rabs_le_inv (x a : R) : (Rabs x <= a)%R -> (- a <= x <= a)%R.
Proof. unfold Rabs. destruct (Rcase_abs x); lra. Qed.

Lemma IZR_cond_Zopp (s : bool) (z : Z) :
  IZR (cond_Zopp s z) = (sgn s * IZR z)%R.
Proof. destruct s; simpl; [rewrite opp_IZR|]; ring. Qed.

Lemma Rabs_sgn (s : bool) (x : R) : Rabs (sgn s * x) = Rabs x.
Proof.
  destruct s; simpl.
  - replace (-1 * x)%R with (- x)%R by ring. apply Rabs_Ropp.
  - f_equal. ring.
Qed.

Lemma bpow_Zlt (z n e : Z) :
  0 <= z -> e <= n -> (IZR z * bpow e < bpow n)%R -> z < 2 ^ (n - e).
Proof.
  intros Hz He H. apply lt_IZR. rewrite <- bpow_IZR by lia.
  replace (n - e) with (n + - e) by lia. rewrite bpow_add.
  pose proof (bpow_pos (- e)). pose proof (bpow_cancel e).
  replace (IZR z) with (IZR z * bpow e * bpow (- e))%R by (rewrite Rmult_assoc, H1; ring).
  apply Rmult_lt_compat_r; assumption.
Qed.

(** The rounding of a located magnitude [y * 2^ex] below [2^(B+53)], with the
    sign [sx]. *)
Lemma binary_round_aux_rounded (sx : bool) (mx ex : Z) (lx : location)
    (y : R) (B : Z) :
  0 <= mx -> located mx lx y ->
  ex <= B -> emin64 <= B <= 970 ->
  (y * bpow ex < bpow (B + 53))%R ->
  rounded B (sgn sx * (y * bpow ex)) (binary_round_aux prec emax sx mx ex lx) /\
  ebound (B + 1) (binary_round_aux prec emax sx mx ex lx).
Proof.
  intros Hm Hy Hex HB Hlt.
  assert (Hmy : (IZR mx <= y)%R).
  { destruct lx as [|[ | | ]]; simpl in Hy; lra. }
  assert (HE : Z.max ex (fexp64 (Zdigits2 mx + ex)) <= B).
  { assert (Zdigits2 mx <= B + 53 - ex).
    { apply Zdigits2_le; try lia. apply bpow_Zlt; try lia.
      pose proof (bpow_pos ex). nra. }
    unfold fexp64, emin64 in *. lia. }
  destruct (binary_round_aux_spec sx mx ex lx y Hm Hy) as [k [Hk [Hr Hc]]].
  set (E := Z.max ex (fexp64 (Zdigits2 mx + ex))) in *.
  assert (HEm : emin64 <= E)
    by (pose proof (fexp64_ge (Zdigits2 mx + ex)); unfold E; lia).
  assert (Hk' : (Rabs (IZR (cond_Zopp sx k)
                        - sgn sx * (y * bpow ex) * bpow (- E)) <= / 2)%R).
  { rewrite IZR_cond_Zopp.
    replace (sgn sx * IZR k - sgn sx * (y * bpow ex) * bpow (- E))%R
      with (sgn sx * (IZR k - y * bpow (ex - E)))%R.
    - rewrite Rabs_sgn. exact Hr.
    - replace (ex - E) with (ex + - E) by lia. rewrite bpow_add. ring. }
  destruct Hc as [[Hk0 Hz] | [[m [e [Hf [Hv [He1 He2]]]]] | [Hi HiE]]].
  - rewrite Hz. split; [|exact I]. split; [reflexivity|].
    right. exists E, (cond_Zopp sx k). repeat split; try lia; try exact Hk'.
    subst k. destruct sx; simpl; ring.
  - rewrite Hf. split; [|simpl; lia]. split; [reflexivity|].
    right. exists E, (cond_Zopp sx k). repeat split; try lia; try exact Hk'.
    simpl D2R. rewrite !IZR_cond_Zopp, !Rmult_assoc, Hv. reflexivity.
  - lia.
Qed.

(** ** What [rounded] gives *)

Lemma rounded_le (B : Z) (p : R) (r : double) (j G : Z) :
  rounded B p r -> B <= G ->
  (p <= IZR j * bpow G)%R -> (D2R r <= IZR j * bpow G)%R.
Proof.
  intros [_ [He | [E [k [HE [Hv Hk]]]]]] HG Hp; [rewrite He; exact Hp|].
  rewrite Hv.
  assert (Hj : (IZR j * bpow G = IZR (j * 2 ^ (G - E)) * bpow E)%R).
  { rewrite mult_IZR, <- bpow_IZR, Rmult_assoc, <- bpow_add by lia.
    do 2 f_equal. lia. }
  rewrite Hj in *. apply Rmult_le_compat_r; [left; apply bpow_pos|].
  apply IZR_le. apply Z.lt_succ_r. apply lt_IZR. rewrite succ_IZR.
  apply Rabs_le_inv in Hk.
  assert (p * bpow (- E) <= IZR (j * 2 ^ (G - E)))%R.
  { pose proof (bpow_pos (- E)). pose proof (bpow_cancel E).
    replace (IZR (j * 2 ^ (G - E)))
      with (IZR (j * 2 ^ (G - E)) * bpow E * bpow (- E))%R
      by (rewrite Rmult_assoc, H0; ring).
    apply Rmult_le_compat_r; [lra | exact Hp]. }
  lra.
Qed.

Lemma rounded_ge (B : Z) (p : R) (r : double) (j G : Z) :
  rounded B p r -> B <= G ->
  (IZR j * bpow G <= p)%R -> (IZR j * bpow G <= D2R r)%R.
Proof.
  intros [_ [He | [E [k [HE [Hv Hk]]]]]] HG Hp; [rewrite He; exact Hp|].
  rewrite Hv.
  assert (Hj : (IZR j * bpow G = IZR (j * 2 ^ (G - E)) * bpow E)%R).
  { rewrite mult_IZR, <- bpow_IZR, Rmult_assoc, <- bpow_add by lia.
    do 2 f_equal. lia. }
  rewrite Hj in *. apply Rmult_le_compat_r; [left; apply bpow_pos|].
  apply IZR_le. apply Z.lt_succ_r. apply lt_IZR. rewrite succ_IZR.
  apply Rabs_le_inv in Hk.
  assert (IZR (j * 2 ^ (G - E)) <= p * bpow (- E))%R.
  { pose proof (bpow_pos (- E)). pose proof (bpow_cancel E).
    replace (IZR (j * 2 ^ (G - E)))
      with (IZR (j * 2 ^ (G - E)) * bpow E * bpow (- E))%R
      by (rewrite Rmult_assoc, H0; ring).
    apply Rmult_le_compat_r; [lra | exact Hp]. }
  lra.
Qed.

Lemma rounded_exact (B : Z) (p : R) (r : double) (j G : Z) :
  rounded B p r -> B <= G -> p = (IZR j * bpow G)%R -> D2R r = p.
Proof.
  intros H HG Hp. apply Rle_antisym; rewrite Hp.
  - apply (rounded_le B p); try assumption. lra.
  - apply (rounded_ge B p); try assumption. lra.
Qed.

Lemma rounded_error (B : Z) (p : R) (r : double) :
  rounded B p r -> (Rabs (D2R r - p) <= bpow (B - 1))%R.
Proof.
  intros [_ [He | [E [k [HE [Hv Hk]]]]]].
  - rewrite He. replace (p - p)%R with 0%R by ring. rewrite Rabs_R0.
    left. apply bpow_pos.
  - rewrite Hv. pose proof (bpow_pos E). pose proof (bpow_cancel E).
    replace (IZR k * bpow E - p)%R
      with ((IZR k - p * bpow (- E)) * bpow E)%R
      by (rewrite Rmult_minus_distr_r, Rmult_assoc, (Rmult_comm (bpow (- E))), H0; ring).
    rewrite Rabs_mult, (Rabs_pos_eq (bpow E)) by lra.
    apply Rle_trans with (/ 2 * bpow E)%R.
    + apply Rmult_le_compat_r; [lra | exact Hk].
    + replace (/ 2)%R with (bpow (- 1)) by (unfold bpow; simpl; lra).
      rewrite <- bpow_add. apply bpow_le. lia.
Qed.

Lemma rounded_err_le (B : Z) (p : R) (r : double) (e : R) :
  rounded B p r -> (bpow (B - 1) <= e)%R -> (Rabs (D2R r - p) <= e)%R.
Proof.
  intros H He. apply Rle_trans with (bpow (B - 1)); [|exact He].
  apply rounded_error. exact H.
Qed.

(** ** The operations *)

Lemma sgn_xorb (a b : bool) : sgn (xorb a b) = (sgn a * sgn b)%R.
Proof. destruct a, b; simpl; ring. Qed.

Lemma D2R_finite (s : bool) (m : positive) (e : Z) :
  D2R (S754_finite s m e) = (sgn s * (IZR (Zpos m) * bpow e))%R.
Proof. simpl. rewrite IZR_cond_Zopp. ring. Qed.

Lemma bpow_lt_inv (a b : Z) : (bpow a < bpow b)%R -> a < b.
Proof.
  intros H. destruct (Z_lt_le_dec a b) as [Hlt | Hle]; [exact Hlt|].
  apply bpow_le in Hle. lra.
Qed.

Lemma IZR_pos_ge_1 (m : positive) : (1 <= IZR (Zpos m))%R.
Proof. apply IZR_le. lia. Qed.

Lemma Dmul_rounded (x y : double) (Bx By B : Z) :
  is_fin x = true -> is_fin y = true ->
  ebound Bx x -> ebound By y -> Bx + By <= B -> emin64 <= B <= 970 ->
  (Rabs (D2R x * D2R y) < bpow (B + 53))%R ->
  rounded B (D2R x * D2R y) (Dmul x y) /\ ebound (B + 1) (Dmul x y).
Proof.
  intros Hx Hy Hex Hey HB HB' Hlt.
  destruct x as [sx | sx | | sx mx ex]; try discriminate;
    destruct y as [sy | sy | | sy my ey]; try discriminate;
    try (split; [split; [reflexivity | left; simpl; ring] | exact I]).
  unfold Dmul, SFmul. rewrite !D2R_finite in *. simpl in Hex, Hey.
  assert (Hv : (sgn sx * (IZR (Zpos mx) * bpow ex)
                * (sgn sy * (IZR (Zpos my) * bpow ey)) =
                sgn (xorb sx sy) *
                (IZR (Zpos (mx * my)) * bpow (ex + ey)))%R).
  { rewrite sgn_xorb, Pos2Z.inj_mul, mult_IZR, bpow_add. ring. }
  rewrite Hv in *. rewrite Rabs_sgn in Hlt.
  apply binary_round_aux_rounded; try lia.
  - reflexivity.
  - apply Rabs_def2 in Hlt. lra.
Qed.

Lemma Zpos_iter_xO (m d : positive) :
  Zpos (Pos.iter xO m d) = Zpos m * 2 ^ Zpos d.
Proof.
  induction d as [|d IH] using Pos.peano_ind.
  - simpl. lia.
  - rewrite Pos.iter_succ, Pos2Z.inj_xO, IH, Pos2Z.inj_succ,
      Z.pow_succ_r by lia. ring.
Qed.

(** The mantissa aligned on a smaller exponent denotes the same number. *)
Lemma shl_align_value (m : positive) (e e' : Z) :
  e' <= e ->
  (IZR (Zpos (fst (shl_align m e e'))) * bpow e' = IZR (Zpos m) * bpow e)%R /\
  (e' < e -> snd (shl_align m e e') = e') /\
  (e' = e -> shl_align m e e' = (m, e)).
Proof.
  intros H. unfold shl_align.
  destruct (e' - e) as [|d|d] eqn:Ed; try lia.
  - assert (e' = e) by lia. subst e'. simpl. repeat split; lia || auto.
  - simpl fst. simpl snd. split; [|split; [reflexivity | lia]].
    rewrite Zpos_iter_xO, mult_IZR, <- bpow_IZR, Rmult_assoc, <- bpow_add by lia.
    do 2 f_equal. lia.
Qed.

Lemma mag_fexp64 (m : positive) (e B : Z) :
  emin64 <= B ->
  (IZR (Zpos m) * bpow e < bpow (B + 53))%R ->
  fexp64 (Zpos (digits2_pos m) + e) <= B.
Proof.
  intros HB H.
  assert (He : e < B + 53).
  { apply bpow_lt_inv. pose proof (IZR_pos_ge_1 m). pose proof (bpow_pos e).
    nra. }
  assert (Zdigits2 (Zpos m) <= B + 53 - e).
  { apply Zdigits2_le; try lia. apply bpow_Zlt; try lia. exact H. }
  simpl in H0. unfold fexp64. lia.
Qed.

Lemma binary_round_rounded (sx : bool) (mx : positive) (ex B : Z) :
  emin64 <= B <= 970 ->
  (IZR (Zpos mx) * bpow ex < bpow (B + 53))%R ->
  rounded B (sgn sx * (IZR (Zpos mx) * bpow ex))
    (binary_round prec emax sx mx ex) /\
  ebound (B + 1) (binary_round prec emax sx mx ex).
Proof.
  intros HB H. unfold binary_round. rewrite fexp64_eq.
  pose proof (mag_fexp64 mx ex B ltac:(lia) H) as Hf.
  set (e' := fexp64 (Zpos (digits2_pos mx) + ex)) in *.
  destruct (Z_lt_le_dec e' ex) as [Hlt | Hle].
  - destruct (shl_align_value mx ex e' ltac:(lia)) as [Hv [Hs _]].
    specialize (Hs Hlt).
    destruct (shl_align mx ex e') as [mz ez]. simpl in Hv, Hs. subst ez.
    rewrite <- Hv in *.
    apply binary_round_aux_rounded; try lia; [reflexivity | exact H].
  - assert (Hs : shl_align mx ex e' = (mx, ex)).
    { unfold shl_align. destruct (e' - ex) eqn:Ed; try reflexivity. lia. }
    rewrite Hs.
    apply binary_round_aux_rounded; try lia; [reflexivity | exact H].
Qed.

Lemma binary_normalize_rounded (m e : Z) (sz : bool) (B : Z) :
  emin64 <= B <= 970 ->
  (Rabs (IZR m * bpow e) < bpow (B + 53))%R ->
  rounded B (IZR m * bpow e) (binary_normalize prec emax m e sz) /\
  ebound (B + 1) (binary_normalize prec emax m e sz).
Proof.
  intros HB H. destruct m as [|p|p]; simpl binary_normalize.
  - split; [|exact I]. split; [reflexivity|]. left. simpl. ring.
  - replace (IZR (Zpos p) * bpow e)%R
      with (sgn false * (IZR (Zpos p) * bpow e))%R in * by (simpl; ring).
    rewrite Rabs_sgn in H. apply Rabs_def2 in H.
    apply binary_round_rounded; [lia | lra].
  - replace (IZR (Zneg p) * bpow e)%R
      with (sgn true * (IZR (Zpos p) * bpow e))%R in *
      by (change (Zneg p) with (- Zpos p); rewrite opp_IZR; simpl; ring).
    rewrite Rabs_sgn in H. apply Rabs_def2 in H.
    apply binary_round_rounded; [lia | lra].
Qed.

Lemma Dsub_rounded (x y : double) (B : Z) :
  is_fin x = true -> is_fin y = true ->
  ebound (B + 1) x -> ebound (B + 1) y -> emin64 <= B <= 970 ->
  (Rabs (D2R x - D2R y) < bpow (B + 53))%R ->
  rounded B (D2R x - D2R y) (Dsub x y) /\ ebound (B + 1) (Dsub x y).
Proof.
  intros Hx Hy Hex Hey HB Hlt.
  destruct x as [sx | sx | | sx mx ex]; try discriminate;
    destruct y as [sy | sy | | sy my ey]; try discriminate.
  - split; [|destruct sx, sy; exact I].
    split; [destruct sx, sy; reflexivity|].
    left. destruct sx, sy; simpl; ring.
  - split; [|exact Hey]. split; [reflexivity|]. left.
    unfold Dsub, SFsub. rewrite !D2R_finite. simpl D2R.
    destruct sy; simpl; ring.
  - split; [|exact Hex]. split; [reflexivity|]. left.
    unfold Dsub, SFsub. simpl D2R. ring.
  - unfold Dsub, SFsub.
    set (ez := Z.min ex ey).
    destruct (shl_align_value mx ex ez ltac:(unfold ez; lia)) as [Hvx _].
    destruct (shl_align_value my ey ez ltac:(unfold ez; lia)) as [Hvy _].
    assert (Hv : (D2R (S754_finite sx mx ex) - D2R (S754_finite sy my ey) =
                  IZR (cond_Zopp sx (Zpos (fst (shl_align mx ex ez)))
                       - cond_Zopp sy (Zpos (fst (shl_align my ey ez))))
                  * bpow ez)%R).
    { rewrite !D2R_finite, minus_IZR, !IZR_cond_Zopp, Rmult_minus_distr_r,
        !Rmult_assoc, Hvx, Hvy. reflexivity. }
    rewrite Hv in *. apply binary_normalize_rounded; assumption.
Qed.

(** *** Division *)

Lemma new_location_located (d q r : Z) :
  0 < d -> 0 <= r < d ->
  located q (new_location d r) (IZR q + IZR r / IZR d)%R.
Proof.
  intros Hd Hr.
  assert (Hd' : (0 < IZR d)%R) by (apply IZR_lt; exact Hd).
  assert (Hhalf : forall c : comparison, (2 * r ?= d) = c ->
            match c with
            | Lt => (IZR r / IZR d < / 2)%R
            | Eq => (IZR r / IZR d = / 2)%R
            | Gt => (/ 2 < IZR r / IZR d)%R
            end).
  { intros c Hc. destruct c.
    - apply Z.compare_eq in Hc. apply (f_equal IZR) in Hc.
      rewrite mult_IZR in Hc. field_simplify_eq; lra.
    - apply Z.compare_lt_iff in Hc. apply IZR_lt in Hc.
      rewrite mult_IZR in Hc.
      apply Rmult_lt_reg_r with (IZR d); [exact Hd'|].
      unfold Rdiv. rewrite Rmult_assoc, Rinv_l; lra.
    - apply Z.compare_gt_iff in Hc. apply IZR_lt in Hc.
      rewrite mult_IZR in Hc.
      apply Rmult_lt_reg_r with (IZR d); [exact Hd'|].
      unfold Rdiv. rewrite Rmult_assoc, Rinv_l; lra. }
  assert (Hpos : r <> 0 -> (0 < IZR r / IZR d < 1)%R).
  { intros Hn. assert (0 < IZR r)%R by (apply IZR_lt; lia).
    assert (IZR r < IZR d)%R by (apply IZR_lt; lia).
    split.
    - apply Rdiv_lt_0_compat; assumption.
    - apply Rmult_lt_reg_r with (IZR d); [exact Hd'|].
      unfold Rdiv. rewrite Rmult_assoc, Rinv_l; lra. }
  unfold new_location.
  destruct (Z.even d) eqn:Ev;
    [unfold new_location_even | unfold new_location_odd];
    (destruct (r =? 0) eqn:Er;
     [apply Z.eqb_eq in Er; subst r; simpl; unfold Rdiv; ring|]);
    apply Z.eqb_neq in Er; specialize (Hpos Er).
  - destruct (2 * r ?= d) eqn:Ec; specialize (Hhalf _ eq_refl);
      simpl in *; lra.
  - assert (Ho : Z.odd d = true) by (rewrite <- Z.negb_even, Ev; reflexivity).
    apply Z.odd_spec in Ho. destruct Ho as [h Hh].
    destruct (2 * r + 1 ?= d) eqn:Ec.
    + apply Z.compare_eq in Ec.
      assert (E2 : (2 * r ?= d) = Lt) by (apply Z.compare_lt_iff; lia).
      specialize (Hhalf _ E2). simpl in *. lra.
    + change (2 * r + 1 < d) in Ec.
      assert (E2 : (2 * r ?= d) = Lt) by (apply Z.compare_lt_iff; lia).
      specialize (Hhalf _ E2). simpl in *. lra.
    + change (2 * r + 1 > d) in Ec.
      assert (E2 : (2 * r ?= d) = Gt) by (apply Z.compare_gt_iff; lia).
      specialize (Hhalf _ E2). simpl in *. lra.
Qed.

Lemma shiftl_or_zero (m s : Z) :
  0 <= s ->
  match s with
  | Zpos _ => Z.shiftl m s
  | Z0 => m
  | Zneg _ => 0
  end = m * 2 ^ s.
Proof.
  intros H. destruct s as [|p|p]; [simpl; lia | | lia].
  apply Z.shiftl_mul_pow2. lia.
Qed.

Lemma sgn_div (a b : bool) (x y : R) :
  (y <> 0)%R -> (sgn a * x / (sgn b * y) = sgn (xorb a b) * (x / y))%R.
Proof. intros H. destruct a, b; simpl; field; exact H. Qed.

Lemma digits_bpow (m : positive) :
  (bpow (Zpos (digits2_pos m) - 1) <= IZR (Zpos m) < bpow (Zpos (digits2_pos m)))%R.
Proof.
  pose proof (digits2_pos_bounds m) as [H1 H2].
  rewrite !bpow_IZR by lia. split; [apply IZR_le | apply IZR_lt]; assumption.
Qed.

Lemma Ddiv_rounded (x : double) (sy : bool) (my : positive) (ey B : Z) :
  is_fin x = true -> emin64 <= B <= 970 ->
  (Rabs (D2R x / D2R (S754_finite sy my ey)) < bpow (B + 52))%R ->
  rounded B (D2R x / D2R (S754_finite sy my ey))
    (Ddiv x (S754_finite sy my ey)) /\
  ebound (B + 1) (Ddiv x (S754_finite sy my ey)).
Proof.
  intros Hx HB Hlt.
  destruct x as [sx | sx | | sx mx ex]; try discriminate.
  { split; [|exact I]. split; [reflexivity|]. left. simpl. unfold Rdiv. ring. }
  set (X := (IZR (Zpos mx) * bpow ex)%R).
  set (Y := (IZR (Zpos my) * bpow ey)%R).
  assert (HX : (0 < X)%R).
  { unfold X. pose proof (IZR_pos_ge_1 mx). pose proof (bpow_pos ex). nra. }
  assert (HY : (0 < Y)%R).
  { unfold Y. pose proof (IZR_pos_ge_1 my). pose proof (bpow_pos ey). nra. }
  assert (Hv : (D2R (S754_finite sx mx ex) / D2R (S754_finite sy my ey) =
                sgn (xorb sx sy) * (X / Y))%R).
  { rewrite !D2R_finite. fold X Y. apply sgn_div. lra. }
  rewrite Hv in *. rewrite Rabs_sgn in Hlt.
  assert (HXY : (0 < X / Y)%R) by (apply Rdiv_lt_0_compat; assumption).
  rewrite Rabs_pos_eq in Hlt by lra.
  unfold Ddiv, SFdiv, SFdiv_core_binary. rewrite fexp64_eq.
  set (d1 := Zdigits2 (Zpos mx)). set (d2 := Zdigits2 (Zpos my)).
  set (e' := Z.min (fexp64 (d1 + ex - (d2 + ey))) (ex - ey)).
  assert (Hs : 0 <= ex - ey - e') by (unfold e'; lia).
  rewrite (shiftl_or_zero (Zpos mx) _ Hs).
  set (s := ex - ey - e') in *.
  pose proof (Z_div_mod (Zpos mx * 2 ^ s) (Zpos my) ltac:(lia)) as Hdm.
  destruct (Z.div_eucl (Zpos mx * 2 ^ s) (Zpos my)) as [q r].
  destruct Hdm as [Hq Hr].
  assert (Hpow : 0 < 2 ^ s) by (apply Z.pow_pos_nonneg; lia).
  assert (Hq0 : 0 <= q) by nia.
  assert (Hy : (IZR q + IZR r / IZR (Zpos my) = X / Y * bpow (- e'))%R).
  { assert (HH : (IZR q + IZR r / IZR (Zpos my) =
                  IZR (Zpos mx * 2 ^ s) / IZR (Zpos my))%R).
    { rewrite Hq, plus_IZR, mult_IZR. field.
      pose proof (IZR_pos_ge_1 my). lra. }
    rewrite HH, mult_IZR, <- bpow_IZR by lia. unfold X, Y, s.
    replace (ex - ey - e') with (ex + - ey + - e') by lia.
    rewrite !bpow_add, bpow_opp. field.
    pose proof (IZR_pos_ge_1 my). pose proof (bpow_pos ey). split; lra. }
  assert (Hloc := new_location_located (Zpos my) q r ltac:(lia) Hr).
  rewrite Hy in Hloc.
  assert (Hback : (X / Y * bpow (- e') * bpow e' = X / Y)%R).
  { rewrite Rmult_assoc, (Rmult_comm (bpow (- e'))), bpow_cancel. ring. }
  rewrite <- Hback.
  apply binary_round_aux_rounded; try lia; try exact Hloc.
  - (* the exponent of the quotient *)
    assert (Hlt2 : (bpow (d1 - 1) * bpow ex
                    < bpow (B + 52) * (bpow d2 * bpow ey))%R).
    { pose proof (digits_bpow mx) as [Hm1 _].
      pose proof (digits_bpow my) as [_ Hm2].
      change (Zpos (digits2_pos mx)) with d1 in Hm1.
      change (Zpos (digits2_pos my)) with d2 in Hm2.
      assert (HXlt : (X < bpow (B + 52) * Y)%R).
      { apply Rmult_lt_reg_r with (/ Y)%R; [apply Rinv_0_lt_compat; exact HY|].
        rewrite Rmult_assoc, Rinv_r by lra. unfold Rdiv in Hlt. lra. }
      pose proof (bpow_pos ex). pose proof (bpow_pos ey).
      pose proof (bpow_pos (B + 52)).
      unfold X, Y in HXlt.
      apply Rle_lt_trans with (IZR (Zpos mx) * bpow ex)%R; [nra|].
      apply Rlt_trans with (bpow (B + 52) * (IZR (Zpos my) * bpow ey))%R;
        [exact HXlt|].
      apply Rmult_lt_compat_l; [assumption|].
      apply Rmult_lt_compat_r; assumption. }
    rewrite <- !bpow_add in Hlt2. apply bpow_lt_inv in Hlt2.
    unfold e', fexp64, emin64 in *. lia.
  - rewrite Hback. apply Rlt_trans with (bpow (B + 52)); [exact Hlt|].
    apply bpow_lt. lia.
Qed.

(** *** Conversions *)

Lemma is_int_Rabs (z : Z) : is_int z -> (Rabs (IZR z) < bpow 32)%R.
Proof.
  unfold is_int, INT_MIN, INT_MAX. intros H.
  rewrite bpow_IZR by lia. apply Rabs_def1.
  - apply IZR_lt. lia.
  - rewrite <- opp_IZR. apply IZR_lt. lia.
Qed.

Lemma of_int_exact (z : Z) :
  is_int z ->
  is_fin (of_int z) = true /\ D2R (of_int z) = IZR z /\
  ebound (- 20) (of_int z).
Proof.
  intros H. unfold of_int.
  assert (Hp : (IZR z * bpow 0 = IZR z)%R) by (rewrite bpow_0; ring).
  destruct (binary_normalize_rounded z 0 false (- 21)) as [Hr He].
  - unfold emin64. lia.
  - rewrite Hp. apply is_int_Rabs. exact H.
  - split; [apply Hr|]. split; [|exact He].
    rewrite (rounded_exact (- 21) _ _ z 0 Hr ltac:(lia) eq_refl). exact Hp.
Qed.

Lemma finite_of_nonzero (x : double) :
  is_fin x = true -> D2R x <> 0%R ->
  exists s m e, x = S754_finite s m e.
Proof.
  destruct x as [s | s | | s m e]; try discriminate; intros _ H.
  - simpl in H. lra.
  - exists s, m, e. reflexivity.
Qed.

Lemma rne_quot_near (m d : Z) :
  0 <= m -> 0 < d ->
  (Rabs (IZR (rne_quot m d) - IZR m / IZR d) <= / 2)%R.
Proof.
  intros Hm Hd. unfold rne_quot.
  pose proof (Z.div_mod m d ltac:(lia)) as Hq.
  pose proof (Z.mod_pos_bound m d Hd) as Hr.
  set (q := m / d) in *. set (r := m mod d) in *.
  assert (Hd' : (0 < IZR d)%R) by (apply IZR_lt; exact Hd).
  assert (Hv : (IZR m / IZR d = IZR q + IZR r / IZR d)%R).
  { rewrite Hq, plus_IZR, mult_IZR. field. lra. }
  rewrite Hv.
  assert (Hr0 : (0 <= IZR r / IZR d)%R).
  { apply Rmult_le_pos; [apply IZR_le; lia|].
    left. apply Rinv_0_lt_compat. exact Hd'. }
  assert (Hmul : forall a : R, (a * IZR d = a * 2 * (IZR d * / 2))%R)
    by (intros a; field).
  destruct (2 * r ?= d) eqn:Ec.
  - apply Z.compare_eq in Ec. apply (f_equal IZR) in Ec.
    rewrite mult_IZR in Ec.
    assert (Ht : (IZR r / IZR d = / 2)%R) by (field_simplify_eq; lra).
    destruct (Z.even q); [|rewrite plus_IZR]; apply Rabs_le; lra.
  - change (2 * r < d) in Ec. apply IZR_lt in Ec. rewrite mult_IZR in Ec.
    assert (Ht : (IZR r / IZR d < / 2)%R).
    { apply Rmult_lt_reg_r with (IZR d); [exact Hd'|].
      unfold Rdiv. rewrite Rmult_assoc, Rinv_l; lra. }
    apply Rabs_le. lra.
  - change (2 * r > d) in Ec. apply Z.gt_lt, IZR_lt in Ec.
    rewrite mult_IZR in Ec.
    assert (Ht : (/ 2 < IZR r / IZR d)%R).
    { apply Rmult_lt_reg_r with (IZR d); [exact Hd'|].
      unfold Rdiv. rewrite Rmult_assoc, Rinv_l; lra. }
    assert (Ht1 : (IZR r / IZR d < 1)%R).
    { apply Rmult_lt_reg_r with (IZR d); [exact Hd'|].
      unfold Rdiv. rewrite Rmult_assoc, Rinv_l by lra.
      assert (IZR r < IZR d)%R by (apply IZR_lt; lia). lra. }
    rewrite plus_IZR. apply Rabs_le. lra.
Qed.

(** [lrint] is within one half of its argument, as long as that is far
    inside the range of [long]. *)
Lemma lrint_near (r : double) :
  is_fin r = true -> (Rabs (D2R r) <= bpow 62)%R ->
  (Rabs (IZR (lrint r) - D2R r) <= / 2)%R.
Proof.
  intros Hf Hb. destruct r as [s | s | | s m e]; try discriminate.
  - simpl. replace (0 - 0)%R with 0%R by ring. rewrite Rabs_R0. lra.
  - unfold lrint. rewrite D2R_finite in *. rewrite Rabs_sgn in Hb.
    set (z := if 0 <=? e then Zpos m * 2 ^ e
              else rne_quot (Zpos m) (2 ^ (- e))).
    assert (Hz : (Rabs (IZR z - IZR (Zpos m) * bpow e) <= / 2)%R).
    { unfold z. destruct (0 <=? e) eqn:Ee.
      - apply Z.leb_le in Ee. rewrite mult_IZR, <- bpow_IZR by lia.
        replace (IZR (Zpos m) * bpow e - IZR (Zpos m) * bpow e)%R
          with 0%R by ring.
        rewrite Rabs_R0. lra.
      - apply Z.leb_gt in Ee.
        replace (IZR (Zpos m) * bpow e)%R
          with (IZR (Zpos m) / IZR (2 ^ (- e)))%R.
        + apply rne_quot_near; [lia | apply Z.pow_pos_nonneg; lia].
        + rewrite <- bpow_IZR, bpow_opp by lia. unfold Rdiv.
          rewrite Rinv_inv. reflexivity. }
    assert (Hzs : (Rabs (IZR (cond_Zopp s z)
                         - sgn s * (IZR (Zpos m) * bpow e)) <= / 2)%R).
    { rewrite IZR_cond_Zopp, <- Rmult_minus_distr_l, Rabs_sgn. exact Hz. }
    assert (Hrange : LONG_MIN <= cond_Zopp s z <= LONG_MAX).
    { unfold LONG_MIN, LONG_MAX.
      assert (Hzb : (Rabs (IZR (cond_Zopp s z)) <= bpow 62 + / 2)%R).
      { rewrite IZR_cond_Zopp, Rabs_sgn.
        apply Rabs_le_inv in Hz.
        pose proof (Rabs_pos (IZR (Zpos m) * bpow e)).
        assert (0 <= IZR (Zpos m) * bpow e)%R
          by (pose proof (IZR_pos_ge_1 m); pose proof (bpow_pos e); nra).
        rewrite (Rabs_pos_eq (IZR (Zpos m) * bpow e)) in Hb by assumption.
        pose proof (bpow_pos 62).
        apply Rabs_le. lra. }
      apply Rabs_le_inv in Hzb. rewrite bpow_IZR in Hzb by lia.
      destruct Hzb as [Hl Hu].
      assert (- 2 ^ 62 - 1 < cond_Zopp s z).
      { apply lt_IZR. rewrite minus_IZR, opp_IZR. lra. }
      assert (cond_Zopp s z < 2 ^ 62 + 1).
      { apply lt_IZR. rewrite plus_IZR. lra. }
      lia. }
    destruct Hrange as [H1 H2].
    apply Z.leb_le in H1, H2. rewrite H1, H2. simpl andb. cbv iota.
    exact Hzs.
Qed.

Lemma lrint_le (r : double) (j : Z) :
  is_fin r = true -> (Rabs (D2R r) <= bpow 62)%R ->
  (D2R r <= IZR j)%R -> lrint r <= j.
Proof.
  intros Hf Hb H. pose proof (lrint_near r Hf Hb) as Hn.
  apply Rabs_le_inv in Hn. apply Z.lt_succ_r, lt_IZR.
  rewrite succ_IZR. lra.
Qed.

Lemma lrint_ge (r : double) (j : Z) :
  is_fin r = true -> (Rabs (D2R r) <= bpow 62)%R ->
  (IZR j <= D2R r)%R -> j <= lrint r.
Proof.
  intros Hf Hb H. pose proof (lrint_near r Hf Hb) as Hn.
  apply Rabs_le_inv in Hn. apply Z.lt_succ_r, lt_IZR.
  rewrite succ_IZR. lra.
Qed.

(** *** Comparison *)

Lemma scaled_value (e0 : Z) (x : double) :
  is_fin x = true -> e0 <= exponent x \/ D2R x = 0%R ->
  (IZR (scaled e0 x) * bpow e0 = D2R x)%R.
Proof.
  destruct x as [s | s | | s m e]; try discriminate; intros _ H.
  - simpl. ring.
  - rewrite D2R_finite. unfold scaled. simpl exponent in H.
    destruct H as [H | H].
    + rewrite IZR_cond_Zopp, mult_IZR, <- bpow_IZR, !Rmult_assoc,
        <- bpow_add by lia.
      do 3 f_equal. lia.
    + rewrite D2R_finite in H.
      pose proof (IZR_pos_ge_1 m). pose proof (bpow_pos e).
      destruct s; simpl in H; nra.
Qed.

Lemma Dlt_spec (x y : double) :
  is_fin x = true -> is_fin y = true ->
  (Dlt x y = true <-> (D2R x < D2R y)%R).
Proof.
  intros Hx Hy.
  set (e0 := Z.min (exponent x) (exponent y)).
  assert (E : Dlt x y = (scaled e0 x <? scaled e0 y)).
  { destruct x, y; try discriminate; reflexivity. }
  rewrite E.
  rewrite <- (scaled_value e0 x Hx) by (left; unfold e0; lia).
  rewrite <- (scaled_value e0 y Hy) by (left; unfold e0; lia).
  pose proof (bpow_pos e0). rewrite Z.ltb_lt. split; intros H1.
  - apply IZR_lt in H1. nra.
  - apply lt_IZR. nra.
Qed.

Lemma MAX_spec (a b : double) :
  is_fin a = true -> is_fin b = true ->
  is_fin (MAX a b) = true /\
  (D2R a <= D2R (MAX a b))%R /\ (D2R b <= D2R (MAX a b))%R.
Proof.
  intros Ha Hb. unfold MAX, Dgt.
  destruct (Dlt b a) eqn:E.
  - apply (Dlt_spec b a Hb Ha) in E. repeat split; [exact Ha | lra | lra].
  - assert (~ (D2R b < D2R a)%R).
    { intros H. apply (Dlt_spec b a Hb Ha) in H. congruence. }
    repeat split; [exact Hb | lra | lra].
Qed.

(** ** The branch without an average depth *)

Lemma slope_5m_eq : slope_5m = S754_finite false 5864062014805333 (-46).
Proof. vm_compute. reflexivity. Qed.

Lemma slope_5m_value : (83 <= D2R slope_5m <= 84)%R.
Proof.
  rewrite slope_5m_eq, D2R_finite. unfold sgn.
  change (bpow (-46)) with (bpow (Z.opp 46)).
  rewrite bpow_opp, bpow_IZR by lia.
  change (2 ^ 46) with 70368744177664. lra.
Qed.

Lemma bpow_nat (n : Z) (v : R) : 0 <= n -> IZR (2 ^ n) = v -> bpow n = v.
Proof. intros H E. rewrite bpow_IZR by exact H. exact E. Qed.

(** Evaluate the closed exponents of the goal. *)
Ltac eval_bpow :=
  repeat match goal with
         | |- context [bpow (?a + ?b)] =>
             let v := eval compute in (a + b) in change (a + b) with v
         end.

Lemma no_avg_slope_value (max_d max_t : Z) :
  is_int max_d -> is_int max_t -> max_t <> 0 ->
  is_fin (no_avg_slope max_d max_t) = true /\
  (83 <= D2R (no_avg_slope max_d max_t))%R.
Proof.
  intros Hd Ht Ht0. unfold no_avg_slope.
  destruct (of_int_exact 2 ltac:(unfold is_int, INT_MIN, INT_MAX; lia))
    as [F2 [V2 E2]].
  destruct (of_int_exact max_d Hd) as [Fd [Vd Ed]].
  destruct (of_int_exact max_t Ht) as [Ft [Vt Et]].
  pose proof (is_int_Rabs max_d Hd) as Hdr. apply Rabs_def2 in Hdr.
  rewrite (bpow_nat 32 4294967296) in Hdr by (lia || reflexivity).
  (* 2.0 * max_d *)
  destruct (Dmul_rounded (of_int 2) (of_int max_d) (- 20) (- 20) (- 20)
              F2 Fd E2 Ed ltac:(lia) ltac:(unfold emin64; lia)) as [R1 B1].
  { rewrite V2, Vd. eval_bpow.
    rewrite (bpow_nat 33 8589934592) by (lia || reflexivity).
    apply Rabs_def1; lra. }
  rewrite V2, Vd in R1.
  set (a1 := Dmul (of_int 2) (of_int max_d)) in *.
  assert (H1 : (- 8589934592 <= D2R a1 <= 8589934592)%R).
  { split.
    - replace (- 8589934592)%R with (IZR (- 8589934592) * bpow 0)%R
        by (rewrite bpow_0; simpl; lra).
      apply (rounded_ge _ _ _ _ _ R1); [lia|]. rewrite bpow_0. simpl. lra.
    - replace 8589934592%R with (IZR 8589934592 * bpow 0)%R
        by (rewrite bpow_0; simpl; lra).
      apply (rounded_le _ _ _ _ _ R1); [lia|]. rewrite bpow_0. simpl. lra. }
  (* ... / max_t *)
  destruct (finite_of_nonzero (of_int max_t) Ft) as [sy [my [ey Ey]]].
  { rewrite Vt. apply not_0_IZR. exact Ht0. }
  assert (Ht1 : (1 <= Rabs (IZR max_t))%R).
  { rewrite <- abs_IZR. apply IZR_le. lia. }
  destruct (Ddiv_rounded a1 sy my ey (- 18) (proj1 R1)
              ltac:(unfold emin64; lia)) as [R2 B2].
  { rewrite <- Ey, Vt. unfold Rdiv. rewrite Rabs_mult, Rabs_inv.
    eval_bpow. rewrite (bpow_nat 34 17179869184) by (lia || reflexivity).
    assert (Rabs (D2R a1) <= 8589934592)%R by (apply Rabs_le; lra).
    assert (0 < / Rabs (IZR max_t) <= 1)%R.
    { split; [apply Rinv_0_lt_compat; lra|].
      rewrite <- Rinv_1. apply Rinv_le_contravar; lra. }
    pose proof (Rabs_pos (D2R a1)). nra. }
  rewrite <- Ey in R2.
  assert (F5 : is_fin slope_5m = true) by (rewrite slope_5m_eq; reflexivity).
  destruct (MAX_spec (Ddiv a1 (of_int max_t)) slope_5m (proj1 R2) F5)
    as [Fm [_ Hm]].
  split; [exact Fm|]. pose proof slope_5m_value. lra.
Qed.

(** A non-negative [int] divided by a slope of at least 83 mm/s. *)
Lemma div_by_slope (n : Z) (slope : double) :
  is_int n -> 0 <= n -> is_fin slope = true -> (83 <= D2R slope)%R ->
  rounded (- 27) (IZR n / D2R slope) (Ddiv (of_int n) slope) /\
  (0 <= IZR n / D2R slope <= IZR n / 83)%R.
Proof.
  intros Hn Hn0 Fs Hs.
  destruct (of_int_exact n Hn) as [Fn [Vn En]].
  destruct (finite_of_nonzero slope Fs ltac:(lra)) as [sy [my [ey Ey]]].
  assert (Hn1 : (0 <= IZR n <= 2147483647)%R).
  { unfold is_int, INT_MAX in Hn. split; apply IZR_le; lia. }
  assert (Hi : (0 < / D2R slope <= / 83)%R).
  { split; [apply Rinv_0_lt_compat; lra|].
    apply Rinv_le_contravar; lra. }
  assert (Hp : (0 <= IZR n / D2R slope <= IZR n / 83)%R).
  { unfold Rdiv. split; nra. }
  split; [|exact Hp].
  rewrite <- Vn. subst slope.
  apply Ddiv_rounded; [exact Fn | unfold emin64; lia|].
  rewrite Vn. eval_bpow.
  rewrite (bpow_nat 25 33554432) by (lia || reflexivity).
  apply Rabs_def1; lra.
Qed.

Lemma lrint_div_by_slope (n : Z) (slope : double) (j : Z) :
  is_int n -> 0 <= n -> is_fin slope = true -> (83 <= D2R slope)%R ->
  n <= 83 * j -> j <= 2 ^ 31 ->
  0 <= lrint (Ddiv (of_int n) slope) <= j.
Proof.
  intros Hn Hn0 Fs Hs Hj Hj'.
  destruct (div_by_slope n slope Hn Hn0 Fs Hs) as [Hr Hp].
  set (r := Ddiv (of_int n) slope) in *.
  assert (Hj1 : (IZR n / 83 <= IZR j)%R).
  { apply IZR_le in Hj. rewrite mult_IZR in Hj. lra. }
  assert (H0 : (0 <= D2R r)%R).
  { replace 0%R with (IZR 0 * bpow 0)%R by (simpl; ring).
    apply (rounded_ge _ _ _ _ _ Hr); [lia|]. simpl. lra. }
  assert (H1 : (D2R r <= IZR j)%R).
  { replace (IZR j) with (IZR j * bpow 0)%R by (rewrite bpow_0; ring).
    apply (rounded_le _ _ _ _ _ Hr); [lia|]. rewrite bpow_0. lra. }
  assert (Hb : (Rabs (D2R r) <= bpow 62)%R).
  { rewrite Rabs_pos_eq by exact H0. rewrite bpow_IZR by lia.
    apply Rle_trans with (IZR j); [exact H1|]. apply IZR_le.
    apply Z.le_trans with (2 ^ 31); [exact Hj' | lia]. }
  split.
  - apply lrint_ge; [apply Hr | exact Hb | exact H0].
  - apply lrint_le; [apply Hr | exact Hb | exact H1].
Qed.

Lemma fill_samples_no_avg_shallow (max_d max_t t : Z) (slope : double) :
  (max_d <? 10000) || (max_t <? 600) = true ->
  fill_samples_no_avg
    [unavailable 0; unavailable 0; unavailable 0; unavailable 0;
     unavailable 0; unavailable t] max_d max_t slope =
  [unavailable 0;
   mk_sample (to_int (lrint (Ddiv (of_int max_d) slope))) max_d (-1) (-1);
   mk_sample (to_int (max_t - lrint (Ddiv (of_int max_d) slope))) max_d
     (-1) (-1);
   unavailable 0; unavailable 0; unavailable t].
Proof. intros H. unfold fill_samples_no_avg. rewrite H. reflexivity. Qed.

Lemma fill_samples_no_avg_deep (max_d max_t t : Z) (slope : double) :
  (max_d <? 10000) || (max_t <? 600) = false ->
  fill_samples_no_avg
    [unavailable 0; unavailable 0; unavailable 0; unavailable 0;
     unavailable 0; unavailable t] max_d max_t slope =
  [unavailable 0;
   mk_sample (to_int (lrint (Ddiv (of_int max_d) slope))) max_d (-1) (-1);
   mk_sample (to_int (max_t - lrint (Ddiv (of_int max_d) slope) - 180)) max_d
     (-1) (-1);
   mk_sample (to_int (max_t - lrint (Ddiv (of_int 5000) slope) - 180)) 5000
     (-1) (-1);
   mk_sample (to_int (max_t - lrint (Ddiv (of_int 5000) slope))) 5000
     (-1) (-1);
   unavailable t].
Proof. intros H. unfold fill_samples_no_avg. rewrite H. reflexivity. Qed.

(** [fake_dc] on a record without an average depth. *)
Lemma fake_dc_no_avg (dc : struct_divecomputer) :
  duration_seconds dc <> 0 -> maxdepth_mm dc <> 0 -> meandepth_mm dc = 0 ->
  let max_t := duration_seconds dc in
  let max_d := maxdepth_mm dc in
  let fake :=
    fill_samples_no_avg
      [unavailable 0; unavailable 0; unavailable 0; unavailable 0;
       unavailable 0; unavailable max_t] max_d max_t
      (no_avg_slope max_d max_t) in
  fake_dc dc =
    if time_seconds (at_ fake 3) =? 0
    then set_samples 4 (upd 3 (set_time max_t) fake)
           (set_last_manual_time max_t dc)
    else set_samples 6 fake (set_last_manual_time max_t dc).
Proof.
  intros Ht Hd Ha max_t max_d fake. unfold fake_dc.
  apply Z.eqb_neq in Ht, Hd. rewrite Ht, Hd, Ha, skeleton_eq. reflexivity.
Qed.

(** [fake_dc] on a deep and long dive without an average depth. *)
Lemma fake_dc_deep_and_long (dc : struct_divecomputer) :
  let max_t := duration_seconds dc in
  let max_d := maxdepth_mm dc in
  let slope := no_avg_slope max_d max_t in
  let t1 := lrint (Ddiv (of_int max_d) slope) in
  let t5 := lrint (Ddiv (of_int 5000) slope) in
  is_int max_t -> is_int max_d -> meandepth_mm dc = 0 ->
  10000 <= max_d -> 600 <= max_t ->
  fake_dc dc =
    set_samples 6
      [unavailable 0;
       mk_sample t1 max_d (-1) (-1);
       mk_sample (max_t - t1 - 180) max_d (-1) (-1);
       mk_sample (max_t - t5 - 180) 5000 (-1) (-1);
       mk_sample (max_t - t5) 5000 (-1) (-1);
       unavailable max_t]
      (set_last_manual_time max_t dc) /\
  0 <= t1 <= 2 ^ 25 /\ 0 <= t5 <= 61.
Proof.
  intros max_t max_d slope t1 t5 Ht Hd Ha Hd1 Ht1.
  destruct (no_avg_slope_value max_d max_t Hd Ht ltac:(lia)) as [Fs Hs].
  fold slope in Fs, Hs.
  assert (H1 : 0 <= t1 <= 2 ^ 25).
  { apply lrint_div_by_slope; try assumption; try lia.
    unfold is_int, INT_MAX in Hd. lia. }
  assert (H5 : 0 <= t5 <= 61).
  { apply lrint_div_by_slope; try assumption; try lia.
    unfold is_int, INT_MIN, INT_MAX. lia. }
  split; [|split; assumption].
  rewrite (fake_dc_no_avg dc) by (fold max_t max_d; lia || assumption).
  fold max_t max_d slope.
  rewrite fill_samples_no_avg_deep
    by (apply orb_false_intro; apply Z.ltb_ge; assumption).
  fold t1 t5.
  unfold is_int, INT_MIN, INT_MAX in Ht, Hd.
  rewrite !to_int_id by (unfold is_int, INT_MIN, INT_MAX; lia).
  match goal with
  | |- context [time_seconds (at_ ?l 3) =? 0] =>
      replace (time_seconds (at_ l 3) =? 0) with false
        by (symmetry; apply Z.eqb_neq; unfold at_; cbn [nth time_seconds]; lia)
  end.
  reflexivity.
Qed.

(** [fake_dc] on a shallow or short dive without an average depth. *)
Lemma fake_dc_shallow_or_short (dc : struct_divecomputer) :
  let max_t := duration_seconds dc in
  let max_d := maxdepth_mm dc in
  let slope := no_avg_slope max_d max_t in
  let t1 := lrint (Ddiv (of_int max_d) slope) in
  max_t <> 0 -> max_d <> 0 -> meandepth_mm dc = 0 ->
  max_d < 10000 \/ max_t < 600 ->
  fake_dc dc =
    set_samples 4
      [unavailable 0;
       mk_sample (to_int t1) max_d (-1) (-1);
       mk_sample (to_int (max_t - t1)) max_d (-1) (-1);
       unavailable max_t; unavailable 0; unavailable max_t]
      (set_last_manual_time max_t dc).
Proof.
  intros max_t max_d slope t1 Ht Hd Ha Hs.
  rewrite (fake_dc_no_avg dc) by assumption.
  fold max_t max_d slope.
  rewrite fill_samples_no_avg_shallow.
  - reflexivity.
  - destruct Hs as [Hs | Hs]; apply Z.ltb_lt in Hs; rewrite Hs;
      auto using orb_true_r.
Qed.


(** ** A single attempt *)

(** C3 as the spec words it fails: with the slope 10000 mm/s and the
    [d_frac] 0.01 of the third attempt, [max_depth = 5000] gives
    [max_depth / slope = 0.5], which [lrint] rounds to the even 0 and the
    spec's rounding to 1; the samples written differ. *)
Lemma C3_rounding_counterexample :
  let s := skeleton [] 1000 in
  (0 < D2Q slope_insane)%Q /\ (0 < D2Q d_0_01)%Q /\ (D2Q d_0_01 < 1)%Q /\
  point (at_ (snd (fill_samples s 5000 2500 1000 slope_insane d_0_01)) 1)
    = (0, 5000) /\
  point (at_ (snd (spec_fill_samples s 5000 2500 1000
                     (D2Q slope_insane) (D2Q d_0_01))) 1)
    = (1, 5000) /\
  fill_samples s 5000 2500 1000 slope_insane d_0_01 <>
  spec_fill_samples s 5000 2500 1000 (D2Q slope_insane) (D2Q d_0_01).
Proof.
  intros s.
  split; [vm_compute; reflexivity|].
  split; [vm_compute; reflexivity|].
  split; [vm_compute; reflexivity|].
  split; [vm_compute; reflexivity|].
  split; [vm_compute; reflexivity|].
  vm_compute. discriminate.
Qed.

Lemma accept_bool (t1 t2 t3 t4 max_t : Z) :
  (t1 <? 0) || (t2 <? t1) || (t3 <? t2) || (t4 <? t3) || (max_t <? t4) =
  negb ((0 <=? t1) && (t1 <=? t2) && (t2 <=? t3) && (t3 <=? t4)
        && (t4 <=? max_t)).
Proof.
  rewrite !Z.ltb_antisym.
  destruct (0 <=? t1), (t1 <=? t2), (t2 <=? t3), (t3 <=? t4), (t4 <=? max_t);
    reflexivity.
Qed.

Lemma fill_samples_eq (s0 s1 s2 s3 s4 s5 : struct_sample)
    (max_d avg_d max_t : Z) (slope d_frac : double) :
  let t1 := t1_of max_d slope in
  let t4 := t4_of max_t t1 d_frac in
  let t3 := t3_of (t_frac_of max_d avg_d max_t) t1 t4 d_frac in
  let t2 := t2_of t1 t3 d_frac in
  let d := plateau_of max_d d_frac in
  fill_samples [s0; s1; s2; s3; s4; s5] max_d avg_d max_t slope d_frac =
  if (0 <=? t1) && (t1 <=? t2) && (t2 <=? t3) && (t3 <=? t4) && (t4 <=? max_t)
  then (1, [s0;
            mk_sample t1 max_d (bearing_degrees s1) (ndl_seconds s1);
            mk_sample t2 max_d (bearing_degrees s2) (ndl_seconds s2);
            mk_sample t3 d (bearing_degrees s3) (ndl_seconds s3);
            mk_sample t4 d (bearing_degrees s4) (ndl_seconds s4);
            s5])
  else (0, [s0; s1; s2; s3; s4; s5]).
Proof.
  unfold fill_samples, t2_of, t3_of, t4_of, t1_of, plateau_of, t_frac_of.
  cbv zeta.
  set (t1 := to_int (lrint (Ddiv (of_int max_d) slope))).
  set (t4 := to_int (lrint (Dsub (of_int max_t) (Dmul (of_int t1) d_frac)))).
  set (t3 := to_int (lrint (Dsub (of_int t4) _))).
  set (t2 := to_int (lrint (Dsub (of_int t3) _))).
  set (d := to_int (lrint (Dmul (of_int max_d) d_frac))).
  clearbody t1 t4 t3 t2 d.
  rewrite accept_bool.
  destruct ((0 <=? t1) && (t1 <=? t2) && (t2 <=? t3) && (t3 <=? t4)
            && (t4 <=? max_t)); reflexivity.
Qed.

(** C3, amended: the attempt computes [t_frac], [t1], [t4], [t3], [t2] and
    the plateau depth in double arithmetic, each integer by [lrint] (to
    nearest, ties to even) and a conversion to [int]; it accepts exactly
    when [0 <= t1 <= t2 <= t3 <= t4 <= max_time]; on acceptance it writes
    time and depth of samples 1 to 4 and leaves samples 0 and 5 as they are;
    on rejection it returns 0 and writes nothing. *)
Theorem C3_fill_samples_solution (s0 s1 s2 s3 s4 s5 : struct_sample)
    (max_d avg_d max_t : Z) (slope d_frac : double) :
  let t1 := t1_of max_d slope in
  let t4 := t4_of max_t t1 d_frac in
  let t3 := t3_of (t_frac_of max_d avg_d max_t) t1 t4 d_frac in
  let t2 := t2_of t1 t3 d_frac in
  let d := plateau_of max_d d_frac in
  let s := [s0; s1; s2; s3; s4; s5] in
  let r := fill_samples s max_d avg_d max_t slope d_frac in
  (fst r = 1 <-> 0 <= t1 <= t2 /\ t2 <= t3 <= t4 /\ t4 <= max_t) /\
  (fst r = 1 ->
   snd r = [s0;
            mk_sample t1 max_d (bearing_degrees s1) (ndl_seconds s1);
            mk_sample t2 max_d (bearing_degrees s2) (ndl_seconds s2);
            mk_sample t3 d (bearing_degrees s3) (ndl_seconds s3);
            mk_sample t4 d (bearing_degrees s4) (ndl_seconds s4);
            s5]) /\
  (fst r <> 1 -> r = (0, s)).
Proof.
  intros t1 t4 t3 t2 d s r. subst r s.
  rewrite fill_samples_eq. fold t1 t4 t3 t2 d.
  clearbody t1 t4 t3 t2 d.
  destruct ((0 <=? t1) && (t1 <=? t2) && (t2 <=? t3) && (t3 <=? t4)
            && (t4 <=? max_t)) eqn:E; cbn [fst snd].
  - rewrite !andb_true_iff, !Z.leb_le in E.
    split; [split; [intros _; lia | reflexivity]|].
    split; [reflexivity | intros H; contradiction].
  - split; [split; [discriminate|]|].
    + intros H. rewrite <- not_true_iff_false in E. exfalso. apply E.
      rewrite !andb_true_iff, !Z.leb_le. lia.
    + split; [discriminate | reflexivity].
Qed.

(** C3 at the spec's example: attempt 1 is accepted and writes its four
    breakpoints. *)
Lemma C3_fill_samples_solution_witness :
  fill_samples (skeleton [] 3000) 18000 9000 3000 slope_5m d_0_33 =
  (1, [unavailable 0; mk_sample 216 18000 (-1) (-1);
       mk_sample 868 18000 (-1) (-1); mk_sample 1013 5940 (-1) (-1);
       mk_sample 2929 5940 (-1) (-1); unavailable 3000]).
Proof.
  destruct (C3_fill_samples_solution (unavailable 0) (unavailable 0)
              (unavailable 0) (unavailable 0) (unavailable 0)
              (unavailable 3000) 18000 9000 3000 slope_5m d_0_33)
    as [[_ H1] [H2 _]].
  rewrite skeleton_eq.
  assert (E : fst (fill_samples
                     [unavailable 0; unavailable 0; unavailable 0;
                      unavailable 0; unavailable 0; unavailable 3000]
                     18000 9000 3000 slope_5m d_0_33) = 1)
    by (vm_compute; reflexivity).
  apply injective_projections.
  - exact E.
  - rewrite (H2 E). vm_compute. reflexivity.
Defined.


(** ** The three attempts *)

Lemma D2R_dyadic (m : positive) (e : Z) :
  0 <= e ->
  D2R (S754_finite false m (- e)) = (IZR (Zpos m) / IZR (2 ^ e))%R.
Proof.
  intros H. rewrite D2R_finite, bpow_opp, bpow_IZR by exact H.
  unfold sgn, Rdiv. ring.
Qed.

Lemma fraction_0_33 : fraction d_0_33.
Proof.
  split; [reflexivity|]. split; [simpl; lia|]. unfold d_0_33.
  change (-54) with (Z.opp 54). rewrite D2R_dyadic by lia.
  change (2 ^ 54) with 18014398509481984. lra.
Qed.

Lemma fraction_0_10 : fraction d_0_10.
Proof.
  split; [reflexivity|]. split; [simpl; lia|]. unfold d_0_10.
  change (-56) with (Z.opp 56). rewrite D2R_dyadic by lia.
  change (2 ^ 56) with 72057594037927936. lra.
Qed.

Lemma fraction_0_01 : fraction d_0_01.
Proof.
  split; [reflexivity|]. split; [simpl; lia|]. unfold d_0_01.
  change (-59) with (Z.opp 59). rewrite D2R_dyadic by lia.
  change (2 ^ 59) with 576460752303423488. lra.
Qed.

(** The depth of the plateau lies between 0 and [max_d], within a half of
    [max_d * d_frac]. *)
Lemma plateau_bound (max_d : Z) (d : double) :
  is_int max_d -> 0 < max_d -> fraction d ->
  0 <= plateau_of max_d d <= max_d /\
  (Rabs (IZR (plateau_of max_d d) - IZR max_d * D2R d) <= / 2 + / 131072)%R.
Proof.
  intros Hi Hd [Fd [Ed' Vd]].
  assert (Ed : ebound (- 20) d) by (destruct d; simpl in *; lia).
  destruct (of_int_exact max_d Hi) as [Fm [Vm Em]].
  assert (Hm : (0 < IZR max_d <= 2147483647)%R).
  { unfold is_int, INT_MAX in Hi. split; [apply IZR_lt | apply IZR_le]; lia. }
  destruct (Dmul_rounded (of_int max_d) d (- 20) (- 20) (- 21)
              Fm Fd Em Ed ltac:(lia) ltac:(unfold emin64; lia)) as [R1 _].
  { rewrite Vm. eval_bpow.
    rewrite (bpow_nat 32 4294967296) by (lia || reflexivity).
    apply Rabs_def1; nra. }
  rewrite Vm in R1. set (r := Dmul (of_int max_d) d) in *.
  assert (H0 : (0 <= D2R r)%R).
  { replace 0%R with (IZR 0 * bpow 0)%R by (simpl; ring).
    apply (rounded_ge _ _ _ _ _ R1); [lia|]. simpl. nra. }
  assert (H1 : (D2R r <= IZR max_d)%R).
  { replace (IZR max_d) with (IZR max_d * bpow 0)%R by (rewrite bpow_0; ring).
    apply (rounded_le _ _ _ _ _ R1); [lia|]. rewrite bpow_0. nra. }
  assert (Hb : (Rabs (D2R r) <= bpow 62)%R).
  { rewrite Rabs_pos_eq by exact H0.
    rewrite (bpow_nat 62 4611686018427387904) by (lia || reflexivity). lra. }
  assert (0 <= lrint r <= max_d).
  { split; [apply lrint_ge | apply lrint_le]; try assumption; apply R1. }
  unfold plateau_of. fold r. unfold is_int, INT_MIN, INT_MAX in Hi.
  rewrite to_int_id by (unfold is_int, INT_MIN, INT_MAX; lia).
  split; [assumption|].
  pose proof (lrint_near r (proj1 R1) Hb) as Hn.
  pose proof (rounded_err_le _ _ _ (/ 131072) R1
                ltac:(unfold bpow; simpl; lra)) as He.
  apply Rabs_le_inv in Hn, He. apply Rabs_le. lra.
Qed.

(** [fake_dc] on a record with an average depth. *)
Lemma fake_dc_avg (dc : struct_divecomputer) :
  let max_t := duration_seconds dc in
  let max_d := maxdepth_mm dc in
  let avg_d := sanitize_avg_d max_d (meandepth_mm dc) in
  max_t <> 0 -> max_d <> 0 -> meandepth_mm dc <> 0 ->
  fake_dc dc =
    set_samples 6
      (attempts (six_points 0 0 0 0 max_t 0 0) max_d avg_d max_t)
      (set_last_manual_time max_t dc).
Proof.
  intros max_t max_d avg_d Ht Hd Ha. unfold fake_dc, attempts.
  apply Z.eqb_neq in Ht, Hd, Ha.
  fold max_t max_d. rewrite Ht, Hd, Ha, skeleton_eq.
  fold avg_d. cbn [orb].
  change [unavailable 0; unavailable 0; unavailable 0; unavailable 0;
          unavailable 0; unavailable max_t]
    with (six_points 0 0 0 0 max_t 0 0).
  destruct (fill_samples _ max_d avg_d max_t slope_5m d_0_33) as [ok1 f1].
  destruct (negb (ok1 =? 0)); [reflexivity|].
  destruct (fill_samples _ max_d avg_d max_t slope_10m d_0_10) as [ok2 f2].
  destruct (negb (ok2 =? 0)); [reflexivity|].
  destruct (fill_samples _ max_d avg_d max_t slope_insane d_0_01) as [ok3 f3].
  destruct (negb (ok3 =? 0)); reflexivity.
Qed.

(** An attempt on the skeleton leaves it or writes six sorted points. *)
Lemma fill_samples_skeleton (max_d avg_d max_t : Z) (slope d_frac : double) :
  fill_samples (six_points 0 0 0 0 max_t 0 0) max_d avg_d max_t slope d_frac
    = (0, six_points 0 0 0 0 max_t 0 0) \/
  exists t1 t2 t3 t4 : Z,
    0 <= t1 <= t2 /\ t2 <= t3 <= t4 /\ t4 <= max_t /\
    fill_samples (six_points 0 0 0 0 max_t 0 0) max_d avg_d max_t slope d_frac
      = (1, six_points t1 t2 t3 t4 max_t max_d (plateau_of max_d d_frac)).
Proof.
  unfold six_points at 1 3. rewrite fill_samples_eq.
  cbv zeta.
  set (t1 := t1_of max_d slope).
  set (t4 := t4_of max_t t1 d_frac).
  set (t3 := t3_of _ t1 t4 d_frac).
  set (t2 := t2_of t1 t3 d_frac).
  clearbody t1 t4 t3 t2.
  destruct ((0 <=? t1) && (t1 <=? t2) && (t2 <=? t3) && (t3 <=? t4)
            && (t4 <=? max_t)) eqn:E.
  - right. exists t1, t2, t3, t4.
    rewrite !andb_true_iff, !Z.leb_le in E.
    repeat split; try lia. 
  - left. reflexivity.
Qed.

Lemma attempts_cases (max_d avg_d max_t : Z) :
  attempts (six_points 0 0 0 0 max_t 0 0) max_d avg_d max_t
    = six_points 0 0 0 0 max_t 0 0 \/
  exists (t1 t2 t3 t4 : Z) (d_frac : double),
    fraction d_frac /\
    0 <= t1 <= t2 /\ t2 <= t3 <= t4 /\ t4 <= max_t /\
    attempts (six_points 0 0 0 0 max_t 0 0) max_d avg_d max_t
      = six_points t1 t2 t3 t4 max_t max_d (plateau_of max_d d_frac).
Proof.
  unfold attempts.
  destruct (fill_samples_skeleton max_d avg_d max_t slope_5m d_0_33)
    as [E1 | [t1 [t2 [t3 [t4 [H1 [H2 [H3 E1]]]]]]]]; rewrite E1; cbn [negb Z.eqb].
  2: { right. exists t1, t2, t3, t4, d_0_33.
       repeat split; try lia; apply fraction_0_33. }
  destruct (fill_samples_skeleton max_d avg_d max_t slope_10m d_0_10)
    as [E2 | [t1 [t2 [t3 [t4 [H1 [H2 [H3 E2]]]]]]]]; rewrite E2; cbn [negb Z.eqb].
  2: { right. exists t1, t2, t3, t4, d_0_10.
       repeat split; try lia; apply fraction_0_10. }
  destruct (fill_samples_skeleton max_d avg_d max_t slope_insane d_0_01)
    as [E3 | [t1 [t2 [t3 [t4 [H1 [H2 [H3 E3]]]]]]]]; rewrite E3; cbn [negb Z.eqb].
  2: { right. exists t1, t2, t3, t4, d_0_01.
       repeat split; try lia; apply fraction_0_01. }
  left. reflexivity.
Qed.

Lemma six_points_valid (t1 t2 t3 t4 max_t max_d d : Z) :
  0 <= t1 <= t2 -> t2 <= t3 <= t4 -> t4 <= max_t ->
  d <= max_d -> 0 <= max_d ->
  time_sorted 6 (six_points t1 t2 t3 t4 max_t max_d d) = true /\
  depth_bounded max_d 6 (six_points t1 t2 t3 t4 max_t max_d d) = true.
Proof.
  intros H1 H2 H3 H4 H5. unfold six_points, unavailable.
  cbn [time_sorted depth_bounded time_seconds depth_mm].
  rewrite !andb_true_iff, !Z.leb_le. lia.
Qed.

(** ** The invariants of a produced profile *)

(** C1: the code breaks the order of the times in the branch without an
    average depth.  A dive to 30 m in 600 s gets the six counted samples
    (0, 0), (300, 30000), (120, 30000), (370, 5000), (550, 5000), (600, 0):
    the bottom time ends at 120 s, before the descent does at 300 s.  The
    comment above [fill_samples] requires
    [0 <= t1 <= t2 <= t3 <= t4 <= max_t] and [fill_samples] checks it;
    [fill_samples_no_avg] does not. *)
Lemma C1_time_order_code_bug :
  let r := fake_dc (dive 600 30000 0) in
  samples r = 6 /\
  map point (sample r) =
    [(0, 0); (300, 30000); (120, 30000); (370, 5000); (550, 5000);
     (600, 0)] /\
  time_sorted 6 (sample r) = false /\
  valid_profile 600 30000 6 (sample r) = false.
Proof.
  intros r.
  split; [vm_compute; reflexivity|].
  split; [vm_compute; reflexivity|].
  split; vm_compute; reflexivity.
Qed.

Lemma no_avg_t1_bound (max_d max_t : Z) :
  is_int max_d -> is_int max_t -> 0 < max_d -> max_t <> 0 ->
  0 <= lrint (Ddiv (of_int max_d) (no_avg_slope max_d max_t)) <= 2 ^ 25.
Proof.
  intros Hd Ht Hd0 Ht0.
  destruct (no_avg_slope_value max_d max_t Hd Ht Ht0) as [Fs Hs].
  apply lrint_div_by_slope; try assumption; try lia.
  unfold is_int, INT_MAX in Hd. lia.
Qed.

(** X14: what holds of every produced profile, for [max_time > 0] and
    [max_depth > 0]: the count is 4 or 6, the first sample is (0, 0), the
    last counted sample is [(max_time, 0)] and no counted depth exceeds
    [max_depth], in both branches; with an average depth the times of the
    counted samples never decrease. *)
Theorem fake_dc_profile_invariants (dc : struct_divecomputer) :
  let max_t := duration_seconds dc in
  let max_d := maxdepth_mm dc in
  let r := fake_dc dc in
  let n := Z.to_nat (samples r) in
  is_int max_t -> is_int max_d -> 0 < max_t -> 0 < max_d ->
  (samples r = 4 \/ samples r = 6) /\
  point (at_ (sample r) 0) = (0, 0) /\
  point (at_ (sample r) (n - 1)) = (max_t, 0) /\
  depth_bounded max_d n (sample r) = true /\
  (meandepth_mm dc <> 0 -> time_sorted n (sample r) = true).
Proof.
  intros max_t max_d r n Ht Hd Ht0 Hd0. subst n r.
  destruct (Z.eq_dec (meandepth_mm dc) 0) as [Ha | Ha].
  - (* no average depth *)
    pose proof (no_avg_t1_bound max_d max_t Hd Ht Hd0 ltac:(lia)) as B1.
    assert (Hshallow :
      max_d < 10000 \/ max_t < 600 ->
      (samples (fake_dc dc) = 4 \/ samples (fake_dc dc) = 6) /\
      point (at_ (sample (fake_dc dc)) 0) = (0, 0) /\
      point (at_ (sample (fake_dc dc)) (Z.to_nat (samples (fake_dc dc)) - 1))
        = (max_t, 0) /\
      depth_bounded max_d (Z.to_nat (samples (fake_dc dc)))
        (sample (fake_dc dc)) = true /\
      (meandepth_mm dc <> 0 ->
       time_sorted (Z.to_nat (samples (fake_dc dc))) (sample (fake_dc dc))
         = true)).
    { intros Hs.
      rewrite (fake_dc_shallow_or_short dc) by (fold max_t max_d; lia).
      fold max_t max_d.
      set (t1 := lrint (Ddiv (of_int max_d) (no_avg_slope max_d max_t))) in *.
      clearbody t1. unfold is_int, INT_MIN, INT_MAX in Ht, Hd.
      rewrite !to_int_id by (unfold is_int, INT_MIN, INT_MAX; lia).
      cbn [samples sample set_samples].
      change (Z.to_nat 4) with 4%nat. unfold at_, point, unavailable.
      cbn [Nat.sub nth time_seconds depth_mm depth_bounded time_sorted
           fst snd].
      replace (0 <=? t1) with true by (symmetry; apply Z.leb_le; lia).
      replace (max_t - t1 <=? max_t) with true
        by (symmetry; apply Z.leb_le; lia).
      rewrite !andb_true_r, !andb_true_l.
      rewrite !andb_true_iff, !Z.leb_le.
      repeat split; auto; try lia. }
    destruct (Z_lt_le_dec max_d 10000) as [Hs | Hd1]; [auto|].
    destruct (Z_lt_le_dec max_t 600) as [Hs | Ht1]; [auto|].
    clear Hshallow.
    destruct (fake_dc_deep_and_long dc Ht Hd Ha Hd1 Ht1) as [E [_ B5]].
    fold max_t max_d in E, B5. rewrite E.
    set (t1 := lrint (Ddiv (of_int max_d) (no_avg_slope max_d max_t))) in *.
    set (t5 := lrint (Ddiv (of_int 5000) (no_avg_slope max_d max_t))) in *.
    clearbody t1 t5.
    cbn [samples sample set_samples].
    change (Z.to_nat 6) with 6%nat. unfold at_, point, unavailable.
    cbn [Nat.sub nth time_seconds depth_mm depth_bounded time_sorted fst snd].
    replace (0 <=? t1) with true by (symmetry; apply Z.leb_le; lia).
    replace (max_t - t5 - 180 <=? max_t - t5) with true
      by (symmetry; apply Z.leb_le; lia).
    replace (max_t - t5 <=? max_t) with true
      by (symmetry; apply Z.leb_le; lia).
    rewrite !andb_true_r, !andb_true_l.
    rewrite !andb_true_iff, !Z.leb_le.
    repeat split; auto; try lia.
  - (* an average depth *)
    rewrite (fake_dc_avg dc) by (fold max_t max_d; lia).
    fold max_t max_d. cbn [samples sample set_samples].
    change (Z.to_nat 6) with 6%nat.
    destruct (attempts_cases max_d
                (sanitize_avg_d max_d (meandepth_mm dc)) max_t)
      as [E | [t1 [t2 [t3 [t4 [d_frac [Hf [H1 [H2 [H3 E]]]]]]]]]];
      rewrite E.
    + destruct (six_points_valid 0 0 0 0 max_t 0 0) as [Hs Hb]; try lia.
      split; [right; reflexivity|]. split; [reflexivity|].
      split; [reflexivity|].
      split; [|intros _; exact Hs].
      unfold six_points, unavailable. cbn [depth_bounded depth_mm].
      rewrite !andb_true_iff, !Z.leb_le. lia.
    + pose proof (proj1 (plateau_bound max_d d_frac Hd Hd0 Hf)) as Hp.
      destruct (six_points_valid t1 t2 t3 t4 max_t max_d
                  (plateau_of max_d d_frac)) as [Hs Hb]; try lia.
      split; [right; reflexivity|]. split; [reflexivity|].
      split; [reflexivity|].
      split; [exact Hb|].
      intros _; exact Hs.
Qed.

(** [fake_dc_profile_invariants] at 18 m for 50 minutes with an average of
    9 m. *)
Lemma fake_dc_profile_invariants_witness :
  let r := fake_dc (dive 3000 18000 9000) in
  (samples r = 4 \/ samples r = 6) /\
  point (at_ (sample r) 0) = (0, 0) /\
  point (at_ (sample r) (Z.to_nat (samples r) - 1)) = (3000, 0) /\
  depth_bounded 18000 (Z.to_nat (samples r)) (sample r) = true /\
  time_sorted (Z.to_nat (samples r)) (sample r) = true.
Proof.
  assert (Ht : is_int 3000) by (unfold is_int, INT_MIN, INT_MAX; lia).
  assert (Hd : is_int 18000) by (unfold is_int, INT_MIN, INT_MAX; lia).
  destruct (fake_dc_profile_invariants (dive 3000 18000 9000) Ht Hd
              ltac:(simpl; lia) ltac:(simpl; lia))
    as [H1 [H2 [H3 [H4 H5]]]].
  intros r.
  split; [exact H1|]. split; [exact H2|]. split; [exact H3|].
  split; [exact H4|]. apply H5. simpl. lia.
Defined.

(** ** The area under an accepted attempt *)

Lemma of_int_1 : of_int 1 = S754_finite false 4503599627370496 (-52).
Proof. vm_compute. reflexivity. Qed.

Lemma ebound_le (B B' : Z) (x : double) : ebound B x -> B <= B' -> ebound B' x.
Proof. destruct x; simpl; intros; lia || exact I. Qed.

Lemma is_int_bounds (z : Z) :
  is_int z -> (- 2147483648 <= IZR z <= 2147483647)%R.
Proof.
  unfold is_int, INT_MIN, INT_MAX. intros H. split; apply IZR_le; lia.
Qed.

Lemma to_int_near (z t : Z) :
  to_int z = t -> - 2 ^ 32 < z - t < 2 ^ 32 -> z = t.
Proof.
  unfold to_int. intros E H.
  pose proof (Z.div_mod (z + 2 ^ 31) (2 ^ 32) ltac:(lia)) as Hdm.
  pose proof (Z.mod_pos_bound (z + 2 ^ 31) (2 ^ 32) ltac:(lia)) as Hm.
  assert ((z + 2 ^ 31) / 2 ^ 32 = 0) by nia.
  lia.
Qed.

(** *** Real arithmetic of the error terms *)

Lemma prod_bounds (x y X Y : R) :
  (0 <= x <= X)%R -> (0 <= y <= Y)%R -> (0 <= x * y <= X * Y)%R.
Proof.
  intros Hx Hy.
  assert (H1 : (0 <= x * y)%R) by (apply Rmult_le_pos; lra).
  assert (H2 : (0 <= (X - x) * y)%R) by (apply Rmult_le_pos; lra).
  assert (H3 : (0 <= X * (Y - y))%R) by (apply Rmult_le_pos; lra).
  split; lra.
Qed.

Lemma prod_abs_bounds (x y X Y : R) :
  (- X <= x <= X)%R -> (0 <= y <= Y)%R -> (- (X * Y) <= x * y <= X * Y)%R.
Proof.
  intros Hx Hy. assert (HX : (0 <= X)%R) by lra.
  assert (H1 : (0 <= (X - x) * y)%R) by (apply Rmult_le_pos; lra).
  assert (H2 : (0 <= (X + x) * y)%R) by (apply Rmult_le_pos; lra).
  assert (H3 : (0 <= X * (Y - y))%R) by (apply Rmult_le_pos; lra).
  split; lra.
Qed.

Lemma quotient_bounds (z c v T : R) :
  (49 / 100 <= c <= 1)%R ->
  (- (c * / 131072) <= c * z - v <= c * / 131072)%R ->
  (- 33554434 <= v <= 18 / 19 * T + 2)%R -> (1 <= T)%R ->
  (- 70000000 <= z <= 97 / 50 * T + 5)%R.
Proof.
  intros Hc Hz Hv HT. split.
  - destruct (Rle_or_lt (- 70000000) z); [assumption | exfalso; nra].
  - destruct (Rle_or_lt z (97 / 50 * T + 5)); [assumption | exfalso; nra].
Qed.

Lemma ascent_error (T t4 t1 f c w x : R) :
  (0 <= t1 <= 33554432)%R ->
  (- / 9007199254740992 <= c - (1 - f) <= / 9007199254740992)%R ->
  (- / 131072 <= w - t1 * f <= / 131072)%R ->
  (- / 131072 <= x - (T - w) <= / 131072)%R ->
  (- / 2 <= t4 - x <= / 2)%R ->
  (- (/ 2 + / 32768) <= T - t4 - t1 * (1 - c) <= / 2 + / 32768)%R.
Proof.
  intros H1 Hc Hw Hx H4.
  pose proof (prod_abs_bounds (c - (1 - f)) t1 (/ 9007199254740992)
                33554432 Hc H1) as Hp.
  split; lra.
Qed.

Lemma stop_error (c t4 t3 x z v tf t1 : R) :
  (49 / 100 <= c <= 1)%R ->
  (- / 2 <= t3 - x <= / 2)%R ->
  (- / 131072 <= x - (t4 - z) <= / 131072)%R ->
  (- (c * / 131072) <= c * z - v <= c * / 131072)%R ->
  (- / 131072 <= v - (tf - t1) <= / 131072)%R ->
  (- (/ 65536 + c * (/ 2 + / 65536)) <= c * (t4 - t3) - (tf - t1)
   <= / 65536 + c * (/ 2 + / 65536))%R.
Proof.
  intros Hc H3 Hx Hz Hv.
  assert (Ha : (- / 131072 <= x - (t4 - z) <= / 131072)%R) by lra.
  assert (Hb : (- / 2 <= x - t3 <= / 2)%R) by lra.
  assert (Hc1 : (0 <= c * (/ 2 - (x - t3)))%R) by (apply Rmult_le_pos; lra).
  assert (Hc2 : (0 <= c * (/ 2 + (x - t3)))%R) by (apply Rmult_le_pos; lra).
  assert (Hc3 : (0 <= c * (/ 131072 - (x - (t4 - z))))%R)
    by (apply Rmult_le_pos; lra).
  assert (Hc4 : (0 <= c * (/ 131072 + (x - (t4 - z))))%R)
    by (apply Rmult_le_pos; lra).
  split; lra.
Qed.

(** The area law: twice the area minus [2 * a * T], from the errors of the
    breakpoints. *)
Lemma area_bound (M T a t1 t2 t3 t4 d c tf : R) :
  (1 <= M)%R -> (1 <= T)%R ->
  (0 <= t2 <= T)%R -> (0 <= t3 <= t4)%R -> (t4 <= T)%R ->
  (49 / 100 <= c <= 1)%R ->
  (Rabs (tf - (T - T * a / M)) <= / 65536)%R ->
  (Rabs (T - t4 - t1 * (1 - c)) <= / 2 + / 32768)%R ->
  (Rabs (c * (t4 - t3) - (tf - t1)) <= / 65536 + c * (/ 2 + / 65536))%R ->
  (Rabs (t3 - t2 - t1 * c) <= / 2 + / 65536)%R ->
  (Rabs (M - d - M * c) <= / 2 + / 65536)%R ->
  (Rabs ((t1 - 0) * (M + 0)
         + ((t2 - t1) * (M + M)
            + ((t3 - t2) * (d + M)
               + ((t4 - t3) * (d + d) + ((T - t4) * (0 + d) + 0))))
         - 2 * (a * T)) <= 3 * M + 2 * T)%R.
Proof.
  intros HM HT H2 H3 H4 Hc Htf Hh Hg Hb HD.
  apply Rabs_le_inv in Htf, Hh, Hg, Hb, HD.
  set (dT := (tf - (T - T * a / M))%R) in *.
  set (eh := (T - t4 - t1 * (1 - c))%R) in *.
  set (eg := (c * (t4 - t3) - (tf - t1))%R) in *.
  set (eb := (t3 - t2 - t1 * c)%R) in *.
  set (eD := (M - d - M * c)%R) in *.
  set (S := (T + t4 - t3 - t2)%R).
  set (Q := (eb * c + 2 * eg + eh * (1 + c))%R).
  assert (E : ((t1 - 0) * (M + 0)
               + ((t2 - t1) * (M + M)
                  + ((t3 - t2) * (d + M)
                     + ((t4 - t3) * (d + d) + ((T - t4) * (0 + d) + 0))))
               - 2 * (a * T) = - 2 * (dT * M) - Q * M - eD * S)%R).
  { unfold Q, dT, eh, eg, eb, eD, S. field. lra. }
  rewrite E.
  assert (HS : (0 <= S <= 2 * T)%R) by (unfold S; lra).
  pose proof (prod_abs_bounds dT M (/ 65536) M Htf ltac:(lra)) as B1.
  pose proof (prod_abs_bounds eb c (/ 2 + / 65536) 1 Hb ltac:(lra)) as B2.
  pose proof (prod_abs_bounds eh (1 + c) (/ 2 + / 32768) 2 Hh ltac:(lra))
    as B3.
  assert (BQ : (- (3 : R) <= Q <= 3)%R) by (unfold Q; lra).
  assert (BQ' : (- (5 / 2 + / 4096) <= Q <= 5 / 2 + / 4096)%R)
    by (unfold Q; lra).
  pose proof (prod_abs_bounds Q M (5 / 2 + / 4096) M BQ' ltac:(lra)) as B4.
  pose proof (prod_abs_bounds eD S (/ 2 + / 65536) (2 * T) HD HS) as B5.
  apply Rabs_le. lra.
Qed.

Section Attempt.

Variables max_d avg_d max_t : Z.
Variables slope d_frac : double.

Hypothesis Hd : is_int max_d.
Hypothesis Hd0 : 0 < max_d.
Hypothesis Ht : is_int max_t.
Hypothesis Ht0 : 0 < max_t.
Hypothesis Ha : 1 <= avg_d < max_d.
Hypothesis Ha19 : max_d <= 19 * avg_d.
Hypothesis Fs : is_fin slope = true.
Hypothesis Hs : (83 <= D2R slope)%R.
Hypothesis Hf : fraction d_frac.

(** [t_frac] is [max_t * (1 - avg_d / max_d)] up to 2^-16. *)
Lemma t_frac_value :
  let tf := t_frac_of max_d avg_d max_t in
  is_fin tf = true /\ ebound (- 20) tf /\
  (Rabs (D2R tf - (IZR max_t - IZR max_t * IZR avg_d / IZR max_d))
   <= / 65536)%R /\
  (- 1 <= D2R tf <= 18 / 19 * IZR max_t + 1)%R.
Proof.
  intros tf. unfold tf, t_frac_of.
  assert (Hai : is_int avg_d)
    by (unfold is_int, INT_MIN, INT_MAX in *; lia).
  destruct (of_int_exact max_d Hd) as [Fm [Vm Em]].
  destruct (of_int_exact max_t Ht) as [Ft [Vt Et]].
  destruct (of_int_exact avg_d Hai) as [Fa [Va Ea]].
  pose proof (is_int_bounds max_d Hd) as Bm.
  pose proof (is_int_bounds max_t Ht) as Bt.
  assert (Hm0 : (1 <= IZR max_d)%R) by (apply IZR_le; lia).
  assert (Ht1 : (1 <= IZR max_t)%R) by (apply IZR_le; lia).
  assert (Ha1 : (1 <= IZR avg_d)%R) by (apply IZR_le; lia).
  assert (Ha2 : (IZR avg_d + 1 <= IZR max_d)%R)
    by (rewrite <- plus_IZR; apply IZR_le; lia).
  assert (Ha3 : (IZR max_d <= 19 * IZR avg_d)%R)
    by (rewrite <- mult_IZR; apply IZR_le; lia).
  (* the quotient *)
  set (p := (IZR avg_d / IZR max_d)%R).
  assert (Hp : (/ 19 <= p < 1)%R).
  { unfold p. split.
    - apply Rmult_le_reg_r with (IZR max_d); [lra|].
      unfold Rdiv. rewrite Rmult_assoc, Rinv_l by lra. lra.
    - apply Rmult_lt_reg_r with (IZR max_d); [lra|].
      unfold Rdiv. rewrite Rmult_assoc, Rinv_l by lra. lra. }
  destruct (finite_of_nonzero (of_int max_d) Fm ltac:(lra)) as [sy [my [ey Ey]]].
  destruct (Ddiv_rounded (of_int avg_d) sy my ey (- 52) Fa
              ltac:(unfold emin64; lia)) as [Rq Eq].
  { rewrite <- Ey, Va, Vm. fold p. eval_bpow. rewrite bpow_0.
    apply Rabs_def1; lra. }
  rewrite <- Ey, Va, Vm in Rq. rewrite <- Ey in Eq. fold p in Rq.
  set (q := Ddiv (of_int avg_d) (of_int max_d)) in *.
  pose proof (rounded_err_le _ _ _ (/ 9007199254740992) Rq
                ltac:(unfold bpow; simpl; lra)) as Hq.
  apply Rabs_le_inv in Hq.
  (* one minus the quotient *)
  assert (F1 : is_fin (of_int 1) = true) by (rewrite of_int_1; reflexivity).
  assert (E1 : ebound (- 52 + 1) (of_int 1)) by (rewrite of_int_1; simpl; lia).
  assert (V1 : D2R (of_int 1) = 1%R).
  { rewrite of_int_1. change (-52) with (Z.opp 52).
    rewrite D2R_dyadic by lia. change (2 ^ 52) with 4503599627370496. lra. }
  destruct (Dsub_rounded (of_int 1) q (- 52) F1 (proj1 Rq) E1 Eq
              ltac:(unfold emin64; lia)) as [Ru Eu].
  { rewrite V1. eval_bpow. rewrite (bpow_nat 1 2) by (lia || reflexivity).
    apply Rabs_def1; lra. }
  rewrite V1 in Ru. set (u := Dsub (of_int 1) q) in *.
  pose proof (rounded_err_le _ _ _ (/ 9007199254740992) Ru
                ltac:(unfold bpow; simpl; lra)) as Hu.
  apply Rabs_le_inv in Hu.
  (* times max_t *)
  destruct (Dmul_rounded (of_int max_t) u (- 20) (- 52 + 1) (- 21)
              Ft (proj1 Ru) Et Eu ltac:(lia) ltac:(unfold emin64; lia))
    as [Rt Ett].
  { rewrite Vt. eval_bpow.
    rewrite (bpow_nat 32 4294967296) by (lia || reflexivity).
    apply Rabs_def1; nra. }
  rewrite Vt in Rt.
  pose proof (rounded_err_le _ _ _ (/ 131072) Rt
                ltac:(unfold bpow; simpl; lra)) as Htf.
  apply Rabs_le_inv in Htf.
  split; [apply Rt|]. split; [exact Ett|].
  replace (IZR max_t * IZR avg_d / IZR max_d)%R with (IZR max_t * p)%R
    by (unfold p, Rdiv; ring).
  split; [apply Rabs_le|]; nra.
Qed.

Lemma one_minus_frac :
  let c := Dsub (of_int 1) d_frac in
  is_fin c = true /\ ebound (- 51) c /\
  (Rabs (D2R c - (1 - D2R d_frac)) <= / 9007199254740992)%R /\
  (49 / 100 <= D2R c <= 1)%R.
Proof.
  intros c. unfold c. destruct Hf as [Ff [Ef Vf]].
  assert (F1 : is_fin (of_int 1) = true) by (rewrite of_int_1; reflexivity).
  assert (E1 : ebound (- 52 + 1) (of_int 1)) by (rewrite of_int_1; simpl; lia).
  assert (V1 : D2R (of_int 1) = 1%R).
  { rewrite of_int_1. change (-52) with (Z.opp 52).
    rewrite D2R_dyadic by lia. change (2 ^ 52) with 4503599627370496. lra. }
  destruct (Dsub_rounded (of_int 1) d_frac (- 52) F1 Ff E1
              (ebound_le (- 53) (- 52 + 1) d_frac Ef ltac:(lia))
              ltac:(unfold emin64; lia)) as [Rc Ec].
  { rewrite V1. eval_bpow. rewrite (bpow_nat 1 2) by (lia || reflexivity).
    apply Rabs_def1; lra. }
  rewrite V1 in Rc.
  pose proof (rounded_err_le _ _ _ (/ 9007199254740992) Rc
                ltac:(unfold bpow; simpl; lra)) as Hc.
  split; [apply Rc|]. split; [exact Ec|]. split; [exact Hc|].
  apply Rabs_le_inv in Hc. split; [lra|].
  replace 1%R with (IZR 1 * bpow 0)%R by (rewrite bpow_0; ring).
  apply (rounded_le _ _ _ _ _ Rc); [lia|]. rewrite bpow_0. lra.
Qed.

Lemma t1_bound : 0 <= t1_of max_d slope <= 2 ^ 25.
Proof.
  assert (H : 0 <= lrint (Ddiv (of_int max_d) slope) <= 2 ^ 25).
  { apply lrint_div_by_slope; try assumption; try lia.
    unfold is_int, INT_MAX in Hd. lia. }
  unfold t1_of. rewrite to_int_id by (unfold is_int, INT_MIN, INT_MAX; lia).
  exact H.
Qed.

(** The breakpoints of an accepted attempt, against the equations they
    solve; [c] is the double [1 - d_frac]. *)
Lemma attempt_errors :
  let t1 := t1_of max_d slope in
  let t4 := t4_of max_t t1 d_frac in
  let tfD := t_frac_of max_d avg_d max_t in
  let t3 := t3_of tfD t1 t4 d_frac in
  let t2 := t2_of t1 t3 d_frac in
  let c := D2R (Dsub (of_int 1) d_frac) in
  0 <= t1 <= t2 -> t2 <= t3 <= t4 -> t4 <= max_t ->
  (Rabs (IZR (max_t - t4) - IZR t1 * (1 - c)) <= / 2 + / 32768)%R /\
  (Rabs (c * IZR (t4 - t3) - (D2R tfD - IZR t1))
   <= / 65536 + c * (/ 2 + / 65536))%R /\
  (Rabs (IZR (t3 - t2) - IZR t1 * c) <= / 2 + / 65536)%R.
Proof.
  intros t1 t4 tfD t3 t2 c H12 H34 H4t.
  destruct t_frac_value as [Ftf [Etf [Vtf Btf]]]. fold tfD in Ftf, Etf, Vtf, Btf.
  destruct one_minus_frac as [Fc [Ec [Vc Bc]]]. fold c in Vc, Bc.
  set (cD := Dsub (of_int 1) d_frac) in *.
  pose proof t1_bound as Bt1. fold t1 in Bt1.
  destruct Hf as [Ff [Ef Vf]].
  pose proof (is_int_bounds max_t Ht) as Bt.
  assert (Ht1 : (1 <= IZR max_t)%R) by (apply IZR_le; lia).
  assert (It1 : is_int t1) by (unfold is_int, INT_MIN, INT_MAX in *; lia).
  assert (It3 : is_int t3) by (unfold is_int, INT_MIN, INT_MAX in *; lia).
  assert (It4 : is_int t4) by (unfold is_int, INT_MIN, INT_MAX in *; lia).
  destruct (of_int_exact max_t Ht) as [Ft [Vt Et]].
  destruct (of_int_exact t1 It1) as [F1 [V1 E1]].
  destruct (of_int_exact t3 It3) as [F3 [V3 E3]].
  destruct (of_int_exact t4 It4) as [F4 [V4 E4]].
  assert (R1 : (0 <= IZR t1 <= 33554432)%R)
    by (split; apply IZR_le; lia).
  apply Rabs_le_inv in Vc.
  (* t4 *)
  assert (P4 : (0 <= IZR t1 * D2R d_frac <= 33554432 * / 2)%R)
    by (apply prod_bounds; lra).
  destruct (Dmul_rounded (of_int t1) d_frac (- 20) (- 53) (- 22)
              F1 Ff E1 Ef ltac:(lia) ltac:(unfold emin64; lia)) as [Rw4 Ew4].
  { rewrite V1. eval_bpow.
    rewrite (bpow_nat 31 2147483648) by (lia || reflexivity).
    apply Rabs_def1; lra. }
  rewrite V1 in Rw4. set (w4 := Dmul (of_int t1) d_frac) in *.
  pose proof (rounded_err_le _ _ _ (/ 131072) Rw4
                ltac:(unfold bpow; simpl; lra)) as Hw4.
  apply Rabs_le_inv in Hw4.
  assert (Bw4 : (- 1 <= D2R w4 <= 16777217)%R) by lra.
  destruct (Dsub_rounded (of_int max_t) w4 (- 21) Ft (proj1 Rw4) Et
              (ebound_le (- 22 + 1) (- 21 + 1) _ Ew4 ltac:(lia))
              ltac:(unfold emin64; lia)) as [Rx4 Ex4].
  { rewrite Vt. eval_bpow.
    rewrite (bpow_nat 32 4294967296) by (lia || reflexivity).
    apply Rabs_def1; lra. }
  rewrite Vt in Rx4. set (x4 := Dsub (of_int max_t) w4) in *.
  pose proof (rounded_err_le _ _ _ (/ 131072) Rx4
                ltac:(unfold bpow; simpl; lra)) as Hx4.
  apply Rabs_le_inv in Hx4.
  assert (Bx4 : (Rabs (D2R x4) <= bpow 62)%R).
  { rewrite (bpow_nat 62 4611686018427387904) by (lia || reflexivity).
    apply Rabs_le. lra. }
  pose proof (lrint_near x4 (proj1 Rx4) Bx4) as Hl4. apply Rabs_le_inv in Hl4.
  assert (E4' : t4 = lrint x4).
  { unfold t4, t4_of. fold w4 x4. apply to_int_id.
    unfold is_int, INT_MIN, INT_MAX. split.
    - apply le_IZR. rewrite opp_IZR.
      change (IZR (2 ^ 31)) with 2147483648%R. lra.
    - apply Z.lt_succ_r, lt_IZR. rewrite succ_IZR, minus_IZR.
      change (IZR (2 ^ 31)) with 2147483648%R. lra. }
  rewrite <- E4' in Hl4.
  split.
  { rewrite minus_IZR. apply Rabs_le.
    apply (ascent_error _ _ _ (D2R d_frac) _ (D2R w4) (D2R x4)); assumption. }
  assert (R4 : (IZR max_t - 16777219 <= IZR t4 <= IZR max_t)%R).
  { split; [lra | apply IZR_le; lia]. }
  (* t3 *)
  destruct (Dsub_rounded tfD (of_int t1) (- 21) Ftf F1 Etf E1
              ltac:(unfold emin64; lia)) as [Rv Ev].
  { rewrite V1. eval_bpow.
    rewrite (bpow_nat 32 4294967296) by (lia || reflexivity).
    apply Rabs_def1; lra. }
  rewrite V1 in Rv. set (v := Dsub tfD (of_int t1)) in *.
  pose proof (rounded_err_le _ _ _ (/ 131072) Rv
                ltac:(unfold bpow; simpl; lra)) as Hv.
  apply Rabs_le_inv in Hv.
  assert (Bv : (- 33554434 <= D2R v <= 18 / 19 * IZR max_t + 2)%R) by lra.
  destruct (finite_of_nonzero cD Fc ltac:(fold c; lra)) as [sc [mc [ec Ecd]]].
  assert (Hic : (0 <= / c <= 100 / 49)%R).
  { split; [left; apply Rinv_0_lt_compat; lra|].
    replace (100 / 49)%R with (/ (49 / 100))%R by field.
    apply Rinv_le_contravar; lra. }
  destruct (Ddiv_rounded v sc mc ec (- 18) (proj1 Rv)
              ltac:(unfold emin64; lia)) as [Rz Ez].
  { rewrite <- Ecd. fold c. eval_bpow.
    rewrite (bpow_nat 34 17179869184) by (lia || reflexivity).
    unfold Rdiv.
    assert (Hvv : (- 4294967296 <= D2R v <= 4294967296)%R) by lra.
    pose proof (prod_abs_bounds (D2R v) (/ c) 4294967296 (100 / 49) Hvv Hic).
    apply Rabs_def1; lra. }
  rewrite <- Ecd in Rz, Ez. fold c in Rz. set (z := Ddiv v cD) in *.
  pose proof (rounded_err_le _ _ _ (/ 131072) Rz
                ltac:(unfold bpow; simpl; lra)) as Hz.
  apply Rabs_le_inv in Hz.
  assert (Hzc : (- (c * / 131072) <= c * D2R z - D2R v <= c * / 131072)%R).
  { replace (c * D2R z - D2R v)%R with (c * (D2R z - D2R v / c))%R
      by (field; lra).
    split.
    - replace (- (c * / 131072))%R with (c * - / 131072)%R by ring.
      apply Rmult_le_compat_l; lra.
    - apply Rmult_le_compat_l; lra. }
  pose proof (quotient_bounds _ _ _ _ Bc Hzc Bv Ht1) as Bz.
  destruct (Dsub_rounded (of_int t4) z (- 18) F4 (proj1 Rz)
              (ebound_le (- 20) (- 18 + 1) _ E4 ltac:(lia)) Ez
              ltac:(unfold emin64; lia)) as [Rx3 Ex3].
  { rewrite V4. eval_bpow.
    rewrite (bpow_nat 35 34359738368) by (lia || reflexivity).
    apply Rabs_def1; lra. }
  rewrite V4 in Rx3. set (x3 := Dsub (of_int t4) z) in *.
  pose proof (rounded_err_le _ _ _ (/ 131072) Rx3
                ltac:(unfold bpow; simpl; lra)) as Hx3.
  apply Rabs_le_inv in Hx3.
  assert (Bx3 : (Rabs (D2R x3) <= bpow 62)%R).
  { rewrite (bpow_nat 62 4611686018427387904) by (lia || reflexivity).
    apply Rabs_le. lra. }
  pose proof (lrint_near x3 (proj1 Rx3) Bx3) as Hl3. apply Rabs_le_inv in Hl3.
  assert (R3 : (0 <= IZR t3 <= IZR max_t)%R) by (split; apply IZR_le; lia).
  assert (E3' : lrint x3 = t3).
  { apply to_int_near; [reflexivity|].
    split; apply lt_IZR; rewrite minus_IZR;
      [rewrite opp_IZR|]; change (IZR (2 ^ 32)) with 4294967296%R; lra. }
  rewrite E3' in Hl3.
  split.
  { rewrite minus_IZR. apply Rabs_le.
    apply (stop_error _ _ _ (D2R x3) (D2R z) (D2R v)); assumption. }
  (* t2 *)
  assert (P2 : (0 <= IZR t1 * c <= 33554432 * 1)%R)
    by (apply prod_bounds; lra).
  destruct (Dmul_rounded (of_int t1) cD (- 20) (- 51) (- 22)
              F1 Fc E1 Ec ltac:(lia) ltac:(unfold emin64; lia)) as [Rw2 Ew2].
  { rewrite V1. fold c. eval_bpow.
    rewrite (bpow_nat 31 2147483648) by (lia || reflexivity).
    apply Rabs_def1; lra. }
  rewrite V1 in Rw2. fold c in Rw2. set (w2 := Dmul (of_int t1) cD) in *.
  pose proof (rounded_err_le _ _ _ (/ 131072) Rw2
                ltac:(unfold bpow; simpl; lra)) as Hw2.
  apply Rabs_le_inv in Hw2.
  destruct (Dsub_rounded (of_int t3) w2 (- 21) F3 (proj1 Rw2) E3
              (ebound_le (- 22 + 1) (- 21 + 1) _ Ew2 ltac:(lia))
              ltac:(unfold emin64; lia)) as [Rx2 Ex2].
  { rewrite V3. eval_bpow.
    rewrite (bpow_nat 32 4294967296) by (lia || reflexivity).
    apply Rabs_def1; lra. }
  rewrite V3 in Rx2. set (x2 := Dsub (of_int t3) w2) in *.
  pose proof (rounded_err_le _ _ _ (/ 131072) Rx2
                ltac:(unfold bpow; simpl; lra)) as Hx2.
  apply Rabs_le_inv in Hx2.
  assert (Bx2 : (Rabs (D2R x2) <= bpow 62)%R).
  { rewrite (bpow_nat 62 4611686018427387904) by (lia || reflexivity).
    apply Rabs_le. lra. }
  pose proof (lrint_near x2 (proj1 Rx2) Bx2) as Hl2. apply Rabs_le_inv in Hl2.
  assert (E2' : t2 = lrint x2).
  { unfold t2, t2_of. fold cD w2 x2. apply to_int_id.
    unfold is_int, INT_MIN, INT_MAX. split.
    - apply le_IZR. rewrite opp_IZR.
      change (IZR (2 ^ 31)) with 2147483648%R. lra.
    - apply Z.lt_succ_r, lt_IZR. rewrite succ_IZR, minus_IZR.
      change (IZR (2 ^ 31)) with 2147483648%R. lra. }
  rewrite <- E2' in Hl2.
  rewrite minus_IZR. apply Rabs_le. lra.
Qed.

Lemma area2_six_points (t1 t2 t3 t4 T M d : Z) :
  area2 6 (six_points t1 t2 t3 t4 T M d) =
  (t1 - 0) * (M + 0)
  + ((t2 - t1) * (M + M)
     + ((t3 - t2) * (d + M) + ((t4 - t3) * (d + d) + ((T - t4) * (0 + d) + 0)))).
Proof. reflexivity. Qed.

(** The area under the six points of an accepted attempt. *)
Lemma attempt_area :
  let t1 := t1_of max_d slope in
  let t4 := t4_of max_t t1 d_frac in
  let t3 := t3_of (t_frac_of max_d avg_d max_t) t1 t4 d_frac in
  let t2 := t2_of t1 t3 d_frac in
  0 <= t1 <= t2 -> t2 <= t3 <= t4 -> t4 <= max_t ->
  Z.abs (area2 6 (six_points t1 t2 t3 t4 max_t max_d
                    (plateau_of max_d d_frac))
         - 2 * (avg_d * max_t)) <= 3 * max_d + 2 * max_t.
Proof.
  intros t1 t4 t3 t2 H12 H34 H4t.
  destruct (attempt_errors H12 H34 H4t) as [Eh [Eg Eb]].
  fold t1 t4 t3 t2 in Eh, Eg, Eb.
  destruct t_frac_value as [_ [_ [Vtf _]]].
  destruct one_minus_frac as [_ [_ [Vc Bc]]].
  destruct (plateau_bound max_d d_frac Hd Hd0 Hf) as [Bd Vd].
  set (d := plateau_of max_d d_frac) in *.
  set (c := D2R (Dsub (of_int 1) d_frac)) in *.
  set (tf := D2R (t_frac_of max_d avg_d max_t)) in *.
  clearbody t1 t4 t3 t2 d c tf.
  pose proof (is_int_bounds max_d Hd) as Bm.
  assert (HM : (1 <= IZR max_d)%R) by (apply IZR_le; lia).
  assert (HT : (1 <= IZR max_t)%R) by (apply IZR_le; lia).
  assert (HD : (Rabs (IZR max_d - IZR d - IZR max_d * c)
                <= / 2 + / 65536)%R).
  { apply Rabs_le_inv in Vc, Vd.
    pose proof (prod_abs_bounds (c - (1 - D2R d_frac)) (IZR max_d)
                  (/ 9007199254740992) 2147483647 Vc ltac:(lra)) as Hp.
    apply Rabs_le. lra. }
  rewrite !minus_IZR in Eh, Eg, Eb.
  rewrite area2_six_points.
  apply le_IZR. rewrite abs_IZR.
  repeat (rewrite ?minus_IZR, ?plus_IZR, ?mult_IZR).
  apply area_bound with (c := c) (tf := tf); try assumption.
  - split; apply IZR_le; lia.
  - split; apply IZR_le; lia.
  - apply IZR_le; lia.
Qed.

End Attempt.

Lemma fill_samples_six (max_d avg_d max_t : Z) (slope d_frac : double) :
  let t1 := t1_of max_d slope in
  let t4 := t4_of max_t t1 d_frac in
  let t3 := t3_of (t_frac_of max_d avg_d max_t) t1 t4 d_frac in
  let t2 := t2_of t1 t3 d_frac in
  fill_samples (six_points 0 0 0 0 max_t 0 0) max_d avg_d max_t slope d_frac =
  if (0 <=? t1) && (t1 <=? t2) && (t2 <=? t3) && (t3 <=? t4) && (t4 <=? max_t)
  then (1, six_points t1 t2 t3 t4 max_t max_d (plateau_of max_d d_frac))
  else (0, six_points 0 0 0 0 max_t 0 0).
Proof.
  intros t1 t4 t3 t2. unfold six_points at 1. rewrite fill_samples_eq.
  reflexivity.
Qed.

Lemma sanitize_avg_d_id (max_d avg_d : Z) :
  avg_d <> 0 -> Z.quot max_d 10 <= avg_d < max_d ->
  sanitize_avg_d max_d avg_d = avg_d.
Proof.
  intros H0 [H1 H2]. unfold sanitize_avg_d.
  replace (avg_d <? Z.quot max_d 10) with false
    by (symmetry; apply Z.ltb_ge; lia).
  replace (max_d <=? avg_d) with false by (symmetry; apply Z.leb_gt; lia).
  cbn [orb]. apply Z.eqb_neq in H0. rewrite H0. reflexivity.
Qed.

Lemma slope_10m_value : is_fin slope_10m = true /\ (83 <= D2R slope_10m)%R.
Proof.
  assert (E : slope_10m = S754_finite false 5864062014805333 (-45))
    by (vm_compute; reflexivity).
  rewrite E. split; [reflexivity|].
  change (-45) with (Z.opp 45). rewrite D2R_dyadic by lia.
  change (2 ^ 45) with 35184372088832. lra.
Qed.

(** C2 as the spec words it fails at the spec's own example: attempt 1 is
    accepted and the area is 27007560 mm*s against 27000000, the breakpoints
    being rounded to whole seconds. *)
Lemma C2_area_tolerance_counterexample :
  let dc := dive 3000 18000 9000 in
  fst (fill_samples (skeleton [] 3000) 18000 9000 3000 slope_5m d_0_33) = 1 /\
  map point (sample (fake_dc dc)) =
    [(0, 0); (216, 18000); (868, 18000); (1013, 5940); (2929, 5940);
     (3000, 0)] /\
  area2 6 (sample (fake_dc dc)) = 2 * 27007560 /\
  area_deviation dc = 2 * 7560.
Proof.
  intros dc.
  split; [vm_compute; reflexivity|].
  split; [vm_compute; reflexivity|].
  split; vm_compute; reflexivity.
Qed.

(** C2, amended: with a usable average depth and attempt 1 or attempt 2
    accepted, the area under the six samples differs from
    [avg_depth * max_time] by at most [(3 * max_depth) / 2 + max_time]
    mm*s: the breakpoints are rounded to whole seconds and the plateau
    depth to whole millimetres. *)
Theorem C2_area_law (dc : struct_divecomputer) :
  let max_t := duration_seconds dc in
  let max_d := maxdepth_mm dc in
  let avg_d := meandepth_mm dc in
  let fake := skeleton (sample dc) max_t in
  is_int max_t -> is_int max_d -> 0 < max_t -> 0 < max_d ->
  0 < avg_d -> Z.quot max_d 10 <= avg_d < max_d ->
  fst (fill_samples fake max_d avg_d max_t slope_5m d_0_33) <> 0 \/
  fst (fill_samples fake max_d avg_d max_t slope_10m d_0_10) <> 0 ->
  area_deviation dc <= 3 * max_d + 2 * max_t.
Proof.
  intros max_t max_d avg_d fake Ht Hd Ht0 Hd0 Ha0 Ha Hacc.
  assert (Ha1 : 1 <= avg_d < max_d) by lia.
  assert (Ha19 : max_d <= 19 * avg_d).
  { destruct Ha as [Hq _]. rewrite Z.quot_div_nonneg in Hq by lia.
    pose proof (Z.div_mod max_d 10 ltac:(lia)).
    pose proof (Z.mod_pos_bound max_d 10 ltac:(lia)). lia. }
  unfold area_deviation.
  rewrite (fake_dc_avg dc) by (fold max_t max_d avg_d; lia).
  fold max_t max_d avg_d.
  rewrite (sanitize_avg_d_id max_d avg_d) by lia.
  cbn [sample set_samples].
  unfold fake in Hacc. rewrite skeleton_eq in Hacc.
  change [unavailable 0; unavailable 0; unavailable 0; unavailable 0;
          unavailable 0; unavailable max_t]
    with (six_points 0 0 0 0 max_t 0 0) in Hacc.
  unfold attempts.
  rewrite fill_samples_six in Hacc |- *.
  destruct ((0 <=? t1_of max_d slope_5m) && _ && _ && _ && _) eqn:E1.
  - cbn [negb Z.eqb].
    rewrite !andb_true_iff, !Z.leb_le in E1.
    apply attempt_area; try assumption; try lia.
    + rewrite slope_5m_eq. reflexivity.
    + apply slope_5m_value.
    + apply fraction_0_33.
  - cbn [negb Z.eqb].
    rewrite fill_samples_six in Hacc |- *.
    destruct ((0 <=? t1_of max_d slope_10m) && _ && _ && _ && _) eqn:E2.
    + cbn [negb Z.eqb].
      rewrite !andb_true_iff, !Z.leb_le in E2.
      apply attempt_area; try assumption; try lia.
      * apply slope_10m_value.
      * apply slope_10m_value.
      * apply fraction_0_10.
    + exfalso. cbn [fst] in Hacc. destruct Hacc as [H | H]; apply H; reflexivity.
Qed.

(** C2 at the spec's example. *)
Lemma C2_area_law_witness :
  area_deviation (dive 3000 18000 9000) <= 3 * 18000 + 2 * 3000.
Proof.
  assert (Ht : is_int 3000) by (unfold is_int, INT_MIN, INT_MAX; lia).
  assert (Hd : is_int 18000) by (unfold is_int, INT_MIN, INT_MAX; lia).
  assert (Hq : Z.quot 18000 10 <= 9000 < 18000)
    by (split; [vm_compute; discriminate | lia]).
  apply (C2_area_law (dive 3000 18000 9000) Ht Hd ltac:(simpl; lia)
           ltac:(simpl; lia) ltac:(simpl; lia) Hq).
  left. vm_compute. discriminate.
Defined.

(** ** [fake_dc] as a whole *)

(** [fake_dc] rebuilds the count and the array from the three summary
    values alone, and writes nothing else but [last_manual_time]. *)
Lemma fake_dc_canonical (dc : struct_divecomputer) :
  let d0 := dive (duration_seconds dc) (maxdepth_mm dc) (meandepth_mm dc) in
  fake_dc dc =
    mk_dc (duration_seconds dc) (maxdepth_mm dc) (meandepth_mm dc)
      (if no_data dc then last_manual_time_seconds dc else duration_seconds dc)
      (samples (fake_dc d0)) (sample (fake_dc d0))
      (deviceid dc) (model dc) (serial dc) (fw_version dc).
Proof.
  destruct dc as [T M A L n s id mo se fw].
  cbn [duration_seconds maxdepth_mm meandepth_mm last_manual_time_seconds
       deviceid model serial fw_version].
  set (d0 := dive T M A). unfold no_data.
  cbn [duration_seconds maxdepth_mm].
  destruct (Z.eq_dec T 0) as [Ht | Ht];
    [|destruct (Z.eq_dec M 0) as [Hd | Hd]].
  - unfold fake_dc. cbn [duration_seconds maxdepth_mm meandepth_mm d0 dive].
    rewrite Ht. cbn [Z.eqb orb]. rewrite !skeleton_eq. reflexivity.
  - unfold fake_dc. cbn [duration_seconds maxdepth_mm meandepth_mm d0 dive].
    rewrite Hd. rewrite Z.eqb_refl, orb_true_r, !skeleton_eq. reflexivity.
  - assert (E : (T =? 0) || (M =? 0) = false).
    { apply Z.eqb_neq in Ht, Hd. rewrite Ht, Hd. reflexivity. }
    rewrite E.
    destruct (Z.eq_dec A 0) as [Ha | Ha].
    + rewrite (fake_dc_no_avg (mk_dc T M A L n s id mo se fw) Ht Hd Ha).
      rewrite (fake_dc_no_avg d0 Ht Hd Ha).
      cbn [duration_seconds maxdepth_mm meandepth_mm d0 dive].
      destruct (time_seconds (at_ _ 3) =? 0); reflexivity.
    + rewrite (fake_dc_avg (mk_dc T M A L n s id mo se fw) Ht Hd Ha).
      rewrite (fake_dc_avg d0 Ht Hd Ha).
      reflexivity.
Qed.

Lemma six_stamped_intro (T a1 b1 a2 b2 a3 b3 a4 b4 : Z) :
  six_stamped T
    [unavailable 0; mk_sample a1 b1 (-1) (-1); mk_sample a2 b2 (-1) (-1);
     mk_sample a3 b3 (-1) (-1); mk_sample a4 b4 (-1) (-1); unavailable T]
  = true.
Proof.
  unfold six_stamped, is_unavailable, at_, unavailable.
  cbn [List.length Nat.eqb forallb nth time_seconds depth_mm bearing_degrees
       ndl_seconds Z.eqb andb Pos.eqb Z.opp].
  rewrite Z.eqb_refl. reflexivity.
Qed.

(** The array [fake_dc] leaves without an average depth, before and after
    the collapse to four points. *)
Lemma no_avg_array_stamped (max_d max_t : Z) (slope : double) :
  let fake :=
    fill_samples_no_avg
      [unavailable 0; unavailable 0; unavailable 0; unavailable 0;
       unavailable 0; unavailable max_t] max_d max_t slope in
  six_stamped max_t fake = true /\
  six_stamped max_t (upd 3 (set_time max_t) fake) = true.
Proof.
  intros fake. subst fake.
  destruct ((max_d <? 10000) || (max_t <? 600)) eqn:E.
  - rewrite (fill_samples_no_avg_shallow _ _ _ _ E).
    set (a1 := to_int _). set (a2 := to_int _). clearbody a1 a2.
    cbn [upd set_time unavailable depth_mm bearing_degrees ndl_seconds].
    split; apply six_stamped_intro.
  - rewrite (fill_samples_no_avg_deep _ _ _ _ E).
    set (a1 := to_int _). set (a2 := to_int _).
    set (a3 := to_int _). set (a4 := to_int _). clearbody a1 a2 a3 a4.
    cbn [upd set_time unavailable depth_mm bearing_degrees ndl_seconds].
    split; apply six_stamped_intro.
Qed.

(** X1: every field but the samples and [last_manual_time] is left as it was,
    whatever the summary values are; [last_manual_time] becomes the duration
    in both branches that synthesize, and is left alone when there is no
    data. *)
Theorem fake_dc_frame (dc : struct_divecomputer) :
  duration_seconds (fake_dc dc) = duration_seconds dc /\
  maxdepth_mm (fake_dc dc) = maxdepth_mm dc /\
  meandepth_mm (fake_dc dc) = meandepth_mm dc /\
  deviceid (fake_dc dc) = deviceid dc /\
  model (fake_dc dc) = model dc /\
  serial (fake_dc dc) = serial dc /\
  fw_version (fake_dc dc) = fw_version dc /\
  last_manual_time_seconds (fake_dc dc) =
    (if no_data dc then last_manual_time_seconds dc else duration_seconds dc).
Proof.
  rewrite (fake_dc_canonical dc).
  cbn [duration_seconds maxdepth_mm meandepth_mm last_manual_time_seconds
       deviceid model serial fw_version].
  split; [reflexivity|]. split; [reflexivity|]. split; [reflexivity|].
  split; [reflexivity|]. split; [reflexivity|]. split; [reflexivity|].
  split; reflexivity.
Qed.

(** X2: running [fake_dc] on its own result changes nothing: the profile is a
    function of duration, maximum depth and mean depth, not of the samples
    (or of the [last_manual_time]) that were there before. *)
Theorem fake_dc_idempotent (dc : struct_divecomputer) :
  fake_dc (fake_dc dc) = fake_dc dc.
Proof.
  rewrite (fake_dc_canonical (fake_dc dc)).
  rewrite (fake_dc_canonical dc).
  unfold no_data.
  cbn [duration_seconds maxdepth_mm meandepth_mm last_manual_time_seconds
       deviceid model serial fw_version].
  destruct ((duration_seconds dc =? 0) || (maxdepth_mm dc =? 0));
    reflexivity.
Qed.

(** X3: the array always has the same shape: six samples, each with bearing and
    NDL set to -1, the first at time 0 and depth 0, the sixth at depth 0 and
    the time of the duration, also for summary values that make no sense. *)
Theorem fake_dc_six_stamped (dc : struct_divecomputer) :
  six_stamped (duration_seconds dc) (sample (fake_dc dc)) = true.
Proof.
  destruct (Z.eq_dec (duration_seconds dc) 0) as [Ht | Ht];
    [|destruct (Z.eq_dec (maxdepth_mm dc) 0) as [Hd | Hd]].
  - unfold fake_dc. rewrite Ht. cbn [Z.eqb orb]. rewrite skeleton_eq.
    cbn [sample set_samples]. apply six_stamped_intro.
  - unfold fake_dc. rewrite Hd, Z.eqb_refl, orb_true_r, skeleton_eq.
    cbn [sample set_samples]. apply six_stamped_intro.
  - destruct (Z.eq_dec (meandepth_mm dc) 0) as [Ha | Ha].
    + rewrite (fake_dc_no_avg dc Ht Hd Ha).
      destruct (no_avg_array_stamped (maxdepth_mm dc) (duration_seconds dc)
                  (no_avg_slope (maxdepth_mm dc) (duration_seconds dc)))
        as [H6 H4].
      destruct (time_seconds (at_ _ 3) =? 0); cbn [sample set_samples];
        assumption.
    + rewrite (fake_dc_avg dc Ht Hd Ha). cbn [sample set_samples].
      destruct (attempts_cases (maxdepth_mm dc)
                  (sanitize_avg_d (maxdepth_mm dc) (meandepth_mm dc))
                  (duration_seconds dc))
        as [E | [t1 [t2 [t3 [t4 [f [_ [_ [_ [_ E]]]]]]]]]];
        rewrite E; apply six_stamped_intro.
Qed.

(** X4: the count as a function of the summary values: 0 when the duration or
    the maximum depth is 0; 4 when there is no average depth and the dive is
    shallower than 10 m or shorter than 600 s (negative values included);
    6 in every other case, also when all three attempts of the
    average-depth branch are rejected. *)
Theorem fake_dc_count (dc : struct_divecomputer) :
  is_int (duration_seconds dc) -> is_int (maxdepth_mm dc) ->
  samples (fake_dc dc) =
    if no_data dc then 0
    else if (meandepth_mm dc =? 0)
            && ((maxdepth_mm dc <? 10000) || (duration_seconds dc <? 600))
         then 4 else 6.
Proof.
  intros It Id. unfold no_data.
  destruct (Z.eq_dec (duration_seconds dc) 0) as [Ht | Ht];
    [|destruct (Z.eq_dec (maxdepth_mm dc) 0) as [Hd | Hd]].
  - unfold fake_dc. rewrite Ht. reflexivity.
  - unfold fake_dc. rewrite Hd, Z.eqb_refl, orb_true_r. reflexivity.
  - assert (E : (duration_seconds dc =? 0) || (maxdepth_mm dc =? 0) = false).
    { apply Z.eqb_neq in Ht, Hd. rewrite Ht, Hd. reflexivity. }
    rewrite E.
    destruct (Z.eq_dec (meandepth_mm dc) 0) as [Ha | Ha].
    + rewrite Ha. cbn [Z.eqb andb].
      destruct ((maxdepth_mm dc <? 10000) || (duration_seconds dc <? 600))
        eqn:Es.
      * rewrite (fake_dc_shallow_or_short dc Ht Hd Ha); [reflexivity|].
        apply orb_true_iff in Es. destruct Es as [Es | Es];
          apply Z.ltb_lt in Es; auto.
      * apply orb_false_iff in Es. destruct Es as [E1 E2].
        apply Z.ltb_ge in E1, E2.
        destruct (fake_dc_deep_and_long dc It Id Ha E1 E2) as [Er _].
        rewrite Er. reflexivity.
    + rewrite (fake_dc_avg dc Ht Hd Ha).
      apply Z.eqb_neq in Ha. rewrite Ha. reflexivity.
Qed.

(** [fake_dc_count] on a dive of 30 minutes to 18 m with no average depth. *)
Lemma fake_dc_count_witness :
  samples (fake_dc (dive 1800 18000 0)) = 6.
Proof.
  assert (Ht : is_int 1800) by (unfold is_int, INT_MIN, INT_MAX; lia).
  assert (Hd : is_int 18000) by (unfold is_int, INT_MIN, INT_MAX; lia).
  exact (fake_dc_count (dive 1800 18000 0) Ht Hd).
Defined.

(** ** The replacement of the average depth *)

Lemma quot_bounds (x k : Z) :
  0 <= x -> 0 < k -> k * Z.quot x k <= x < k * Z.quot x k + k.
Proof.
  intros Hx Hk. rewrite Z.quot_div_nonneg by lia.
  pose proof (Z.div_mod x k ltac:(lia)).
  pose proof (Z.mod_pos_bound x k Hk). lia.
Qed.

(** The average depth the attempts are run with is usable. *)
Lemma sanitize_avg_d_usable (max_d avg_d : Z) :
  0 < max_d <= INT_MAX - 10000 ->
  1 <= sanitize_avg_d max_d avg_d /\ max_d <= 19 * sanitize_avg_d max_d avg_d.
Proof.
  unfold INT_MAX. intros Hd. unfold sanitize_avg_d.
  rewrite (to_int_id (max_d + 10000)) by (unfold is_int, INT_MIN, INT_MAX; lia).
  pose proof (quot_bounds max_d 10 ltac:(lia) ltac:(lia)) as H10.
  pose proof (quot_bounds (max_d + 10000) 3 ltac:(lia) ltac:(lia)) as H3.
  set (q10 := Z.quot max_d 10) in *.
  set (q3 := Z.quot (max_d + 10000) 3) in *.
  destruct ((avg_d <? q10) || (max_d <=? avg_d)) eqn:E.
  - destruct (max_d <? q3) eqn:E3.
    + apply Z.ltb_lt in E3.
      rewrite to_int_id by (unfold is_int, INT_MIN, INT_MAX; lia).
      pose proof (quot_bounds (max_d * 2) 3 ltac:(lia) ltac:(lia)) as H2.
      set (q2 := Z.quot (max_d * 2) 3) in *. cbv zeta.
      destruct (q2 =? 0) eqn:E0;
        [apply Z.eqb_eq in E0 | apply Z.eqb_neq in E0]; lia.
    + apply Z.ltb_ge in E3. cbv zeta.
      destruct (q3 =? 0) eqn:E0;
        [apply Z.eqb_eq in E0 | apply Z.eqb_neq in E0]; lia.
  - apply orb_false_iff in E. destruct E as [E1 E2].
    apply Z.ltb_ge in E1. apply Z.leb_gt in E2. cbv zeta.
    destruct (avg_d =? 0) eqn:E0;
      [apply Z.eqb_eq in E0 | apply Z.eqb_neq in E0]; lia.
Qed.

(** X5: whatever average depth is recorded, the one the attempts are run with
    is at least 1, at least a tenth of the maximum depth and at most the
    maximum depth; it is below the maximum depth except at a maximum depth
    of 1, 4999 or 5000 mm, where the replacement [(max_d + 10000) / 3] (or
    the clamp to 1) lands on the maximum depth itself. *)
Theorem sanitize_avg_d_range (max_d avg_d : Z) :
  0 < max_d <= INT_MAX - 10000 ->
  let a := sanitize_avg_d max_d avg_d in
  1 <= a <= max_d /\ Z.quot max_d 10 <= a /\
  (a < max_d \/ max_d = 1 \/ max_d = 4999 \/ max_d = 5000).
Proof.
  unfold INT_MAX. intros Hd. unfold sanitize_avg_d.
  rewrite (to_int_id (max_d + 10000)) by (unfold is_int, INT_MIN, INT_MAX; lia).
  pose proof (quot_bounds max_d 10 ltac:(lia) ltac:(lia)) as H10.
  pose proof (quot_bounds (max_d + 10000) 3 ltac:(lia) ltac:(lia)) as H3.
  set (q10 := Z.quot max_d 10) in *.
  set (q3 := Z.quot (max_d + 10000) 3) in *.
  destruct ((avg_d <? q10) || (max_d <=? avg_d)) eqn:E.
  - destruct (max_d <? q3) eqn:E3.
    + apply Z.ltb_lt in E3.
      rewrite to_int_id by (unfold is_int, INT_MIN, INT_MAX; lia).
      pose proof (quot_bounds (max_d * 2) 3 ltac:(lia) ltac:(lia)) as H2.
      set (q2 := Z.quot (max_d * 2) 3) in *. cbv zeta.
      destruct (q2 =? 0) eqn:E0;
        [apply Z.eqb_eq in E0 | apply Z.eqb_neq in E0]; lia.
    + apply Z.ltb_ge in E3. cbv zeta.
      destruct (q3 =? 0) eqn:E0;
        [apply Z.eqb_eq in E0 | apply Z.eqb_neq in E0]; lia.
  - apply orb_false_iff in E. destruct E as [E1 E2].
    apply Z.ltb_ge in E1. apply Z.leb_gt in E2. cbv zeta.
    destruct (avg_d =? 0) eqn:E0;
      [apply Z.eqb_eq in E0 | apply Z.eqb_neq in E0]; lia.
Qed.

(** [sanitize_avg_d_range] at 5000 mm with an average above the maximum:
    the replacement is the maximum depth itself. *)
Lemma sanitize_avg_d_range_witness :
  0 < 5000 <= INT_MAX - 10000 /\ sanitize_avg_d 5000 6000 = 5000 /\
  1 <= sanitize_avg_d 5000 6000 <= 5000.
Proof.
  assert (Hd : 0 < 5000 <= INT_MAX - 10000) by (unfold INT_MAX; lia).
  split; [exact Hd|]. split; [reflexivity|].
  exact (proj1 (sanitize_avg_d_range 5000 6000 Hd)).
Defined.

(** ** [match_id] over the whole table *)

(** One call of [match_id] with the fields of an entry. *)
Lemma match_id_canonical (dc : struct_divecomputer) (d : device) :
  match_id dc (dev_model d) (dev_deviceid d) (dev_nickname d)
    (dev_serial d) (dev_firmware d) =
  mk_dc (duration_seconds dc) (maxdepth_mm dc) (meandepth_mm dc)
    (last_manual_time_seconds dc) (samples dc) (sample dc)
    (deviceid dc) (model dc)
    (if device_matches dc d then fill_in (serial dc) (dev_serial d)
     else serial dc)
    (if device_matches dc d then fill_in (fw_version dc) (dev_firmware d)
     else fw_version dc).
Proof.
  destruct dc as [T M A L n s id mo se fw].
  destruct d as [dm did dn ds df].
  unfold match_id, device_matches.
  cbn [duration_seconds maxdepth_mm meandepth_mm last_manual_time_seconds
       samples sample deviceid model serial fw_version
       dev_model dev_deviceid dev_nickname dev_serial dev_firmware].
  destruct (id =? did); cbn [negb andb]; [|reflexivity].
  destruct (model_mismatch dm mo); cbn [negb]; [reflexivity|].
  destruct ds, se, df, fw; reflexivity.
Qed.

Lemma offered_ext (get : device -> option string)
    (dc dc' : struct_divecomputer) (table : list device) :
  deviceid dc' = deviceid dc -> model dc' = model dc ->
  offered get dc' table = offered get dc table.
Proof.
  intros H1 H2. unfold offered, device_matches. rewrite H1, H2. reflexivity.
Qed.

Lemma offered_cons (get : device -> option string) (dc : struct_divecomputer)
    (d : device) (table : list device) :
  offered get dc (d :: table) =
    if device_matches dc d && negb (is_null (get d)) then get d
    else offered get dc table.
Proof.
  unfold offered. cbn [find].
  destruct (device_matches dc d && negb (is_null (get d))); reflexivity.
Qed.

Lemma fill_in_step (get : device -> option string) (dc : struct_divecomputer)
    (d : device) (table : list device) (old : option string) :
  fill_in (if device_matches dc d then fill_in old (get d) else old)
    (offered get dc table) =
  fill_in old (offered get dc (d :: table)).
Proof.
  rewrite offered_cons.
  destruct (device_matches dc d), old, (get d); reflexivity.
Qed.

(** The callback run over the table: the first entry that matches and has
    the string wins, for each of the two strings apart. *)
Lemma call_for_each_dc_canonical (table : list device) :
  forall dc : struct_divecomputer,
    call_for_each_dc table dc match_id =
    mk_dc (duration_seconds dc) (maxdepth_mm dc) (meandepth_mm dc)
      (last_manual_time_seconds dc) (samples dc) (sample dc)
      (deviceid dc) (model dc)
      (fill_in (serial dc) (offered dev_serial dc table))
      (fill_in (fw_version dc) (offered dev_firmware dc table)).
Proof.
  unfold call_for_each_dc.
  induction table as [|d table IH]; intros dc.
  - destruct dc as [T M A L n s id mo [se|] [fw|]]; reflexivity.
  - cbn [fold_left]. rewrite IH, match_id_canonical.
    cbn [duration_seconds maxdepth_mm meandepth_mm last_manual_time_seconds
         samples sample deviceid model serial fw_version].
    match goal with
    | |- context [offered dev_serial ?x table] =>
        rewrite (offered_ext dev_serial dc x table eq_refl eq_refl),
                (offered_ext dev_firmware dc x table eq_refl eq_refl)
    end.
    rewrite !fill_in_step. reflexivity.
Qed.

(** X6: with a nonzero id, [set_dc_deviceid] stores the id, leaves the dive data
    and the model alone, and fills a missing serial number from the first
    entry of the table, in its order, that has this id, the record's model
    and a serial number; the firmware version likewise, from the first such
    entry that has a firmware version, which need not be the same entry. *)
Theorem set_dc_deviceid_first_match (table : list device)
    (dc : struct_divecomputer) (id : Z) :
  id <> 0 ->
  set_dc_deviceid table dc id =
    mk_dc (duration_seconds dc) (maxdepth_mm dc) (meandepth_mm dc)
      (last_manual_time_seconds dc) (samples dc) (sample dc)
      id (model dc)
      (fill_in (serial dc) (offered dev_serial (set_deviceid id dc) table))
      (fill_in (fw_version dc)
         (offered dev_firmware (set_deviceid id dc) table)).
Proof.
  intros H. unfold set_dc_deviceid. apply Z.eqb_neq in H. rewrite H.
  cbn [negb]. rewrite call_for_each_dc_canonical. reflexivity.
Qed.

(** [set_dc_deviceid_first_match] on a record without strings and a table
    of three entries: the first has another model, the second offers only a
    firmware version, the third both strings. *)
Lemma set_dc_deviceid_first_match_witness :
  let dc := mk_dc 0 0 0 0 0 [] 0 (Some "Vyper"%string) None None in
  let table :=
    [mk_device (Some "Zoop"%string) 7 None (Some "Z9"%string)
       (Some "0.9"%string);
     mk_device (Some "Vyper"%string) 7 None None (Some "2.0"%string);
     mk_device (Some "Vyper"%string) 7 None (Some "B2"%string)
       (Some "3.0"%string)] in
  set_dc_deviceid table dc 7 =
    mk_dc 0 0 0 0 0 [] 7 (Some "Vyper"%string) (Some "B2"%string)
      (Some "2.0"%string).
Proof.
  intros dc table.
  rewrite (set_dc_deviceid_first_match table dc 7 ltac:(lia)).
  reflexivity.
Defined.

(** X7: setting the same id a second time changes nothing. *)
Theorem set_dc_deviceid_idempotent (table : list device)
    (dc : struct_divecomputer) (id : Z) :
  set_dc_deviceid table (set_dc_deviceid table dc id) id =
  set_dc_deviceid table dc id.
Proof.
  unfold set_dc_deviceid.
  destruct (id =? 0) eqn:E; cbn [negb]; [reflexivity|].
  rewrite (call_for_each_dc_canonical table (set_deviceid id dc)).
  set (r := mk_dc _ _ _ _ _ _ _ _ _ _).
  rewrite (call_for_each_dc_canonical table (set_deviceid id r)).
  rewrite (offered_ext dev_serial (set_deviceid id dc) (set_deviceid id r)
             table eq_refl eq_refl).
  rewrite (offered_ext dev_firmware (set_deviceid id dc) (set_deviceid id r)
             table eq_refl eq_refl).
  subst r.
  cbn [duration_seconds maxdepth_mm meandepth_mm last_manual_time_seconds
       samples sample deviceid model serial fw_version set_deviceid].
  destruct (serial dc), (fw_version dc),
    (offered dev_serial _ table), (offered dev_firmware _ table);
    reflexivity.
Qed.

(** ** The area law for every accepted attempt *)

Lemma slope_insane_value :
  is_fin slope_insane = true /\ (83 <= D2R slope_insane)%R.
Proof.
  unfold slope_insane.
  destruct (of_int_exact 10000 ltac:(unfold is_int, INT_MIN, INT_MAX; lia))
    as [F [V _]].
  split; [exact F | rewrite V; lra].
Qed.

Lemma slope_5m_fin : is_fin slope_5m = true.
Proof. rewrite slope_5m_eq. reflexivity. Qed.

(** One attempt on the skeleton: rejected with the skeleton untouched, or
    accepted with the area within the rounding of the breakpoints. *)
Lemma attempt_area_or_rejected (max_d avg_d max_t : Z)
    (slope d_frac : double) :
  is_int max_d -> 0 < max_d -> is_int max_t -> 0 < max_t ->
  1 <= avg_d < max_d -> max_d <= 19 * avg_d ->
  is_fin slope = true -> (83 <= D2R slope)%R -> fraction d_frac ->
  let r :=
    fill_samples (six_points 0 0 0 0 max_t 0 0) max_d avg_d max_t
      slope d_frac in
  (fst r = 0 /\ snd r = six_points 0 0 0 0 max_t 0 0) \/
  (fst r = 1 /\
   Z.abs (area2 6 (snd r) - 2 * (avg_d * max_t)) <= 3 * max_d + 2 * max_t).
Proof.
  intros Hd Hd0 Ht Ht0 Ha Ha19 Fs Hs Hf r. subst r.
  rewrite fill_samples_six.
  destruct ((0 <=? t1_of max_d slope) && _ && _ && _ && _) eqn:E.
  - right. cbn [fst snd]. split; [reflexivity|].
    rewrite !andb_true_iff, !Z.leb_le in E.
    apply attempt_area; try assumption; lia.
  - left. split; reflexivity.
Qed.

(** X8: whichever of the three attempts is accepted, and whether the recorded
    average depth is used or replaced, the area under the six samples is the
    average depth the attempts were run with times the duration, up to the
    rounding of the breakpoints: the difference is at most
    [(3 * max_depth) / 2 + max_time] mm*s. *)
Theorem fake_dc_area_any_attempt (dc : struct_divecomputer) :
  let max_t := duration_seconds dc in
  let max_d := maxdepth_mm dc in
  let avg_d := sanitize_avg_d max_d (meandepth_mm dc) in
  is_int max_t -> 0 < max_t -> 0 < max_d <= INT_MAX - 10000 ->
  meandepth_mm dc <> 0 -> avg_d < max_d ->
  sample (fake_dc dc) <> six_points 0 0 0 0 max_t 0 0 ->
  Z.abs (area2 6 (sample (fake_dc dc)) - 2 * (avg_d * max_t))
  <= 3 * max_d + 2 * max_t.
Proof.
  intros max_t max_d avg_d Ht Ht0 Hd Ha0 Ha Hacc.
  assert (Hdi : is_int max_d)
    by (unfold is_int, INT_MIN, INT_MAX in *; lia).
  destruct (sanitize_avg_d_usable max_d (meandepth_mm dc) Hd)
    as [Ha1 Ha19]. fold avg_d in Ha1, Ha19.
  assert (Hr : 1 <= avg_d < max_d) by lia.
  revert Hacc.
  rewrite (fake_dc_avg dc) by (fold max_t max_d; lia).
  fold max_t max_d avg_d. cbn [sample set_samples]. unfold attempts.
  pose proof (attempt_area_or_rejected max_d avg_d max_t slope_5m d_0_33
                Hdi ltac:(lia) Ht Ht0 Hr Ha19 slope_5m_fin
                (proj1 slope_5m_value) fraction_0_33) as H1.
  pose proof (attempt_area_or_rejected max_d avg_d max_t slope_10m d_0_10
                Hdi ltac:(lia) Ht Ht0 Hr Ha19 (proj1 slope_10m_value)
                (proj2 slope_10m_value) fraction_0_10) as H2.
  pose proof (attempt_area_or_rejected max_d avg_d max_t slope_insane d_0_01
                Hdi ltac:(lia) Ht Ht0 Hr Ha19 (proj1 slope_insane_value)
                (proj2 slope_insane_value) fraction_0_01) as H3.
  cbv zeta in H1, H2, H3.
  destruct (fill_samples _ max_d avg_d max_t slope_5m d_0_33) as [ok1 f1].
  cbn [fst snd] in H1.
  destruct H1 as [[E1 F1] | [E1 B1]]; rewrite E1; cbn [negb Z.eqb];
    [|intros _; exact B1].
  destruct (fill_samples _ max_d avg_d max_t slope_10m d_0_10) as [ok2 f2].
  cbn [fst snd] in H2.
  destruct H2 as [[E2 F2] | [E2 B2]]; rewrite E2; cbn [negb Z.eqb];
    [|intros _; exact B2].
  destruct (fill_samples _ max_d avg_d max_t slope_insane d_0_01) as [ok3 f3].
  cbn [fst snd] in H3.
  destruct H3 as [[E3 F3] | [E3 B3]]; rewrite E3; cbn [negb Z.eqb];
    [|intros _; exact B3].
  intros Hacc. exfalso. apply Hacc. reflexivity.
Qed.

(** [fake_dc_area_any_attempt] at 40 m for 10 minutes with a recorded
    average of 50 m: the average is replaced by 16666 mm, attempts 1 and 2
    are rejected and attempt 3 is accepted. *)
Lemma fake_dc_area_any_attempt_witness :
  let dc := dive 600 40000 50000 in
  sanitize_avg_d 40000 50000 = 16666 /\
  map point (sample (fake_dc dc)) =
    [(0, 0); (4, 40000); (246, 40000); (250, 400); (600, 400); (600, 0)] /\
  Z.abs (area2 6 (sample (fake_dc dc))
         - 2 * (sanitize_avg_d 40000 50000 * 600)) <= 3 * 40000 + 2 * 600.
Proof.
  intros dc.
  split; [vm_compute; reflexivity|].
  split; [vm_compute; reflexivity|].
  assert (Ht : is_int 600) by (unfold is_int, INT_MIN, INT_MAX; lia).
  assert (Hd : 0 < 40000 <= INT_MAX - 10000) by (unfold INT_MAX; lia).
  assert (Ha : sanitize_avg_d 40000 50000 < 40000)
    by (vm_compute; reflexivity).
  assert (Hs : sample (fake_dc dc) <> six_points 0 0 0 0 600 0 0)
    by (vm_compute; discriminate).
  assert (Ht0 : 0 < 600) by lia.
  assert (Ha0 : 50000 <> 0) by lia.
  exact (fake_dc_area_any_attempt dc Ht Ht0 Hd Ha0 Ha Hs).
Defined.

(** ** The slopes of an accepted attempt *)

(** [lrint (n / slope)] against the real quotient. *)
Lemma lrint_div_near (n : Z) (slope : double) :
  is_int n -> 0 <= n -> is_fin slope = true -> (83 <= D2R slope)%R ->
  (Rabs (IZR (lrint (Ddiv (of_int n) slope)) - IZR n / D2R slope)
   <= / 2 + / 268435456)%R.
Proof.
  intros Hn Hn0 Fs Hs.
  destruct (div_by_slope n slope Hn Hn0 Fs Hs) as [Hr Hp].
  pose proof (rounded_err_le _ _ _ (/ 268435456) Hr
                ltac:(unfold bpow; simpl; lra)) as He.
  set (r := Ddiv (of_int n) slope) in *.
  set (p := (IZR n / D2R slope)%R) in *.
  pose proof (is_int_bounds n Hn) as Bn.
  assert (Hb : (Rabs (D2R r) <= bpow 62)%R).
  { rewrite (bpow_nat 62 4611686018427387904) by (lia || reflexivity).
    apply Rabs_le_inv in He. apply Rabs_le. lra. }
  pose proof (lrint_near r (proj1 Hr) Hb) as Hl.
  apply Rabs_le_inv in He, Hl. apply Rabs_le. lra.
Qed.

Lemma scale_error (X t c c' e K dl : R) :
  (Rabs (X - t * c) <= e)%R -> (- dl <= c - c' <= dl)%R ->
  (0 <= t <= K)%R -> (Rabs (X - t * c') <= e + dl * K)%R.
Proof.
  intros H Hc Ht. apply Rabs_le_inv in H.
  pose proof (prod_abs_bounds (c - c') t dl K Hc Ht) as Hp.
  apply Rabs_le. lra.
Qed.

(** X9: an accepted attempt has the slopes the comment above [fill_samples]
    asks for: the descent takes [max_d / slope] seconds; the ascent from the
    bottom to the plateau takes [1 - d_frac] of the descent time and the
    ascent from the plateau to the surface [d_frac] of it, the plateau being
    at [d_frac] of the maximum depth; each up to half a second (half a
    millimetre) of rounding and less than 1/10000 of double arithmetic. *)
Theorem fill_samples_slopes (max_d avg_d max_t : Z) (slope d_frac : double) :
  is_int max_d -> 0 < max_d -> is_int max_t -> 0 < max_t ->
  1 <= avg_d < max_d -> max_d <= 19 * avg_d ->
  is_fin slope = true -> (83 <= D2R slope)%R -> fraction d_frac ->
  let r :=
    fill_samples (six_points 0 0 0 0 max_t 0 0) max_d avg_d max_t
      slope d_frac in
  let t := fun i : nat => IZR (time_seconds (at_ (snd r) i)) in
  let f := D2R d_frac in
  fst r <> 0 ->
  (Rabs (t 1%nat - IZR max_d / D2R slope) <= / 2 + / 10000)%R /\
  (Rabs ((t 3%nat - t 2%nat) - t 1%nat * (1 - f)) <= / 2 + / 10000)%R /\
  (Rabs ((IZR max_t - t 4%nat) - t 1%nat * f) <= / 2 + / 10000)%R /\
  (Rabs (IZR (depth_mm (at_ (snd r) 3)) - IZR max_d * f)
   <= / 2 + / 10000)%R /\
  depth_mm (at_ (snd r) 4) = depth_mm (at_ (snd r) 3).
Proof.
  intros Hd Hd0 Ht Ht0 Ha Ha19 Fs Hs Hf r t f. subst r t f.
  rewrite fill_samples_six.
  destruct ((0 <=? t1_of max_d slope) && _ && _ && _ && _) eqn:E;
    cbn [fst snd]; [intros _ | intros H; exfalso; apply H; reflexivity].
  rewrite !andb_true_iff, !Z.leb_le in E.
  destruct E as [[[[H01 H12] H23] H34] H4t].
  destruct (attempt_errors max_d avg_d max_t slope d_frac Hd Hd0 Ht Ht0 Ha
              Ha19 Fs Hs Hf (conj H01 H12) (conj H23 H34) H4t)
    as [Eh [_ Eb]].
  destruct (one_minus_frac d_frac Hf) as [_ [_ [Vc _]]].
  destruct (plateau_bound max_d d_frac Hd Hd0 Hf) as [_ Vd].
  pose proof (t1_bound max_d slope Hd Hd0 Fs Hs) as B1.
  pose proof (lrint_div_near max_d slope Hd ltac:(lia) Fs Hs) as V1.
  assert (E1 : lrint (Ddiv (of_int max_d) slope) = t1_of max_d slope).
  { symmetry. apply to_int_id.
    pose proof (lrint_div_by_slope max_d slope (2 ^ 25) Hd ltac:(lia) Fs Hs
                  ltac:(unfold is_int, INT_MAX in Hd; lia) ltac:(lia)).
    unfold is_int, INT_MIN, INT_MAX. lia. }
  rewrite E1 in V1.
  unfold six_points, at_. cbn [nth time_seconds depth_mm].
  set (t1 := t1_of max_d slope) in *.
  set (t4 := t4_of max_t t1 d_frac) in *.
  set (t3 := t3_of _ t1 t4 d_frac) in *.
  set (t2 := t2_of t1 t3 d_frac) in *.
  set (d := plateau_of max_d d_frac) in *.
  set (c := D2R (Dsub (of_int 1) d_frac)) in *.
  set (fr := D2R d_frac) in *.
  clearbody t1 t4 t3 t2 d c fr.
  assert (R1 : (0 <= IZR t1 <= 33554432)%R)
    by (split; apply IZR_le; lia).
  apply Rabs_le_inv in Vc.
  rewrite !minus_IZR in Eh, Eb.
  pose proof (scale_error (IZR t3 - IZR t2) (IZR t1) c (1 - fr)
                (/ 2 + / 65536) 33554432 (/ 9007199254740992) Eb
                ltac:(lra) R1) as Hb.
  pose proof (scale_error (IZR max_t - IZR t4) (IZR t1) (1 - c) fr
                (/ 2 + / 32768) 33554432 (/ 9007199254740992) Eh
                ltac:(lra) R1) as Hh.
  apply Rabs_le_inv in V1, Hb, Hh, Vd.
  split; [apply Rabs_le; lra|]. split; [apply Rabs_le; lra|].
  split; [apply Rabs_le; lra|]. split; [apply Rabs_le; lra | reflexivity].
Qed.

(** [fill_samples_slopes] at the first attempt on 18 m for 50 minutes with
    an average of 9 m. *)
Lemma fill_samples_slopes_witness :
  let r :=
    fill_samples (six_points 0 0 0 0 3000 0 0) 18000 9000 3000
      slope_5m d_0_33 in
  map point (snd r) =
    [(0, 0); (216, 18000); (868, 18000); (1013, 5940); (2929, 5940);
     (3000, 0)] /\
  (Rabs (IZR (time_seconds (at_ (snd r) 1)) - IZR 18000 / D2R slope_5m)
   <= / 2 + / 10000)%R.
Proof.
  intros r.
  split; [vm_compute; reflexivity|].
  assert (Hd : is_int 18000) by (unfold is_int, INT_MIN, INT_MAX; lia).
  assert (Ht : is_int 3000) by (unfold is_int, INT_MIN, INT_MAX; lia).
  assert (Hd0 : 0 < 18000) by lia.
  assert (Ht0 : 0 < 3000) by lia.
  assert (Ha : 1 <= 9000 < 18000) by lia.
  assert (Ha19 : 18000 <= 19 * 9000) by lia.
  assert (Hacc : fst r <> 0) by (vm_compute; discriminate).
  exact (proj1 (fill_samples_slopes 18000 9000 3000 slope_5m d_0_33
                  Hd Hd0 Ht Ht0 Ha Ha19 slope_5m_fin (proj1 slope_5m_value)
                  fraction_0_33 Hacc)).
Defined.

(** ** The branch without an average depth, by the summary values *)

(** Every positive real below a power of two lies in a binade. *)
Lemma binade (n : nat) :
  forall (lo : Z) (p : R),
    (bpow lo <= p < bpow (lo + Z.of_nat n))%R ->
    exists K : Z,
      lo <= K < lo + Z.of_nat n /\ (bpow K <= p < bpow (K + 1))%R.
Proof.
  induction n as [|n IH]; intros lo p [H1 H2].
  - exfalso. change (Z.of_nat 0) with 0 in H2. rewrite Z.add_0_r in H2. lra.
  - destruct (Rlt_or_le p (bpow (lo + Z.of_nat n))) as [H | H].
    + destruct (IH lo p (conj H1 H)) as [K [HK HB]].
      exists K. split; [lia | exact HB].
    + exists (lo + Z.of_nat n). split; [lia|]. split; [exact H|].
      replace (lo + Z.of_nat n + 1) with (lo + Z.of_nat (S n)) by lia.
      exact H2.
Qed.

(** [2.0 * max_d / max_t] has the relative error of one rounding. *)
Lemma no_avg_quotient (max_d max_t : Z) :
  is_int max_d -> is_int max_t -> 0 < max_d -> 0 < max_t ->
  let a := Ddiv (Dmul (of_int 2) (of_int max_d)) (of_int max_t) in
  let p := (2 * IZR max_d / IZR max_t)%R in
  is_fin a = true /\
  (Rabs (D2R a - p) <= p * / 4503599627370496)%R.
Proof.
  intros Hd Ht Hd0 Ht0 a p. subst a.
  destruct (of_int_exact 2 ltac:(unfold is_int, INT_MIN, INT_MAX; lia))
    as [F2 [V2 E2]].
  destruct (of_int_exact max_d Hd) as [Fd [Vd Ed]].
  destruct (of_int_exact max_t Ht) as [Ft [Vt Et]].
  pose proof (is_int_bounds max_d Hd) as Bd.
  pose proof (is_int_bounds max_t Ht) as Bt.
  assert (Hd1 : (1 <= IZR max_d)%R) by (apply IZR_le; lia).
  assert (Ht1 : (1 <= IZR max_t)%R) by (apply IZR_le; lia).
  destruct (Dmul_rounded (of_int 2) (of_int max_d) (- 20) (- 20) (- 20)
              F2 Fd E2 Ed ltac:(lia) ltac:(unfold emin64; lia)) as [R1 _].
  { rewrite V2, Vd. eval_bpow.
    rewrite (bpow_nat 33 8589934592) by (lia || reflexivity).
    apply Rabs_def1; lra. }
  rewrite V2, Vd in R1.
  pose proof (rounded_exact _ _ _ (2 * max_d) 0 R1 ltac:(lia)
                ltac:(rewrite mult_IZR, bpow_0; ring)) as V1.
  set (a1 := Dmul (of_int 2) (of_int max_d)) in *.
  destruct (finite_of_nonzero (of_int max_t) Ft) as [sy [my [ey Ey]]].
  { rewrite Vt. lra. }
  assert (Hpt : (p * IZR max_t = 2 * IZR max_d)%R)
    by (unfold p; field; lra).
  assert (Hp0 : (0 < p)%R).
  { unfold p, Rdiv. apply Rmult_lt_0_compat; [lra|].
    apply Rinv_0_lt_compat. lra. }
  assert (Hlo : (bpow (- 30) <= p)%R).
  { change (-30) with (Z.opp 30).
    rewrite bpow_opp, (bpow_nat 30 1073741824) by (lia || reflexivity).
    destruct (Rle_or_lt (/ 1073741824) p) as [H | H]; [exact H | exfalso].
    assert (p * IZR max_t <= / 1073741824 * IZR max_t)%R
      by (apply Rmult_le_compat_r; lra).
    lra. }
  assert (Hhi : (p < bpow (- 30 + Z.of_nat 62))%R).
  { change (- 30 + Z.of_nat 62) with 32.
    rewrite (bpow_nat 32 4294967296) by (lia || reflexivity).
    destruct (Rlt_or_le p 4294967296) as [H | H]; [exact H | exfalso].
    assert (4294967296 * 1 <= p * IZR max_t)%R
      by (apply Rmult_le_compat; lra).
    lra. }
  destruct (binade 62 (- 30) p (conj Hlo Hhi)) as [K [HK [HK1 HK2]]].
  destruct (Ddiv_rounded a1 sy my ey (K - 51) (proj1 R1)
              ltac:(unfold emin64; lia)) as [R2 _].
  { rewrite <- Ey, Vt, V1. fold p.
    replace (K - 51 + 52) with (K + 1) by lia.
    rewrite Rabs_pos_eq by lra. exact HK2. }
  rewrite <- Ey, Vt, V1 in R2. fold p in R2.
  split; [apply R2|].
  apply Rle_trans with (bpow (K - 51 - 1)); [apply rounded_error; exact R2|].
  replace (K - 51 - 1) with (K + - (52)) by lia.
  rewrite bpow_add, bpow_opp, (bpow_nat 52 4503599627370496)
    by (lia || reflexivity).
  apply Rmult_le_compat_r; [lra | exact HK1].
Qed.

Lemma no_avg_slope_cases (max_d max_t : Z) :
  is_int max_d -> is_int max_t -> 0 < max_d -> 0 < max_t ->
  let s := D2R (no_avg_slope max_d max_t) in
  let p := (2 * IZR max_d / IZR max_t)%R in
  (p * (1 - / 4503599627370496) <= s)%R /\
  (s <= 84 \/ s <= p * (1 + / 4503599627370496))%R.
Proof.
  intros Hd Ht Hd0 Ht0 s p. subst s.
  destruct (no_avg_quotient max_d max_t Hd Ht Hd0 Ht0) as [Fa Va].
  fold p in Va. unfold no_avg_slope.
  set (a := Ddiv (Dmul (of_int 2) (of_int max_d)) (of_int max_t)) in *.
  clearbody a. apply Rabs_le_inv in Va.
  destruct (MAX_spec a slope_5m Fa slope_5m_fin) as [_ [Ha _]].
  split; [lra|].
  unfold MAX in *. destruct (Dgt a slope_5m).
  - right. lra.
  - left. apply slope_5m_value.
Qed.

Lemma quot_upper (M T s : R) :
  (0 < M)%R -> (1 <= T <= 2147483648)%R ->
  (2 * M / T * (1 - / 4503599627370496) <= s)%R ->
  (M / s <= T / 2 + / 1048576)%R.
Proof.
  intros HM HT Hs.
  assert (Hu : (0 < 2 * M / T)%R).
  { unfold Rdiv. apply Rmult_lt_0_compat; [lra|].
    apply Rinv_0_lt_compat. lra. }
  set (u := (2 * M / T)%R) in *.
  assert (Hv : (0 < u * (1 - / 4503599627370496))%R)
    by (apply Rmult_lt_0_compat; lra).
  assert (H1 : (M / s <= M / (u * (1 - / 4503599627370496)))%R).
  { unfold Rdiv. apply Rmult_le_compat_l; [lra|].
    apply Rinv_le_contravar; assumption. }
  assert (H2 : (M / (u * (1 - / 4503599627370496))
                = T / 2 * / (1 - / 4503599627370496))%R)
    by (unfold u; field; lra).
  assert (H3 : (/ (1 - / 4503599627370496)
                <= 1 + 2 * / 4503599627370496)%R).
  { apply Rmult_le_reg_l with (1 - / 4503599627370496)%R; [lra|].
    rewrite Rinv_r by lra. lra. }
  assert (H4 : (T / 2 * / (1 - / 4503599627370496)
                <= T / 2 * (1 + 2 * / 4503599627370496))%R)
    by (apply Rmult_le_compat_l; lra).
  lra.
Qed.

Lemma quot_lower (M T s : R) :
  (0 < M)%R -> (1 <= T <= 2147483648)%R -> (0 < s)%R ->
  (s <= 2 * M / T * (1 + / 4503599627370496))%R ->
  (T / 2 - / 1048576 <= M / s)%R.
Proof.
  intros HM HT Hs0 Hs.
  assert (Hu : (0 < 2 * M / T)%R).
  { unfold Rdiv. apply Rmult_lt_0_compat; [lra|].
    apply Rinv_0_lt_compat. lra. }
  set (u := (2 * M / T)%R) in *.
  assert (H1 : (M / (u * (1 + / 4503599627370496)) <= M / s)%R).
  { unfold Rdiv. apply Rmult_le_compat_l; [lra|].
    apply Rinv_le_contravar; assumption. }
  assert (H2 : (M / (u * (1 + / 4503599627370496))
                = T / 2 * / (1 + / 4503599627370496))%R)
    by (unfold u; field; lra).
  assert (H3 : (1 - / 4503599627370496
                <= / (1 + / 4503599627370496))%R).
  { apply Rmult_le_reg_l with (1 + / 4503599627370496)%R; [lra|].
    rewrite Rinv_r by lra. lra. }
  assert (H4 : (T / 2 * (1 - / 4503599627370496)
                <= T / 2 * / (1 + / 4503599627370496))%R)
    by (apply Rmult_le_compat_l; lra).
  lra.
Qed.

(** The descent time of the branch without an average depth, from above:
    at most half the duration and at most [max_d / 83] seconds, both rounded
    up to whole seconds. *)
Lemma no_avg_t1_upper (max_d max_t j : Z) :
  is_int max_d -> is_int max_t -> 0 < max_d -> 0 < max_t ->
  max_d <= 83 * j \/ max_t <= 2 * j ->
  lrint (Ddiv (of_int max_d) (no_avg_slope max_d max_t)) <= j.
Proof.
  intros Hd Ht Hd0 Ht0 Hj.
  destruct (no_avg_slope_value max_d max_t Hd Ht ltac:(lia)) as [Fs Hs].
  pose proof (no_avg_t1_bound max_d max_t Hd Ht Hd0 ltac:(lia)) as Hb.
  destruct Hj as [Hj | Hj].
  - destruct (Z_le_gt_dec j (2 ^ 31)) as [Hj1 | Hj1]; [|lia].
    apply (lrint_div_by_slope max_d _ j Hd ltac:(lia) Fs Hs Hj Hj1).
  - pose proof (lrint_div_near max_d _ Hd ltac:(lia) Fs Hs) as Hn.
    destruct (no_avg_slope_cases max_d max_t Hd Ht Hd0 Ht0) as [Hlo _].
    pose proof (is_int_bounds max_t Ht) as Bt.
    assert (Hd1 : (0 < IZR max_d)%R) by (apply IZR_lt; lia).
    assert (Ht1 : (1 <= IZR max_t)%R) by (apply IZR_le; lia).
    pose proof (quot_upper (IZR max_d) (IZR max_t) _ Hd1 ltac:(lra) Hlo)
      as Hq.
    apply IZR_le in Hj. rewrite mult_IZR in Hj.
    apply Rabs_le_inv in Hn.
    apply Z.lt_succ_r. apply lt_IZR. rewrite succ_IZR. lra.
Qed.

(** The same from below: at least [max_d / 84] seconds or half the
    duration, whichever is less, rounded down to whole seconds. *)
Lemma no_avg_t1_lower (max_d max_t j : Z) :
  is_int max_d -> is_int max_t -> 0 < max_d -> 0 < max_t ->
  84 * j <= max_d -> 2 * j <= max_t ->
  j <= lrint (Ddiv (of_int max_d) (no_avg_slope max_d max_t)).
Proof.
  intros Hd Ht Hd0 Ht0 Hj1 Hj2.
  destruct (no_avg_slope_value max_d max_t Hd Ht ltac:(lia)) as [Fs Hs].
  pose proof (lrint_div_near max_d _ Hd ltac:(lia) Fs Hs) as Hn.
  destruct (no_avg_slope_cases max_d max_t Hd Ht Hd0 Ht0) as [_ Hup].
  pose proof (is_int_bounds max_t Ht) as Bt.
  assert (Hd1 : (0 < IZR max_d)%R) by (apply IZR_lt; lia).
  assert (Ht1 : (1 <= IZR max_t)%R) by (apply IZR_le; lia).
  apply IZR_le in Hj1, Hj2. rewrite mult_IZR in Hj1, Hj2.
  apply Rabs_le_inv in Hn.
  set (s := D2R (no_avg_slope max_d max_t)) in *.
  assert (Hq : (IZR j - / 1048576 <= IZR max_d / s)%R).
  { destruct Hup as [Hup | Hup].
    - assert (/ 84 <= / s)%R by (apply Rinv_le_contravar; lra).
      assert (IZR max_d * / 84 <= IZR max_d * / s)%R
        by (apply Rmult_le_compat_l; lra).
      unfold Rdiv. lra.
    - pose proof (quot_lower (IZR max_d) (IZR max_t) s Hd1 ltac:(lra)
                    ltac:(lra) Hup).
      lra. }
  apply Z.lt_succ_r. apply lt_IZR. rewrite succ_IZR. lra.
Qed.

(** X10: without an average depth, a dive shallower than 10 m or shorter than
    600 s gets a symmetric trapezoid of four points: down to the maximum
    depth in [t1] seconds, up again in the last [t1] seconds.  The descent
    takes at most half the duration rounded up, so the two bottom points are
    in order whenever the duration is even, and at most one second out of
    order otherwise. *)
Theorem fake_dc_trapezoid (dc : struct_divecomputer) :
  let max_t := duration_seconds dc in
  let max_d := maxdepth_mm dc in
  let r := fake_dc dc in
  let t1 := time_seconds (at_ (sample r) 1) in
  is_int max_t -> is_int max_d -> 0 < max_t -> 0 < max_d ->
  meandepth_mm dc = 0 -> max_d < 10000 \/ max_t < 600 ->
  samples r = 4 /\
  map point (firstn 4 (sample r)) =
    [(0, 0); (t1, max_d); (max_t - t1, max_d); (max_t, 0)] /\
  0 <= t1 /\ 2 * t1 <= max_t + 1 /\
  valid_profile max_t max_d 4 (sample r) = (2 * t1 <=? max_t).
Proof.
  intros max_t max_d r t1 Ht Hd Ht0 Hd0 Ha Hs. subst r t1.
  rewrite (fake_dc_shallow_or_short dc)
    by (fold max_t max_d; lia || assumption).
  fold max_t max_d.
  pose proof (no_avg_t1_bound max_d max_t Hd Ht Hd0 ltac:(lia)) as Hb.
  assert (Hu : 2 * lrint (Ddiv (of_int max_d) (no_avg_slope max_d max_t))
               <= max_t + 1).
  { pose proof (no_avg_t1_upper max_d max_t ((max_t + 1) / 2) Hd Ht Hd0 Ht0)
      as H.
    pose proof (Z.div_mod (max_t + 1) 2 ltac:(lia)).
    pose proof (Z.mod_pos_bound (max_t + 1) 2 ltac:(lia)).
    specialize (H ltac:(right; lia)). lia. }
  set (l := lrint _) in *. clearbody l.
  unfold is_int, INT_MIN, INT_MAX in Ht, Hd.
  rewrite !to_int_id by (unfold is_int, INT_MIN, INT_MAX; lia).
  cbn [samples sample set_samples].
  unfold valid_profile, at_, unavailable, point.
  cbn [firstn map nth time_seconds depth_mm time_sorted depth_bounded
       fst snd Nat.sub].
  split; [reflexivity|]. split; [reflexivity|].
  split; [lia|]. split; [lia|].
  rewrite !Z.eqb_refl.
  replace (0 <=? l) with true by (symmetry; apply Z.leb_le; lia).
  replace (max_t - l <=? max_t) with true by (symmetry; apply Z.leb_le; lia).
  replace (max_d <=? max_d) with true by (symmetry; apply Z.leb_le; lia).
  replace (0 <=? max_d) with true by (symmetry; apply Z.leb_le; lia).
  cbn [Z.eqb andb].
  rewrite !andb_true_r.
  destruct (Z.leb_spec (2 * l) max_t), (Z.leb_spec l (max_t - l));
    reflexivity || lia.
Qed.

(** [fake_dc_trapezoid] at 8 m for 500 s, and at 3 m for 3 s, where the
    descent of 2 s ends after the ascent has begun. *)
Lemma fake_dc_trapezoid_witness :
  map point (firstn 4 (sample (fake_dc (dive 500 8000 0)))) =
    [(0, 0); (96, 8000); (404, 8000); (500, 0)] /\
  valid_profile 500 8000 4 (sample (fake_dc (dive 500 8000 0))) = true /\
  map point (firstn 4 (sample (fake_dc (dive 3 3000 0)))) =
    [(0, 0); (2, 3000); (1, 3000); (3, 0)].
Proof.
  assert (I500 : is_int 500) by (unfold is_int, INT_MIN, INT_MAX; lia).
  assert (I8000 : is_int 8000) by (unfold is_int, INT_MIN, INT_MAX; lia).
  assert (I3 : is_int 3) by (unfold is_int, INT_MIN, INT_MAX; lia).
  assert (I3000 : is_int 3000) by (unfold is_int, INT_MIN, INT_MAX; lia).
  assert (P500 : 0 < 500) by lia. assert (P8000 : 0 < 8000) by lia.
  assert (P3 : 0 < 3) by lia. assert (P3000 : 0 < 3000) by lia.
  assert (S1 : 8000 < 10000 \/ 500 < 600) by (left; lia).
  assert (S2 : 3000 < 10000 \/ 3 < 600) by (left; lia).
  destruct (fake_dc_trapezoid (dive 500 8000 0) I500 I8000 P500 P8000
              eq_refl S1) as [_ [E1 [_ [_ V1]]]].
  destruct (fake_dc_trapezoid (dive 3 3000 0) I3 I3000 P3 P3000
              eq_refl S2) as [_ [E2 _]].
  cbn [duration_seconds maxdepth_mm dive] in V1.
  split; [rewrite E1; vm_compute; reflexivity|].
  split; [rewrite V1; vm_compute; reflexivity|].
  rewrite E2. vm_compute. reflexivity.
Defined.

(** X11: without an average depth, a dive of at least 10 m and 600 s whose
    maximum depth is at most 41.5 mm per second of the duration beyond
    181 s ([2 * max_d <= 83 * (max_t - 181)]) gets a profile of six points
    that satisfies all the invariants: times in order, from (0, 0) to
    [(max_t, 0)], no depth above the maximum depth. *)
Theorem fake_dc_deep_in_order (dc : struct_divecomputer) :
  let max_t := duration_seconds dc in
  let max_d := maxdepth_mm dc in
  is_int max_t -> is_int max_d -> meandepth_mm dc = 0 ->
  10000 <= max_d -> 600 <= max_t ->
  2 * max_d <= 83 * (max_t - 181) ->
  samples (fake_dc dc) = 6 /\
  valid_profile max_t max_d 6 (sample (fake_dc dc)) = true.
Proof.
  intros max_t max_d Ht Hd Ha Hd1 Ht1 Hs.
  destruct (fake_dc_deep_and_long dc Ht Hd Ha Hd1 Ht1) as [E [H1 H5]].
  fold max_t max_d in E, H1, H5. rewrite E.
  pose proof (no_avg_t1_upper max_d max_t ((max_t - 180) / 2) Hd Ht
                ltac:(lia) ltac:(lia)) as Hu.
  pose proof (no_avg_t1_lower max_d max_t 61 Hd Ht ltac:(lia) ltac:(lia)
                ltac:(lia) ltac:(lia)) as Hl.
  pose proof (Z.div_mod (max_t - 180) 2 ltac:(lia)) as Hdm.
  pose proof (Z.mod_pos_bound (max_t - 180) 2 ltac:(lia)) as Hm.
  specialize (Hu ltac:(left; lia)).
  set (t1 := lrint (Ddiv (of_int max_d) _)) in *.
  set (t5 := lrint (Ddiv (of_int 5000) _)) in *.
  clearbody t1 t5.
  cbn [samples sample set_samples]. split; [reflexivity|].
  unfold valid_profile, at_, unavailable, point.
  cbn [nth time_seconds depth_mm time_sorted depth_bounded fst snd Nat.sub].
  rewrite !Z.eqb_refl.
  rewrite !andb_true_iff, !Z.leb_le. lia.
Qed.

(** [fake_dc_deep_in_order] at 30 m for 30 minutes. *)
Lemma fake_dc_deep_in_order_witness :
  valid_profile 1800 30000 6 (sample (fake_dc (dive 1800 30000 0))) = true.
Proof.
  assert (Ht : is_int 1800) by (unfold is_int, INT_MIN, INT_MAX; lia).
  assert (Hd : is_int 30000) by (unfold is_int, INT_MIN, INT_MAX; lia).
  assert (H1 : 10000 <= 30000) by lia.
  assert (H2 : 600 <= 1800) by lia.
  assert (H3 : 2 * 30000 <= 83 * (1800 - 181)) by lia.
  exact (proj2 (fake_dc_deep_in_order (dive 1800 30000 0) Ht Hd eq_refl
                  H1 H2 H3)).
Defined.

(** X12: the other way round: without an average depth, a dive of at least 10 m
    and 600 s whose maximum depth is at least 42 mm per second of the
    duration beyond 178 s ([84 * (max_t - 178) <= 2 * max_d]) gets six
    points of which the third, the end of the bottom time, lies before the
    second, the end of the descent: the times are not in order. *)
Theorem fake_dc_deep_out_of_order (dc : struct_divecomputer) :
  let max_t := duration_seconds dc in
  let max_d := maxdepth_mm dc in
  is_int max_t -> is_int max_d -> meandepth_mm dc = 0 ->
  10000 <= max_d -> 600 <= max_t ->
  84 * (max_t - 178) <= 2 * max_d ->
  samples (fake_dc dc) = 6 /\
  time_seconds (at_ (sample (fake_dc dc)) 2)
  < time_seconds (at_ (sample (fake_dc dc)) 1) /\
  time_sorted 6 (sample (fake_dc dc)) = false.
Proof.
  intros max_t max_d Ht Hd Ha Hd1 Ht1 Hs.
  destruct (fake_dc_deep_and_long dc Ht Hd Ha Hd1 Ht1) as [E [H1 H5]].
  fold max_t max_d in E, H1, H5. rewrite E.
  pose proof (Z.div_mod (max_t - 178) 2 ltac:(lia)) as Hdm.
  pose proof (Z.mod_pos_bound (max_t - 178) 2 ltac:(lia)) as Hm.
  pose proof (no_avg_t1_lower max_d max_t ((max_t - 178) / 2) Hd Ht
                ltac:(lia) ltac:(lia) ltac:(lia) ltac:(lia)) as Hl.
  set (t1 := lrint (Ddiv (of_int max_d) _)) in *.
  set (t5 := lrint (Ddiv (of_int 5000) _)) in *.
  clearbody t1 t5.
  cbn [samples sample set_samples]. split; [reflexivity|].
  unfold at_, unavailable.
  cbn [nth time_seconds time_sorted].
  split; [lia|].
  replace (t1 <=? max_t - t1 - 180) with false
    by (symmetry; apply Z.leb_gt; lia).
  rewrite andb_false_r. reflexivity.
Qed.

(** [fake_dc_deep_out_of_order] at 100 m for 10 minutes. *)
Lemma fake_dc_deep_out_of_order_witness :
  map time_seconds (sample (fake_dc (dive 600 100000 0))) =
    [0; 300; 120; 405; 585; 600] /\
  time_sorted 6 (sample (fake_dc (dive 600 100000 0))) = false.
Proof.
  assert (Ht : is_int 600) by (unfold is_int, INT_MIN, INT_MAX; lia).
  assert (Hd : is_int 100000) by (unfold is_int, INT_MIN, INT_MAX; lia).
  assert (H1 : 10000 <= 100000) by lia.
  assert (H2 : 600 <= 600) by lia.
  assert (H3 : 84 * (600 - 178) <= 2 * 100000) by lia.
  split; [vm_compute; reflexivity|].
  exact (proj2 (proj2 (fake_dc_deep_out_of_order (dive 600 100000 0) Ht Hd
                         eq_refl H1 H2 H3))).
Defined.

(** X13: what [MAX (2.0 * max_d / max_t, 5000.0 / 60)] means for the descent of
    the branch without an average depth, shallow or deep: it ends at the
    maximum depth after [t1] seconds, where [t1] is at most half the
    duration and at most [max_d / 83] (both rounded up), and at least the
    smaller of [max_d / 84] and half the duration (rounded down): 5 m per
    minute where the dive is long enough for it, half the dive where not. *)
Theorem fake_dc_no_avg_descent (dc : struct_divecomputer) :
  let max_t := duration_seconds dc in
  let max_d := maxdepth_mm dc in
  let p1 := at_ (sample (fake_dc dc)) 1 in
  is_int max_t -> is_int max_d -> 0 < max_t -> 0 < max_d ->
  meandepth_mm dc = 0 ->
  depth_mm p1 = max_d /\
  2 * time_seconds p1 <= max_t + 1 /\
  83 * time_seconds p1 < max_d + 83 /\
  Z.min (max_d / 84) (max_t / 2) <= time_seconds p1.
Proof.
  intros max_t max_d p1 Ht Hd Ht0 Hd0 Ha. subst p1.
  pose proof (no_avg_t1_bound max_d max_t Hd Ht Hd0 ltac:(lia)) as Hb.
  pose proof (no_avg_t1_upper max_d max_t ((max_t + 1) / 2) Hd Ht Hd0 Ht0)
    as Hu1.
  pose proof (no_avg_t1_upper max_d max_t ((max_d + 82) / 83) Hd Ht Hd0 Ht0)
    as Hu2.
  pose proof (no_avg_t1_lower max_d max_t (Z.min (max_d / 84) (max_t / 2))
                Hd Ht Hd0 Ht0) as Hl.
  pose proof (Z.div_mod (max_t + 1) 2 ltac:(lia)).
  pose proof (Z.mod_pos_bound (max_t + 1) 2 ltac:(lia)).
  pose proof (Z.div_mod (max_d + 82) 83 ltac:(lia)).
  pose proof (Z.mod_pos_bound (max_d + 82) 83 ltac:(lia)).
  pose proof (Z.div_mod max_d 84 ltac:(lia)).
  pose proof (Z.mod_pos_bound max_d 84 ltac:(lia)).
  pose proof (Z.div_mod max_t 2 ltac:(lia)).
  pose proof (Z.mod_pos_bound max_t 2 ltac:(lia)).
  specialize (Hu1 ltac:(right; lia)).
  specialize (Hu2 ltac:(left; lia)).
  specialize (Hl ltac:(lia) ltac:(lia)).
  assert (E : at_ (sample (fake_dc dc)) 1 =
              mk_sample (lrint (Ddiv (of_int max_d)
                                  (no_avg_slope max_d max_t)))
                max_d (-1) (-1)).
  { destruct (Z_lt_le_dec max_d 10000) as [D1 | D1];
      [|destruct (Z_lt_le_dec max_t 600) as [D2 | D2]].
    - rewrite (fake_dc_shallow_or_short dc)
        by (fold max_t max_d; lia || assumption).
      fold max_t max_d.
      rewrite (to_int_id (lrint _))
        by (unfold is_int, INT_MIN, INT_MAX; lia).
      reflexivity.
    - rewrite (fake_dc_shallow_or_short dc)
        by (fold max_t max_d; lia || assumption).
      fold max_t max_d.
      rewrite (to_int_id (lrint _))
        by (unfold is_int, INT_MIN, INT_MAX; lia).
      reflexivity.
    - destruct (fake_dc_deep_and_long dc Ht Hd Ha D1 D2) as [Er _].
      rewrite Er. reflexivity. }
  rewrite E. cbn [time_seconds depth_mm].
  set (t1 := lrint _) in *. clearbody t1.
  split; [reflexivity|]. lia.
Qed.

(** [fake_dc_no_avg_descent] at 30 m for 30 minutes (360 s at 5 m per
    minute) and at 100 m for 10 minutes (half the dive). *)
Lemma fake_dc_no_avg_descent_witness :
  time_seconds (at_ (sample (fake_dc (dive 1800 30000 0))) 1) = 360 /\
  83 * time_seconds (at_ (sample (fake_dc (dive 1800 30000 0))) 1)
  < 30000 + 83 /\
  time_seconds (at_ (sample (fake_dc (dive 600 100000 0))) 1) = 300 /\
  Z.min (100000 / 84) (600 / 2)
  <= time_seconds (at_ (sample (fake_dc (dive 600 100000 0))) 1).
Proof.
  assert (I1 : is_int 1800) by (unfold is_int, INT_MIN, INT_MAX; lia).
  assert (I2 : is_int 30000) by (unfold is_int, INT_MIN, INT_MAX; lia).
  assert (I3 : is_int 600) by (unfold is_int, INT_MIN, INT_MAX; lia).
  assert (I4 : is_int 100000) by (unfold is_int, INT_MIN, INT_MAX; lia).
  assert (P1 : 0 < 1800) by lia. assert (P2 : 0 < 30000) by lia.
  assert (P3 : 0 < 600) by lia. assert (P4 : 0 < 100000) by lia.
  destruct (fake_dc_no_avg_descent (dive 1800 30000 0) I1 I2 P1 P2 eq_refl)
    as [_ [_ [A _]]].
  destruct (fake_dc_no_avg_descent (dive 600 100000 0) I3 I4 P3 P4 eq_refl)
    as [_ [_ [_ B]]].
  split; [vm_compute; reflexivity|]. split; [exact A|].
  split; [vm_compute; reflexivity | exact B].
Defined.

(** ** The deep-and-long case against the real slope *)

(** The double [5000.0 / 60] against the real 5000/60. *)
Lemma slope_5m_real :
  (Rabs (D2R slope_5m - 5000 / 60) <= 5000 / 60 * / 4503599627370496)%R.
Proof.
  rewrite slope_5m_eq, D2R_finite. unfold sgn.
  change (bpow (-46)) with (bpow (Z.opp 46)).
  rewrite bpow_opp, bpow_IZR by lia.
  change (2 ^ 46) with 70368744177664.
  apply Rabs_le. cbn [cond_Zopp]. lra.
Qed.

(** The double slope of the branch without an average depth is the real
    [max (2 * max_d / max_t) (5000 / 60)] up to one rounding. *)
Lemma no_avg_slope_real (max_d max_t : Z) :
  is_int max_d -> is_int max_t -> 0 < max_d -> 0 < max_t ->
  let s := D2R (no_avg_slope max_d max_t) in
  let S := Rmax (2 * IZR max_d / IZR max_t) (5000 / 60) in
  (S * (1 - / 4503599627370496) <= s <= S * (1 + / 4503599627370496))%R.
Proof.
  intros Hd Ht Hd0 Ht0 s S. subst s S.
  destruct (no_avg_quotient max_d max_t Hd Ht Hd0 Ht0) as [Fa Va].
  pose proof slope_5m_real as Vb.
  unfold no_avg_slope.
  set (a := Ddiv (Dmul (of_int 2) (of_int max_d)) (of_int max_t)) in *.
  set (p := (2 * IZR max_d / IZR max_t)%R) in *.
  clearbody a p. apply Rabs_le_inv in Va, Vb.
  destruct (MAX_spec a slope_5m Fa slope_5m_fin) as [_ [Ha Hb]].
  unfold MAX in *. unfold Rmax.
  destruct (Dgt a slope_5m), (Rle_dec p (5000 / 60)); lra.
Qed.

(** [lrint (n / slope)] of the branch without an average depth against the
    quotient by the real slope. *)
Lemma lrint_max_slope (n max_d max_t : Z) :
  is_int n -> 0 <= n ->
  is_int max_d -> is_int max_t -> 0 < max_d -> 0 < max_t ->
  (Rabs (IZR (lrint (Ddiv (of_int n) (no_avg_slope max_d max_t)))
         - IZR n / Rmax (2 * IZR max_d / IZR max_t) (5000 / 60))
   <= / 2 + / 10000)%R.
Proof.
  intros Hn Hn0 Hd Ht Hd0 Ht0.
  destruct (no_avg_slope_value max_d max_t Hd Ht ltac:(lia)) as [Fs Hs].
  pose proof (lrint_div_near n _ Hn Hn0 Fs Hs) as Hl.
  destruct (div_by_slope n _ Hn Hn0 Fs Hs) as [_ Hx].
  destruct (no_avg_slope_real max_d max_t Hd Ht Hd0 Ht0) as [H1 H2].
  pose proof (is_int_bounds n Hn) as Bn.
  pose proof (Rmax_r (2 * IZR max_d / IZR max_t) (5000 / 60)) as HS.
  set (S := Rmax (2 * IZR max_d / IZR max_t) (5000 / 60)) in *.
  set (s := D2R (no_avg_slope max_d max_t)) in *.
  set (t := IZR (lrint _)) in *.
  clearbody S s t.
  assert (HS0 : (0 < S)%R) by lra.
  assert (Hi : (0 < / S)%R) by (apply Rinv_0_lt_compat; exact HS0).
  set (k := (s * / S)%R).
  assert (Hk : (- / 4503599627370496 <= k - 1 <= / 4503599627370496)%R).
  { assert (E1 : (S * (1 - / 4503599627370496) * / S
                  = 1 - / 4503599627370496)%R) by (field; lra).
    assert (E2 : (S * (1 + / 4503599627370496) * / S
                  = 1 + / 4503599627370496)%R) by (field; lra).
    assert (L1 : (S * (1 - / 4503599627370496) * / S <= s * / S)%R)
      by (apply Rmult_le_compat_r; lra).
    assert (L2 : (s * / S <= S * (1 + / 4503599627370496) * / S)%R)
      by (apply Rmult_le_compat_r; lra).
    unfold k. lra. }
  assert (Hx1 : (0 <= IZR n / s <= 33554432)%R) by lra.
  assert (E : (IZR n / S = IZR n / s + (k - 1) * (IZR n / s))%R)
    by (unfold k; field; lra).
  pose proof (prod_abs_bounds (k - 1) (IZR n / s) (/ 4503599627370496)
                33554432 Hk Hx1) as Hp.
  apply Rabs_le_inv in Hl. apply Rabs_le. lra.
Qed.

(** C5 as the spec words it fails at 10375 mm in 600 s: the slope is
    5000/60, [max_depth / slope] is 124.5, which the spec's rounding takes
    to 125 and [lrint] on the double quotient to 124. *)
Lemma C5_rounding_counterexample :
  point (at_ (sample (fake_dc (dive 600 10375 0))) 1) = (124, 10375) /\
  spec_deep_sample1 10375 600 = (125, 10375).
Proof. split; vm_compute; reflexivity. Qed.

(** C5, amended: without an average depth, at least 10 m deep and at least
    600 s long, the profile has 6 samples with the depths 0, [max_depth],
    [max_depth], 5000, 5000, 0, from time 0 to [max_time].  With the real
    slope [max (2 * max_depth / max_time) (5000 / 60)], the descent ends at
    [max_depth / slope] and sample 4 lies [5000 / slope] before [max_time],
    each rounded to a nearest second (within 1/2 + 1/10000, the quotient
    being a rounded double); sample 2 is 180 s plus the descent time before
    [max_time], and samples 3 and 4 are exactly 180 s apart. *)
Theorem C5_deep_and_long_profile (dc : struct_divecomputer) :
  let max_t := duration_seconds dc in
  let max_d := maxdepth_mm dc in
  let slope := Rmax (2 * IZR max_d / IZR max_t) (5000 / 60) in
  let t := fun i : nat => time_seconds (at_ (sample (fake_dc dc)) i) in
  is_int max_t -> is_int max_d -> meandepth_mm dc = 0 ->
  10000 <= max_d -> 600 <= max_t ->
  samples (fake_dc dc) = 6 /\
  map depth_mm (sample (fake_dc dc)) = [0; max_d; max_d; 5000; 5000; 0] /\
  t 0%nat = 0 /\ t 5%nat = max_t /\
  (Rabs (IZR (t 1%nat) - IZR max_d / slope) <= / 2 + / 10000)%R /\
  t 2%nat = max_t - t 1%nat - 180 /\
  t 4%nat - t 3%nat = 180 /\
  (Rabs (IZR (max_t - t 4%nat) - 5000 / slope) <= / 2 + / 10000)%R.
Proof.
  intros max_t max_d slope t Ht Hd Ha Hd1 Ht1. subst t slope.
  destruct (fake_dc_deep_and_long dc Ht Hd Ha Hd1 Ht1) as [E _].
  fold max_t max_d in E. rewrite E.
  assert (I5 : is_int 5000) by (unfold is_int, INT_MIN, INT_MAX; lia).
  pose proof (lrint_max_slope max_d max_d max_t Hd ltac:(lia) Hd Ht
                ltac:(lia) ltac:(lia)) as V1.
  pose proof (lrint_max_slope 5000 max_d max_t I5 ltac:(lia) Hd Ht
                ltac:(lia) ltac:(lia)) as V5.
  set (t1 := lrint (Ddiv (of_int max_d) _)) in *.
  set (t5 := lrint (Ddiv (of_int 5000) _)) in *.
  clearbody t1 t5.
  cbn [samples sample set_samples]. unfold at_, unavailable.
  cbn [map nth time_seconds depth_mm].
  split; [reflexivity|]. split; [reflexivity|].
  split; [reflexivity|]. split; [reflexivity|].
  split; [exact V1|]. split; [reflexivity|]. split; [lia|].
  replace (max_t - (max_t - t5)) with t5 by lia. exact V5.
Qed.

(** C5 at 30 m for 30 minutes: the slope is 5000/60 and the descent takes
    360 s. *)
Lemma C5_deep_and_long_profile_witness :
  map point (sample (fake_dc (dive 1800 30000 0))) =
    [(0, 0); (360, 30000); (1260, 30000); (1560, 5000); (1740, 5000);
     (1800, 0)] /\
  (Rabs (IZR (time_seconds (at_ (sample (fake_dc (dive 1800 30000 0))) 1))
         - IZR 30000 / Rmax (2 * IZR 30000 / IZR 1800) (5000 / 60))
   <= / 2 + / 10000)%R.
Proof.
  assert (Ht : is_int 1800) by (unfold is_int, INT_MIN, INT_MAX; lia).
  assert (Hd : is_int 30000) by (unfold is_int, INT_MIN, INT_MAX; lia).
  assert (H1 : 10000 <= 30000) by lia.
  assert (H2 : 600 <= 1800) by lia.
  destruct (C5_deep_and_long_profile (dive 1800 30000 0) Ht Hd eq_refl
              H1 H2) as [_ [_ [_ [_ [V _]]]]].
  split; [vm_compute; reflexivity | exact V].
Defined.
